(** * Reconciliation substrate of the laf control plane

    The development follows the four source files of the repository:

    - the Prisma schema (the persisted shape of every resource kind: the
      [state] / [phase] / [lockedAt] triple, its enumerations and defaults);
    - the gateway module of the server (which only wires providers);
    - [packages/system-server/src/index.ts] (the express server and the two
      process-level error handlers);
    - the [DataPanel] page of the web console (the [handleData] save handler).

    The lock manager, the transition executor and the retry controller that
    the specification describes are task services that the gateway module
    imports but whose bodies are not among these files; they are modelled
    from the specification and marked as such. *)

From Stdlib Require Import ZArith List String Ascii Bool Arith Lia.
From Stdlib Require Import DecimalString Relations.Relation_Operators.
Import ListNotations.
Open Scope string_scope.

(** A number as the text JavaScript prints for it. *)
Definition show_nat (n : nat) : string := NilZero.string_of_uint (Nat.to_uint n).

(** ** The Prisma schema as data *)

Module Schema.

(** How a field is declared: [T], [T?] or [T[]]. *)
Inductive Arity := Required | Optional | ListOf.

(** The argument of [@default(...)]. *)
Inductive Default :=
| DAuto
| DNow
| DEmptyList
| DBool (b : bool)
| DInt (n : Z)
| DString (s : string)
| DEnum (v : string).

(** Field attributes; the arguments of [@relation] are not kept. *)
Inductive Attr :=
| AId
| AUnique
| AUpdatedAt
| AMap (column : string)
| ADbObjectId
| ARelation.

Record Field := mkField {
  fname : string;
  ftype : string;
  farity : Arity;
  fdefault : option Default;
  fattrs : list Attr
}.

(** A [model] block (or a composite [type] block): its fields in order and
    its [@@unique] constraints. *)
Record Model := mkModel {
  mname : string;
  mfields : list Field;
  muniques : list (list string)
}.

Record Enum := mkEnum {
  ename : string;
  evalues : list string
}.

(** [enum NoteLevel], lines 42-47. *)
Definition NoteLevel : Enum :=
  mkEnum "NoteLevel" ["Info"; "Warning"; "Danger"; "Error"].

(** [type Note], lines 49-55. *)
Definition Note : Model :=
  mkModel "Note" [
    mkField "title" "String" Optional None [];
    mkField "content" "String" Optional None [];
    mkField "link" "String" Optional None [];
    mkField "lang" "String" Optional None [];
    mkField "level" "NoteLevel" Required (Some (DEnum "Info")) []
  ] [].

(** [model User], lines 59-69. *)
Definition User : Model :=
  mkModel "User" [
    mkField "id" "String" Required (Some (DAuto)) [AId; AMap "_id"; ADbObjectId];
    mkField "username" "String" Required None [AUnique];
    mkField "email" "String" Optional None [];
    mkField "phone" "String" Optional None [];
    mkField "createdAt" "DateTime" Required (Some (DNow)) [];
    mkField "updatedAt" "DateTime" Required None [AUpdatedAt];
    mkField "profile" "UserProfile" Optional None [];
    mkField "personalAccessTokens" "PersonalAccessToken" ListOf None []
  ] [].

(** [model UserPassword], lines 71-78. *)
Definition UserPassword : Model :=
  mkModel "UserPassword" [
    mkField "id" "String" Required (Some (DAuto)) [AId; AMap "_id"; ADbObjectId];
    mkField "uid" "String" Required None [ADbObjectId];
    mkField "password" "String" Required None [];
    mkField "state" "String" Required (Some (DString "Active")) [];
    mkField "createdAt" "DateTime" Required (Some (DNow)) [];
    mkField "updatedAt" "DateTime" Required None [AUpdatedAt]
  ] [].

(** [model UserProfile], lines 80-92. *)
Definition UserProfile : Model :=
  mkModel "UserProfile" [
    mkField "id" "String" Required (Some (DAuto)) [AId; AMap "_id"; ADbObjectId];
    mkField "uid" "String" Required None [AUnique; ADbObjectId];
    mkField "openid" "String" Optional None [];
    mkField "from" "String" Optional None [];
    mkField "openData" "Json" Optional None [];
    mkField "avatar" "String" Optional None [];
    mkField "name" "String" Optional None [];
    mkField "createdAt" "DateTime" Required (Some (DNow)) [];
    mkField "updatedAt" "DateTime" Required None [AUpdatedAt];
    mkField "user" "User" Required None [ARelation]
  ] [].

(** [model PersonalAccessToken], lines 94-103. *)
Definition PersonalAccessToken : Model :=
  mkModel "PersonalAccessToken" [
    mkField "id" "String" Required (Some (DAuto)) [AId; AMap "_id"; ADbObjectId];
    mkField "uid" "String" Required None [ADbObjectId];
    mkField "name" "String" Required None [];
    mkField "token" "String" Required None [AUnique];
    mkField "expiredAt" "DateTime" Required None [];
    mkField "createdAt" "DateTime" Required (Some (DNow)) [];
    mkField "user" "User" Required None [ARelation]
  ] [].

(** [type RegionClusterConf], lines 107-111. *)
Definition RegionClusterConf : Model :=
  mkModel "RegionClusterConf" [
    mkField "driver" "String" Required None [];
    mkField "kubeconfig" "String" Optional None [];
    mkField "npmInstallFlags" "String" Required (Some (DString EmptyString)) []
  ] [].

(** [type RegionDatabaseConf], lines 113-117. *)
Definition RegionDatabaseConf : Model :=
  mkModel "RegionDatabaseConf" [
    mkField "driver" "String" Required None [];
    mkField "connectionUri" "String" Required None [];
    mkField "controlConnectionUri" "String" Required None []
  ] [].

(** [type RegionGatewayConf], lines 119-126. *)
Definition RegionGatewayConf : Model :=
  mkModel "RegionGatewayConf" [
    mkField "driver" "String" Required None [];
    mkField "runtimeDomain" "String" Required None [];
    mkField "websiteDomain" "String" Required None [];
    mkField "port" "Int" Required (Some (DInt 80)) [];
    mkField "apiUrl" "String" Required None [];
    mkField "apiKey" "String" Required None []
  ] [].

(** [type RegionStorageConf], lines 128-136. *)
Definition RegionStorageConf : Model :=
  mkModel "RegionStorageConf" [
    mkField "driver" "String" Required None [];
    mkField "domain" "String" Required None [];
    mkField "externalEndpoint" "String" Required None [];
    mkField "internalEndpoint" "String" Required None [];
    mkField "accessKey" "String" Required None [];
    mkField "secretKey" "String" Required None [];
    mkField "controlEndpoint" "String" Required None []
  ] [].

(** [model Region], lines 138-156. *)
Definition Region : Model :=
  mkModel "Region" [
    mkField "id" "String" Required (Some (DAuto)) [AId; AMap "_id"; ADbObjectId];
    mkField "name" "String" Required None [AUnique];
    mkField "displayName" "String" Required None [];
    mkField "clusterConf" "RegionClusterConf" Required None [];
    mkField "databaseConf" "RegionDatabaseConf" Required None [];
    mkField "gatewayConf" "RegionGatewayConf" Required None [];
    mkField "storageConf" "RegionStorageConf" Required None [];
    mkField "tls" "Boolean" Required (Some (DBool false)) [];
    mkField "state" "String" Required (Some (DString "Active")) [];
    mkField "notes" "Note" ListOf None [];
    mkField "createdAt" "DateTime" Required (Some (DNow)) [];
    mkField "updatedAt" "DateTime" Required None [AUpdatedAt];
    mkField "applications" "Application" ListOf None [];
    mkField "bundles" "Bundle" ListOf None []
  ] [].

(** [type BundleResource], lines 158-177. *)
Definition BundleResource : Model :=
  mkModel "BundleResource" [
    mkField "limitCPU" "Int" Required None [];
    mkField "limitMemory" "Int" Required None [];
    mkField "requestCPU" "Int" Required None [];
    mkField "requestMemory" "Int" Required None [];
    mkField "databaseCapacity" "Int" Required None [];
    mkField "storageCapacity" "Int" Required None [];
    mkField "networkTrafficOutbound" "Int" Required None [];
    mkField "limitCountOfCloudFunction" "Int" Required None [];
    mkField "limitCountOfBucket" "Int" Required None [];
    mkField "limitCountOfDatabasePolicy" "Int" Required None [];
    mkField "limitCountOfTrigger" "Int" Required None [];
    mkField "limitCountOfWebsiteHosting" "Int" Required None [];
    mkField "reservedTimeAfterExpired" "Int" Required None [];
    mkField "limitDatabaseTPS" "Int" Required None [];
    mkField "limitStorageTPS" "Int" Required None []
  ] [].

(** [type BundleSubscriptionOption], lines 179-185. *)
Definition BundleSubscriptionOption : Model :=
  mkModel "BundleSubscriptionOption" [
    mkField "name" "String" Required None [];
    mkField "displayName" "String" Required None [];
    mkField "duration" "Int" Required None [];
    mkField "price" "Int" Required None [];
    mkField "specialPrice" "Int" Required None []
  ] [].

(** [model Bundle], lines 187-207. *)
Definition Bundle : Model :=
  mkModel "Bundle" [
    mkField "id" "String" Required (Some (DAuto)) [AId; AMap "_id"; ADbObjectId];
    mkField "name" "String" Required None [];
    mkField "displayName" "String" Required None [];
    mkField "regionId" "String" Required None [ADbObjectId];
    mkField "priority" "Int" Required (Some (DInt 0)) [];
    mkField "state" "String" Required (Some (DString "Active")) [];
    mkField "limitCountPerUser" "Int" Required None [];
    mkField "subscriptionOptions" "BundleSubscriptionOption" ListOf None [];
    mkField "maxRenewalTime" "Int" Required None [];
    mkField "resource" "BundleResource" Required None [];
    mkField "notes" "Note" ListOf None [];
    mkField "createdAt" "DateTime" Required (Some (DNow)) [];
    mkField "updatedAt" "DateTime" Required None [AUpdatedAt];
    mkField "region" "Region" Required None [ARelation]
  ] [["regionId"; "name"]].

(** [model ApplicationBundle], lines 209-221. *)
Definition ApplicationBundle : Model :=
  mkModel "ApplicationBundle" [
    mkField "id" "String" Required (Some (DAuto)) [AId; AMap "_id"; ADbObjectId];
    mkField "appid" "String" Required None [AUnique];
    mkField "bundleId" "String" Required None [ADbObjectId];
    mkField "name" "String" Required None [];
    mkField "displayName" "String" Required None [];
    mkField "resource" "BundleResource" Required None [];
    mkField "createdAt" "DateTime" Required (Some (DNow)) [];
    mkField "updatedAt" "DateTime" Required None [AUpdatedAt];
    mkField "application" "Application" Required None [ARelation]
  ] [].

(** [type RuntimeImageGroup], lines 223-227. *)
Definition RuntimeImageGroup : Model :=
  mkModel "RuntimeImageGroup" [
    mkField "main" "String" Required None [];
    mkField "init" "String" Optional None [];
    mkField "sidecar" "String" Optional None []
  ] [].

(** [model Runtime], lines 229-238. *)
Definition Runtime : Model :=
  mkModel "Runtime" [
    mkField "id" "String" Required (Some (DAuto)) [AId; AMap "_id"; ADbObjectId];
    mkField "name" "String" Required None [AUnique];
    mkField "type" "String" Required None [];
    mkField "image" "RuntimeImageGroup" Required None [];
    mkField "state" "String" Required (Some (DString "Active")) [];
    mkField "version" "String" Required None [];
    mkField "latest" "Boolean" Required None [];
    mkField "Application" "Application" ListOf None []
  ] [].

(** [enum SubscriptionState], lines 253-256. *)
Definition SubscriptionState : Enum :=
  mkEnum "SubscriptionState" ["Created"; "Deleted"].

(** [enum SubscriptionPhase], lines 258-264. *)
Definition SubscriptionPhase : Enum :=
  mkEnum "SubscriptionPhase" ["Pending"; "Valid"; "Expired"; "ExpiredAndStopped"; "Deleted"].

(** [enum SubscriptionRenewalPlan], lines 266-270. *)
Definition SubscriptionRenewalPlan : Enum :=
  mkEnum "SubscriptionRenewalPlan" ["Manual"; "Monthly"; "Yearly"].

(** [type SubscriptionApplicationCreateInput], lines 272-277. *)
Definition SubscriptionApplicationCreateInput : Model :=
  mkModel "SubscriptionApplicationCreateInput" [
    mkField "name" "String" Required None [];
    mkField "state" "String" Required None [];
    mkField "runtimeId" "String" Required None [];
    mkField "regionId" "String" Required None []
  ] [].

(** [model Subscription], lines 279-294. *)
Definition Subscription : Model :=
  mkModel "Subscription" [
    mkField "id" "String" Required (Some (DAuto)) [AId; AMap "_id"; ADbObjectId];
    mkField "input" "SubscriptionApplicationCreateInput" Required None [];
    mkField "bundleId" "String" Required None [ADbObjectId];
    mkField "appid" "String" Required None [AUnique];
    mkField "state" "SubscriptionState" Required (Some (DEnum "Created")) [];
    mkField "phase" "SubscriptionPhase" Required (Some (DEnum "Pending")) [];
    mkField "renewalPlan" "SubscriptionRenewalPlan" Required (Some (DEnum "Manual")) [];
    mkField "expiredAt" "DateTime" Required None [];
    mkField "lockedAt" "DateTime" Required None [];
    mkField "createdAt" "DateTime" Required (Some (DNow)) [];
    mkField "updatedAt" "DateTime" Required None [AUpdatedAt];
    mkField "createdBy" "String" Required None [ADbObjectId];
    mkField "application" "Application" Optional None []
  ] [].

(** [enum SubscriptionRenewalPhase], lines 296-300. *)
Definition SubscriptionRenewalPhase : Enum :=
  mkEnum "SubscriptionRenewalPhase" ["Pending"; "Paid"; "Failed"].

(** [model SubscriptionRenewal], lines 302-313. *)
Definition SubscriptionRenewal : Model :=
  mkModel "SubscriptionRenewal" [
    mkField "id" "String" Required (Some (DAuto)) [AId; AMap "_id"; ADbObjectId];
    mkField "subscriptionId" "String" Required None [ADbObjectId];
    mkField "duration" "Int" Required None [];
    mkField "amount" "Int" Required None [];
    mkField "phase" "SubscriptionRenewalPhase" Required (Some (DEnum "Pending")) [];
    mkField "message" "String" Optional None [];
    mkField "lockedAt" "DateTime" Required None [];
    mkField "createdAt" "DateTime" Required (Some (DNow)) [];
    mkField "updatedAt" "DateTime" Required None [AUpdatedAt];
    mkField "createdBy" "String" Required None [ADbObjectId]
  ] [].

(** [enum SubscriptionUpgradePhase], lines 316-320. *)
Definition SubscriptionUpgradePhase : Enum :=
  mkEnum "SubscriptionUpgradePhase" ["Pending"; "Completed"; "Failed"].

(** [model SubscriptionUpgrade], lines 322-334. *)
Definition SubscriptionUpgrade : Model :=
  mkModel "SubscriptionUpgrade" [
    mkField "id" "String" Required (Some (DAuto)) [AId; AMap "_id"; ADbObjectId];
    mkField "appid" "String" Required None [];
    mkField "subscriptionId" "String" Required None [];
    mkField "originalBundleId" "String" Required None [ADbObjectId];
    mkField "targetBundleId" "String" Required None [ADbObjectId];
    mkField "phase" "SubscriptionUpgradePhase" Required (Some (DEnum "Pending")) [];
    mkField "restart" "Boolean" Required (Some (DBool false)) [];
    mkField "message" "String" Optional None [];
    mkField "lockedAt" "DateTime" Required None [];
    mkField "createdAt" "DateTime" Required (Some (DNow)) [];
    mkField "updatedAt" "DateTime" Required None [AUpdatedAt]
  ] [].

(** [model Account], lines 338-345. *)
Definition Account : Model :=
  mkModel "Account" [
    mkField "id" "String" Required (Some (DAuto)) [AId; AMap "_id"; ADbObjectId];
    mkField "balance" "Int" Required (Some (DInt 0)) [];
    mkField "state" "String" Required (Some (DString "Active")) [];
    mkField "createdAt" "DateTime" Required (Some (DNow)) [];
    mkField "updatedAt" "DateTime" Required None [AUpdatedAt];
    mkField "createdBy" "String" Required None [AUnique; ADbObjectId]
  ] [].

(** [model AccountTransaction], lines 347-355. *)
Definition AccountTransaction : Model :=
  mkModel "AccountTransaction" [
    mkField "id" "String" Required (Some (DAuto)) [AId; AMap "_id"; ADbObjectId];
    mkField "accountId" "String" Required None [ADbObjectId];
    mkField "amount" "Int" Required None [];
    mkField "balance" "Int" Required None [];
    mkField "message" "String" Optional None [];
    mkField "createdAt" "DateTime" Required (Some (DNow)) [];
    mkField "updatedAt" "DateTime" Required None [AUpdatedAt]
  ] [].

(** [enum AccountChargePhase], lines 357-361. *)
Definition AccountChargePhase : Enum :=
  mkEnum "AccountChargePhase" ["Pending"; "Paid"; "Failed"].

(** [enum Currency], lines 363-366. *)
Definition Currency : Enum :=
  mkEnum "Currency" ["CNY"; "USD"].

(** [model AccountChargeOrder], lines 368-381. *)
Definition AccountChargeOrder : Model :=
  mkModel "AccountChargeOrder" [
    mkField "id" "String" Required (Some (DAuto)) [AId; AMap "_id"; ADbObjectId];
    mkField "accountId" "String" Required None [ADbObjectId];
    mkField "amount" "Int" Required None [];
    mkField "currency" "Currency" Required None [];
    mkField "phase" "AccountChargePhase" Required (Some (DEnum "Pending")) [];
    mkField "channel" "PaymentChannelType" Required None [];
    mkField "result" "Json" Optional None [];
    mkField "message" "String" Optional None [];
    mkField "createdAt" "DateTime" Required (Some (DNow)) [];
    mkField "lockedAt" "DateTime" Required None [];
    mkField "updatedAt" "DateTime" Required None [AUpdatedAt];
    mkField "createdBy" "String" Required None [ADbObjectId]
  ] [].

(** [enum PaymentChannelType], lines 383-390. *)
Definition PaymentChannelType : Enum :=
  mkEnum "PaymentChannelType" ["Manual"; "Alipay"; "WeChat"; "Stripe"; "Paypal"; "Google"].

(** [model PaymentChannel], lines 392-401. *)
Definition PaymentChannel : Model :=
  mkModel "PaymentChannel" [
    mkField "id" "String" Required (Some (DAuto)) [AId; AMap "_id"; ADbObjectId];
    mkField "type" "PaymentChannelType" Required None [];
    mkField "name" "String" Required None [];
    mkField "spec" "Json" Required None [];
    mkField "state" "String" Required (Some (DString "Active")) [];
    mkField "notes" "Note" ListOf None [];
    mkField "createdAt" "DateTime" Required (Some (DNow)) [];
    mkField "updatedAt" "DateTime" Required None [AUpdatedAt]
  ] [].

(** [enum ApplicationState], lines 406-411. *)
Definition ApplicationState : Enum :=
  mkEnum "ApplicationState" ["Running"; "Stopped"; "Restarting"; "Deleted"].

(** [enum ApplicationPhase], lines 414-423. *)
Definition ApplicationPhase : Enum :=
  mkEnum "ApplicationPhase" ["Creating"; "Created"; "Starting"; "Started"; "Stopping"; "Stopped"; "Deleting"; "Deleted"].

(** [model Application], lines 425-448. *)
Definition Application : Model :=
  mkModel "Application" [
    mkField "id" "String" Required (Some (DAuto)) [AId; AMap "_id"; ADbObjectId];
    mkField "name" "String" Required None [];
    mkField "appid" "String" Required None [AUnique];
    mkField "regionId" "String" Required None [ADbObjectId];
    mkField "runtimeId" "String" Required None [ADbObjectId];
    mkField "tags" "String" ListOf None [];
    mkField "state" "ApplicationState" Required (Some (DEnum "Running")) [];
    mkField "phase" "ApplicationPhase" Required (Some (DEnum "Creating")) [];
    mkField "createdAt" "DateTime" Required (Some (DNow)) [];
    mkField "updatedAt" "DateTime" Required None [AUpdatedAt];
    mkField "lockedAt" "DateTime" Required None [];
    mkField "createdBy" "String" Required None [ADbObjectId];
    mkField "region" "Region" Required None [ARelation];
    mkField "runtime" "Runtime" Required None [ARelation];
    mkField "configuration" "ApplicationConfiguration" Optional None [];
    mkField "storageUser" "StorageUser" Optional None [];
    mkField "database" "Database" Optional None [];
    mkField "domain" "RuntimeDomain" Optional None [];
    mkField "bundle" "ApplicationBundle" Optional None [];
    mkField "subscription" "Subscription" Required None [ARelation]
  ] [].

(** [type EnvironmentVariable], lines 450-453. *)
Definition EnvironmentVariable : Model :=
  mkModel "EnvironmentVariable" [
    mkField "name" "String" Required None [];
    mkField "value" "String" Required None []
  ] [].

(** [model ApplicationConfiguration], lines 455-465. *)
Definition ApplicationConfiguration : Model :=
  mkModel "ApplicationConfiguration" [
    mkField "id" "String" Required (Some (DAuto)) [AId; AMap "_id"; ADbObjectId];
    mkField "appid" "String" Required None [AUnique];
    mkField "environments" "EnvironmentVariable" ListOf None [];
    mkField "dependencies" "String" ListOf (Some (DEmptyList)) [];
    mkField "createdAt" "DateTime" Required (Some (DNow)) [];
    mkField "updatedAt" "DateTime" Required None [AUpdatedAt];
    mkField "application" "Application" Required None [ARelation]
  ] [].

(** [enum StorageState], lines 469-473. *)
Definition StorageState : Enum :=
  mkEnum "StorageState" ["Active"; "Inactive"; "Deleted"].

(** [enum StoragePhase], lines 475-480. *)
Definition StoragePhase : Enum :=
  mkEnum "StoragePhase" ["Creating"; "Created"; "Deleting"; "Deleted"].

(** [model StorageUser], lines 482-494. *)
Definition StorageUser : Model :=
  mkModel "StorageUser" [
    mkField "id" "String" Required (Some (DAuto)) [AId; AMap "_id"; ADbObjectId];
    mkField "appid" "String" Required None [AUnique];
    mkField "accessKey" "String" Required None [];
    mkField "secretKey" "String" Required None [];
    mkField "state" "StorageState" Required (Some (DEnum "Active")) [];
    mkField "phase" "StoragePhase" Required (Some (DEnum "Creating")) [];
    mkField "lockedAt" "DateTime" Required None [];
    mkField "createdAt" "DateTime" Required (Some (DNow)) [];
    mkField "updatedAt" "DateTime" Required None [AUpdatedAt];
    mkField "application" "Application" Required None [ARelation]
  ] [].

(** [enum BucketPolicy], lines 496-500. *)
Definition BucketPolicy : Enum :=
  mkEnum "BucketPolicy" ["readwrite"; "readonly"; "private"].

(** [model StorageBucket], lines 502-516. *)
Definition StorageBucket : Model :=
  mkModel "StorageBucket" [
    mkField "id" "String" Required (Some (DAuto)) [AId; AMap "_id"; ADbObjectId];
    mkField "appid" "String" Required None [];
    mkField "name" "String" Required None [AUnique];
    mkField "shortName" "String" Required None [];
    mkField "policy" "BucketPolicy" Required None [];
    mkField "state" "StorageState" Required (Some (DEnum "Active")) [];
    mkField "phase" "StoragePhase" Required (Some (DEnum "Creating")) [];
    mkField "lockedAt" "DateTime" Required None [];
    mkField "createdAt" "DateTime" Required (Some (DNow)) [];
    mkField "updatedAt" "DateTime" Required None [AUpdatedAt];
    mkField "domain" "BucketDomain" Optional None [];
    mkField "websiteHosting" "WebsiteHosting" Optional None []
  ] [].

(** [enum DatabaseState], lines 520-524. *)
Definition DatabaseState : Enum :=
  mkEnum "DatabaseState" ["Active"; "Inactive"; "Deleted"].

(** [enum DatabasePhase], lines 526-531. *)
Definition DatabasePhase : Enum :=
  mkEnum "DatabasePhase" ["Creating"; "Created"; "Deleting"; "Deleted"].

(** [model Database], lines 533-546. *)
Definition Database : Model :=
  mkModel "Database" [
    mkField "id" "String" Required (Some (DAuto)) [AId; AMap "_id"; ADbObjectId];
    mkField "appid" "String" Required None [AUnique];
    mkField "name" "String" Required None [];
    mkField "user" "String" Required None [];
    mkField "password" "String" Required None [];
    mkField "state" "DatabaseState" Required (Some (DEnum "Active")) [];
    mkField "phase" "DatabasePhase" Required (Some (DEnum "Creating")) [];
    mkField "lockedAt" "DateTime" Required None [];
    mkField "createdAt" "DateTime" Required (Some (DNow)) [];
    mkField "updatedAt" "DateTime" Required None [AUpdatedAt];
    mkField "application" "Application" Required None [ARelation]
  ] [].

(** [model DatabasePolicy], lines 548-558. *)
Definition DatabasePolicy : Model :=
  mkModel "DatabasePolicy" [
    mkField "id" "String" Required (Some (DAuto)) [AId; AMap "_id"; ADbObjectId];
    mkField "appid" "String" Required None [];
    mkField "name" "String" Required None [];
    mkField "injector" "String" Optional None [];
    mkField "rules" "DatabasePolicyRule" ListOf None [];
    mkField "createdAt" "DateTime" Required (Some (DNow)) [];
    mkField "updatedAt" "DateTime" Required None [AUpdatedAt]
  ] [["appid"; "name"]].

(** [model DatabasePolicyRule], lines 560-572. *)
Definition DatabasePolicyRule : Model :=
  mkModel "DatabasePolicyRule" [
    mkField "id" "String" Required (Some (DAuto)) [AId; AMap "_id"; ADbObjectId];
    mkField "appid" "String" Required None [];
    mkField "policyName" "String" Required None [];
    mkField "collectionName" "String" Required None [];
    mkField "value" "Json" Required None [];
    mkField "createdAt" "DateTime" Required (Some (DNow)) [];
    mkField "updatedAt" "DateTime" Required None [AUpdatedAt];
    mkField "policy" "DatabasePolicy" Required None [ARelation]
  ] [["appid"; "policyName"; "collectionName"]].

(** [enum HttpMethod], lines 576-583. *)
Definition HttpMethod : Enum :=
  mkEnum "HttpMethod" ["GET"; "POST"; "PUT"; "DELETE"; "PATCH"; "HEAD"].

(** [type CloudFunctionSource], lines 585-592. *)
Definition CloudFunctionSource : Model :=
  mkModel "CloudFunctionSource" [
    mkField "code" "String" Required None [];
    mkField "compiled" "String" Optional None [];
    mkField "uri" "String" Optional None [];
    mkField "version" "Int" Required (Some (DInt 0)) [];
    mkField "hash" "String" Optional None [];
    mkField "lang" "String" Optional None []
  ] [].

(** [model CloudFunction], lines 594-610. *)
Definition CloudFunction : Model :=
  mkModel "CloudFunction" [
    mkField "id" "String" Required (Some (DAuto)) [AId; AMap "_id"; ADbObjectId];
    mkField "appid" "String" Required None [];
    mkField "name" "String" Required None [];
    mkField "source" "CloudFunctionSource" Required None [];
    mkField "desc" "String" Required None [];
    mkField "tags" "String" ListOf None [];
    mkField "methods" "HttpMethod" ListOf None [];
    mkField "params" "Json" Optional None [];
    mkField "createdAt" "DateTime" Required (Some (DNow)) [];
    mkField "updatedAt" "DateTime" Required None [AUpdatedAt];
    mkField "createdBy" "String" Required None [ADbObjectId];
    mkField "cronTriggers" "CronTrigger" ListOf None []
  ] [["appid"; "name"]].

(** [enum TriggerState], lines 613-617. *)
Definition TriggerState : Enum :=
  mkEnum "TriggerState" ["Active"; "Inactive"; "Deleted"].

(** [enum TriggerPhase], lines 620-625. *)
Definition TriggerPhase : Enum :=
  mkEnum "TriggerPhase" ["Creating"; "Created"; "Deleting"; "Deleted"].

(** [model CronTrigger], lines 627-640. *)
Definition CronTrigger : Model :=
  mkModel "CronTrigger" [
    mkField "id" "String" Required (Some (DAuto)) [AId; AMap "_id"; ADbObjectId];
    mkField "appid" "String" Required None [];
    mkField "desc" "String" Required None [];
    mkField "cron" "String" Required None [];
    mkField "target" "String" Required None [];
    mkField "state" "TriggerState" Required (Some (DEnum "Active")) [];
    mkField "phase" "TriggerPhase" Required (Some (DEnum "Creating")) [];
    mkField "lockedAt" "DateTime" Required None [];
    mkField "createdAt" "DateTime" Required (Some (DNow)) [];
    mkField "updatedAt" "DateTime" Required None [AUpdatedAt];
    mkField "cloudFunction" "CloudFunction" Required None [ARelation]
  ] [].

(** [enum DomainState], lines 645-649. *)
Definition DomainState : Enum :=
  mkEnum "DomainState" ["Active"; "Inactive"; "Deleted"].

(** [enum DomainPhase], lines 652-657. *)
Definition DomainPhase : Enum :=
  mkEnum "DomainPhase" ["Creating"; "Created"; "Deleting"; "Deleted"].

(** [model RuntimeDomain], lines 659-670. *)
Definition RuntimeDomain : Model :=
  mkModel "RuntimeDomain" [
    mkField "id" "String" Required (Some (DAuto)) [AId; AMap "_id"; ADbObjectId];
    mkField "appid" "String" Required None [AUnique];
    mkField "domain" "String" Required None [AUnique];
    mkField "state" "DomainState" Required (Some (DEnum "Active")) [];
    mkField "phase" "DomainPhase" Required (Some (DEnum "Creating")) [];
    mkField "lockedAt" "DateTime" Required None [];
    mkField "createdAt" "DateTime" Required (Some (DNow)) [];
    mkField "updatedAt" "DateTime" Required None [AUpdatedAt];
    mkField "application" "Application" Required None [ARelation]
  ] [].

(** [model BucketDomain], lines 672-684. *)
Definition BucketDomain : Model :=
  mkModel "BucketDomain" [
    mkField "id" "String" Required (Some (DAuto)) [AId; AMap "_id"; ADbObjectId];
    mkField "appid" "String" Required None [];
    mkField "bucketName" "String" Required None [AUnique];
    mkField "domain" "String" Required None [AUnique];
    mkField "state" "DomainState" Required (Some (DEnum "Active")) [];
    mkField "phase" "DomainPhase" Required (Some (DEnum "Creating")) [];
    mkField "lockedAt" "DateTime" Required None [];
    mkField "createdAt" "DateTime" Required (Some (DNow)) [];
    mkField "updatedAt" "DateTime" Required None [AUpdatedAt];
    mkField "bucket" "StorageBucket" Required None [ARelation]
  ] [].

(** [model WebsiteHosting], lines 686-699. *)
Definition WebsiteHosting : Model :=
  mkModel "WebsiteHosting" [
    mkField "id" "String" Required (Some (DAuto)) [AId; AMap "_id"; ADbObjectId];
    mkField "appid" "String" Required None [];
    mkField "bucketName" "String" Required None [AUnique];
    mkField "domain" "String" Required None [AUnique];
    mkField "isCustom" "Boolean" Required (Some (DBool false)) [];
    mkField "state" "DomainState" Required (Some (DEnum "Active")) [];
    mkField "phase" "DomainPhase" Required (Some (DEnum "Creating")) [];
    mkField "createdAt" "DateTime" Required (Some (DNow)) [];
    mkField "updatedAt" "DateTime" Required None [AUpdatedAt];
    mkField "lockedAt" "DateTime" Required None [];
    mkField "bucket" "StorageBucket" Required None [ARelation]
  ] [].

(** [enum AuthProviderState], lines 701-704. *)
Definition AuthProviderState : Enum :=
  mkEnum "AuthProviderState" ["Enabled"; "Disabled"].

(** [model AuthProvider], lines 706-717. *)
Definition AuthProvider : Model :=
  mkModel "AuthProvider" [
    mkField "id" "String" Required (Some (DAuto)) [AId; AMap "_id"; ADbObjectId];
    mkField "name" "String" Required None [AUnique];
    mkField "bind" "Json" Required None [];
    mkField "register" "Boolean" Required None [];
    mkField "default" "Boolean" Required None [];
    mkField "state" "AuthProviderState" Required None [];
    mkField "config" "Json" Required None [];
    mkField "notes" "Note" ListOf None [];
    mkField "createdAt" "DateTime" Required (Some (DNow)) [];
    mkField "updatedAt" "DateTime" Required None [AUpdatedAt]
  ] [].

(** [enum SmsVerifyCodeType], lines 720-727. *)
Definition SmsVerifyCodeType : Enum :=
  mkEnum "SmsVerifyCodeType" ["Signin"; "Signup"; "ResetPassword"; "Bind"; "Unbind"; "ChangePhone"].

(** [model SmsVerifyCode], lines 729-738. *)
Definition SmsVerifyCode : Model :=
  mkModel "SmsVerifyCode" [
    mkField "id" "String" Required (Some (DAuto)) [AId; AMap "_id"; ADbObjectId];
    mkField "phone" "String" Required None [];
    mkField "code" "String" Required None [];
    mkField "ip" "String" Required None [];
    mkField "type" "SmsVerifyCodeType" Required None [];
    mkField "state" "Int" Required (Some (DInt 0)) [];
    mkField "createdAt" "DateTime" Required (Some (DNow)) [];
    mkField "updatedAt" "DateTime" Required None [AUpdatedAt]
  ] [].

(** [model Setting], lines 740-746. *)
Definition Setting : Model :=
  mkModel "Setting" [
    mkField "id" "String" Required (Some (DAuto)) [AId; AMap "_id"; ADbObjectId];
    mkField "key" "String" Required None [AUnique];
    mkField "value" "String" Required None [];
    mkField "desc" "String" Required None [];
    mkField "metadata" "Json" Optional None []
  ] [].

Definition enums : list Enum :=
  [NoteLevel; SubscriptionState; SubscriptionPhase; 
   SubscriptionRenewalPlan; SubscriptionRenewalPhase; 
   SubscriptionUpgradePhase; AccountChargePhase; Currency; 
   PaymentChannelType; ApplicationState; ApplicationPhase; StorageState; 
   StoragePhase; BucketPolicy; DatabaseState; DatabasePhase; HttpMethod; 
   TriggerState; TriggerPhase; DomainState; DomainPhase; 
   AuthProviderState; SmsVerifyCodeType].

Definition types : list Model :=
  [Note; RegionClusterConf; RegionDatabaseConf; RegionGatewayConf; 
   RegionStorageConf; BundleResource; BundleSubscriptionOption; 
   RuntimeImageGroup; SubscriptionApplicationCreateInput; 
   EnvironmentVariable; CloudFunctionSource].

Definition models : list Model :=
  [User; UserPassword; UserProfile; PersonalAccessToken; Region; Bundle; 
   ApplicationBundle; Runtime; Subscription; SubscriptionRenewal; 
   SubscriptionUpgrade; Account; AccountTransaction; AccountChargeOrder; 
   PaymentChannel; Application; ApplicationConfiguration; StorageUser; 
   StorageBucket; Database; DatabasePolicy; DatabasePolicyRule; 
   CloudFunction; CronTrigger; RuntimeDomain; BucketDomain; 
   WebsiteHosting; AuthProvider; SmsVerifyCode; Setting].

(** *** Queries on the schema *)

Definition field_of (m : Model) (n : string) : option Field :=
  find (fun f => String.eqb (fname f) n) (mfields m).

Definition has_field (m : Model) (n : string) : bool :=
  match field_of m n with Some _ => true | None => false end.

Definition enum_values (t : string) : list string :=
  match find (fun e => String.eqb (ename e) t) enums with
  | Some e => evalues e
  | None => []
  end.

Definition is_enum (t : string) : bool :=
  existsb (fun e => String.eqb (ename e) t) enums.

Definition mem (s : string) (l : list string) : bool :=
  existsb (String.eqb s) l.

(** A required field whose type is one of the schema's enumerations. *)
Definition has_enum_field (m : Model) (n : string) : bool :=
  match field_of m n with
  | Some f =>
      is_enum (ftype f) && match farity f with Required => true | _ => false end
  | None => false
  end.

(** A required scalar field of the given type. *)
Definition has_required (m : Model) (n ty : string) : bool :=
  match field_of m n with
  | Some f =>
      String.eqb (ftype f) ty && match farity f with Required => true | _ => false end
  | None => false
  end.

(** An optional scalar field of the given type ([T?]). *)
Definition has_optional (m : Model) (n ty : string) : bool :=
  match field_of m n with
  | Some f =>
      String.eqb (ftype f) ty && match farity f with Optional => true | _ => false end
  | None => false
  end.

Definition attr_eqb (a b : Attr) : bool :=
  match a, b with
  | AId, AId | AUnique, AUnique | AUpdatedAt, AUpdatedAt
  | ADbObjectId, ADbObjectId | ARelation, ARelation => true
  | AMap x, AMap y => String.eqb x y
  | _, _ => false
  end.

Definition has_attr (m : Model) (n : string) (a : Attr) : bool :=
  match field_of m n with
  | Some f => existsb (attr_eqb a) (fattrs f)
  | None => false
  end.

(** The value a new document gets for an enum-typed field with
    [@default(V)]. *)
Definition default_enum (m : Model) (n : string) : option string :=
  match field_of m n with
  | Some f => match fdefault f with Some (DEnum v) => Some v | _ => None end
  | None => None
  end.

(** The resource kinds of the engine are the models that carry the lock
    timestamp [lockedAt]. *)
Definition is_resource_kind (m : Model) : bool := has_field m "lockedAt".

Definition resource_kinds : list Model := filter is_resource_kind models.

(** The values of the enumeration behind a model's [phase] (resp. [state])
    field; empty when the model has no such field. *)
Definition phase_values (m : Model) : list string :=
  match field_of m "phase" with Some f => enum_values (ftype f) | None => [] end.

Definition state_values (m : Model) : list string :=
  match field_of m "state" with Some f => enum_values (ftype f) | None => [] end.

(** The kind's terminal Failed phase, when its phase enumeration has one. *)
Definition failed_phase (m : Model) : option string :=
  if mem "Failed" (phase_values m) then Some "Failed" else None.

(** The field that plays the owner key: the application identifier, or the
    subscription / account the order-like kinds belong to. *)
Definition owner_key_names : list string := ["appid"; "subscriptionId"; "accountId"].

Definition has_owner_key (m : Model) : bool :=
  existsb (fun n => has_required m n "String") owner_key_names.

(** In-progress phases among all phase enumerations of the schema
    ([Creating // app resources creating], [Starting // instance starting],
    ...); the others ([Created], [Started], [Stopped], [Deleted], [Valid],
    [Expired], [ExpiredAndStopped], [Paid], [Completed], [Failed]) are
    settled phases. *)
Definition in_progress_phases : list string :=
  ["Creating"; "Starting"; "Stopping"; "Deleting"; "Pending"].

Definition in_progress (p : string) : bool := mem p in_progress_phases.

(** The optional text fields of a model, under whatever name. *)
Definition optional_strings (m : Model) : list string :=
  map fname
    (filter (fun f => String.eqb (ftype f) "String"
                      && match farity f with Optional => true | _ => false end)
       (mfields m)).

(** The enum-typed fields of a model, under whatever name. *)
Definition enum_fields (m : Model) : list string :=
  map fname (filter (fun f => is_enum (ftype f)) (mfields m)).

(** *** The Resource Record fields of section 3, as a kind persists them *)

Definition carries_identity (m : Model) : bool :=
  has_required m "id" "String" && has_attr m "id" AId.

Definition carries_desired_state (m : Model) : bool := has_enum_field m "state".

Definition carries_actual_phase (m : Model) : bool := has_enum_field m "phase".

Definition carries_lock (m : Model) : bool := has_required m "lockedAt" "DateTime".

Definition carries_message (m : Model) : bool := has_optional m "message" "String".

Definition carries_audit (m : Model) : bool :=
  has_required m "createdAt" "DateTime"
  && has_required m "updatedAt" "DateTime"
  && has_attr m "updatedAt" AUpdatedAt.

Definition carries_all_record_fields (m : Model) : bool :=
  carries_identity m && has_owner_key m && carries_desired_state m
  && carries_actual_phase m && carries_lock m && carries_message m
  && carries_audit m.

(** What every kind does persist: everything but one of desired state and
    message, of which it has exactly one. *)
Definition carries_common_fields (m : Model) : bool :=
  carries_identity m && has_owner_key m && carries_actual_phase m
  && carries_lock m && carries_audit m
  && xorb (carries_desired_state m) (carries_message m)
  && Bool.eqb (has_field m "state") (carries_desired_state m)
  && Bool.eqb (has_field m "message") (carries_message m).

Definition first_is (l : list string) (v : string) : bool :=
  match l with
  | x :: _ => String.eqb x v
  | [] => false
  end.

(** A new document starts in the first phase of its enumeration, and that
    phase is an in-progress one. *)
Definition initial_phase_ok (m : Model) : bool :=
  match default_enum m "phase" with
  | Some p => in_progress p && first_is (phase_values m) p
  | None => false
  end.

(** A new document starts in the first desired state of its enumeration, and
    that state is not Deleted. *)
Definition initial_state_ok (m : Model) : bool :=
  match default_enum m "state" with
  | Some s => negb (String.eqb s "Deleted") && first_is (state_values m) s
  | None => false
  end.

(** The check that a kind with a desired state has no Failed phase. *)
Definition state_excludes_failed (k : Model) : bool :=
  match state_values k with
  | [] => true
  | _ :: _ => match failed_phase k with None => true | Some _ => false end
  end.

(** The check that a kind with a Failed phase calls it [Failed], has a
    message column and has no desired state. *)
Definition failed_goes_with_message (k : Model) : bool :=
  match failed_phase k with
  | Some f => String.eqb f "Failed" && carries_message k && negb (has_field k "state")
  | None => true
  end.

End Schema.


(** ** The gateway module *)

Module Gateway.

(** [@Module({ imports, providers, exports })] of [GatewayModule]: the three
    task services it registers are the reconciliation loops of the domain
    kinds; the module only wires them, their bodies are in files of their
    own. *)
Record NestModule := mkNestModule {
  imports : list string;
  providers : list string;
  exports : list string
}.

Definition GatewayModule : NestModule :=
  mkNestModule
    ["HttpModule"]
    ["RuntimeDomainService"; "ApisixService"; "BucketDomainService";
     "WebsiteTaskService"; "BucketDomainTaskService"; "RuntimeDomainTaskService";
     "ApisixCustomCertService"]
    ["RuntimeDomainService"; "BucketDomainService"].

End Gateway.

(** ** Resource records and the lock manager *)

Module Lock.

Local Open Scope Z_scope.

(** Modelled from the spec: the Resource Record of section 3, the shape the
    task services read and write; the schema above gives each kind's columns,
    the services themselves are not among the sources. Timestamps are
    milliseconds as integers; [desiredState] is [None] for a kind without a
    [state] column. *)
Record ResourceRecord := mkRecord {
  id : string;
  ownerKey : string;
  desiredState : option string;
  actualPhase : string;
  lockedAt : option Z;
  message : option string;
  createdAt : Z;
  updatedAt : Z
}.

(** Modelled from the spec: a write of [lockedAt] alone, the only field the
    lock manager touches. *)
Definition set_lockedAt (l : option Z) (r : ResourceRecord) : ResourceRecord :=
  mkRecord (id r) (ownerKey r) (desiredState r) (actualPhase r) l
           (message r) (createdAt r) (updatedAt r).

(** Modelled from the spec: the result of [tryAcquire] (section 4.1),
    [LeaseToken | Denied]. *)
Inductive AcquireResult :=
| LeaseToken (token : Z)
| Denied.

(** Modelled from the spec: [isExpired(record, now)] of section 4.1, for the
    configured lease duration. A record is unlocked when [lockedAt] is absent
    or the lease that started at [lockedAt] has run for [leaseDuration]; the
    boundary is the one of section 8, claimable again at
    [T + leaseDuration] and never before. *)
Definition isExpired (leaseDuration : Z) (r : ResourceRecord) (now : Z) : bool :=
  match lockedAt r with
  | None => true
  | Some t => t + leaseDuration <=? now
  end.

(** Modelled from the spec: the compare-and-set of section 4.1 on one record;
    the test and the write are one step. *)
Definition acquire_record (leaseDuration now : Z) (r : ResourceRecord)
  : AcquireResult * ResourceRecord :=
  if isExpired leaseDuration r now
  then (LeaseToken now, set_lockedAt (Some now) r)
  else (Denied, r).

(** Modelled from the spec: [release] of section 4.1 on one record, a no-op
    when the token no longer matches the record's [lockedAt]. *)
Definition release_record (token : Z) (r : ResourceRecord) : ResourceRecord :=
  match lockedAt r with
  | Some t => if t =? token then set_lockedAt None r else r
  | None => r
  end.

(** Modelled from the spec: the shared store of section 5, records by
    identity. *)
Definition Store := string -> option ResourceRecord.

(** Modelled from the spec: a single-document update of the store. *)
Definition put (s : Store) (recordId : string) (r : ResourceRecord) : Store :=
  fun k => if String.eqb k recordId then Some r else s k.

(** Modelled from the spec: [tryAcquire(recordId, leaseDuration)] of
    section 4.1 against the store at time [now]; an unknown identity is
    denied. *)
Definition tryAcquire (s : Store) (now : Z) (recordId : string) (leaseDuration : Z)
  : AcquireResult * Store :=
  match s recordId with
  | None => (Denied, s)
  | Some r =>
      match acquire_record leaseDuration now r with
      | (LeaseToken tok, r') => (LeaseToken tok, put s recordId r')
      | (Denied, _) => (Denied, s)
      end
  end.

(** Modelled from the spec: [release(recordId, token)] of section 4.1. *)
Definition release (s : Store) (recordId : string) (token : Z) : Store :=
  match s recordId with
  | None => s
  | Some r => put s recordId (release_record token r)
  end.

(** *** Workers racing for leases *)

(** Modelled from the spec: the workers of section 5, by number. *)
Definition Worker := nat.

(** Modelled from the spec: what the workers of section 5 do to the store. A
    worker releases only a token it was granted. *)
Inductive LockEvent :=
| Acquire (w : Worker) (recordId : string)
| Release (w : Worker) (recordId : string) (token : Z).

(** Modelled from the spec: a lease (glossary) handed out and not yet given
    back by its worker; a crashed worker never gives its lease back. *)
Record Lease := mkLease {
  holder : Worker;
  leased : string;
  token_of : Z
}.

(** Modelled from the spec: the store together with the leases the workers
    hold on to. *)
Record System := mkSystem {
  store : Store;
  leases : list Lease
}.

(** Equality of leases, as a boolean. *)
Definition lease_eqb (a b : Lease) : bool :=
  Nat.eqb (holder a) (holder b) && String.eqb (leased a) (leased b)
  && (token_of a =? token_of b).

(** Modelled from the spec: one event at store time [now]. A granted
    [tryAcquire] hands the worker its lease; a [release] of a lease the worker
    holds goes to the store and ends the worker's hold, whether or not the
    store still knows the token. *)
Definition step (leaseDuration : Z) (now : Z) (e : LockEvent) (sys : System) : System :=
  match e with
  | Acquire w rid =>
      match tryAcquire (store sys) now rid leaseDuration with
      | (LeaseToken tok, s') => mkSystem s' (mkLease w rid tok :: leases sys)
      | (Denied, _) => sys
      end
  | Release w rid tok =>
      if existsb (lease_eqb (mkLease w rid tok)) (leases sys)
      then mkSystem (release (store sys) rid tok)
                    (filter (fun l => negb (lease_eqb (mkLease w rid tok) l)) (leases sys))
      else sys
  end.

(** Modelled from the spec: events one after the other, each an atomic step
    against the shared store. *)
Fixpoint run (leaseDuration : Z) (sys : System) (evs : list (Z * LockEvent)) : System :=
  match evs with
  | [] => sys
  | (now, e) :: rest => run leaseDuration (step leaseDuration now e sys) rest
  end.

(** The store's clock does not run backwards. *)
Fixpoint chronological (clock : Z) (evs : list (Z * LockEvent)) : Prop :=
  match evs with
  | [] => True
  | (now, _) :: rest => clock <= now /\ chronological now rest
  end.

(** Modelled from the spec: a lease is valid (non-expired) at instant [t]
    from its token up to, not including, [token + leaseDuration]. *)
Definition valid_at (leaseDuration t : Z) (l : Lease) : bool :=
  (token_of l <=? t) && (t <? token_of l + leaseDuration).

(** Modelled from the spec: the leases on a record that are held and valid
    at instant [t]. *)
Definition holders_at (leaseDuration t : Z) (recordId : string) (sys : System)
  : list Lease :=
  filter (fun l => String.eqb (leased l) recordId && valid_at leaseDuration t l)
         (leases sys).

(** What the proof of mutual exclusion carries along a run, at the store's
    clock: no lease was granted in the future; a lease that is still valid is
    the one the record names; and no record has two valid leases. *)
Definition lease_invariant (leaseDuration clock : Z) (sys : System) : Prop :=
  (forall l, In l (leases sys) -> token_of l <= clock)
  /\ (forall l, In l (leases sys) -> clock < token_of l + leaseDuration ->
       exists r, store sys (leased l) = Some r /\ lockedAt r = Some (token_of l))
  /\ (forall rid, (List.length (holders_at leaseDuration clock rid sys) <= 1)%nat).

(** The lock timestamp of a record in a store. *)
Definition lock_of (s : Store) (recordId : string) : option (option Z) :=
  option_map lockedAt (s recordId).

(** An unlocked application record, for examples. *)
Definition example_record : ResourceRecord :=
  mkRecord "r1" "app-1" (Some "Running") "Creating" None None 0 0.

(** The store that holds the example record and nothing else. *)
Definition example_store : Store :=
  fun k => if String.eqb k "r1" then Some example_record else None.

(** Two workers on the example record: the second is denied while the first
    lease runs and granted once it has expired. *)
Definition example_race : list (Z * LockEvent) :=
  [(0, Acquire 1%nat "r1"); (5, Acquire 2%nat "r1");
   (10, Acquire 2%nat "r1"); (12, Release 1%nat "r1" 0)].

End Lock.

(** ** Transition executor and retry controller *)

Module Engine.

Import Schema Lock.
Local Open Scope Z_scope.

(** Modelled from the spec: the actions of the transition table of section
    4.3; [KindAction] stands for a kind's own provisioning steps. *)
Inductive Action :=
| Provision
| BeginTeardown
| Teardown
| KindAction (name : string).

(** Modelled from the spec: the three-way outcome of a Driver Adapter
    (section 4.2). *)
Inductive Outcome :=
| Success
| Retryable (reason : string)
| Fatal (reason : string).

(** Modelled from the spec: [apply(record, action) -> Outcome] of section
    4.2, an injected collaborator. *)
Definition Adapter := ResourceRecord -> Action -> Outcome.

(** Modelled from the spec: the per-kind configuration (section 9 asks for
    the transition table as configuration data). [kind] is the kind's model
    in the schema; [liveTable] holds the rows for the desired states other
    than Deleted. *)
Record KindConfig := mkKind {
  kind : Model;
  liveTable : option string -> string -> option (Action * string);
  leaseDuration : Z;
  maxAttempts : nat;
  backoffBase : Z;
  backoffCap : Z
}.

(** Modelled from the spec: the desired state is Deleted. *)
Definition wants_deleted (desired : option string) : bool :=
  match desired with
  | Some s => String.eqb s "Deleted"
  | None => false
  end.

(** Modelled from the spec: the terminal Failed phase of sections 3 and 4.3,
    the phase of the Fatal row. The spec gives every kind this row; in the
    schema only three kinds declare a phase of that name. *)
Definition failedPhase : string := "Failed".

(** Modelled from the spec: the record sits in the terminal Failed phase. *)
Definition is_failed (phase : string) : bool := String.eqb phase failedPhase.

(** Modelled from the spec: the transition table of section 4.3. The three
    Deleted rows are shared by every kind, under the phase names of the
    table (in the schema [SubscriptionPhase] declares no phase named
    Deleting); a record in the Failed phase gets no further automatic work;
    [None] is a converged record. *)
Definition transition (cfg : KindConfig) (desired : option string) (phase : string)
  : option (Action * string) :=
  if is_failed phase then None
  else if wants_deleted desired then
    if String.eqb phase "Deleted" then None
    else if String.eqb phase "Deleting" then Some (Teardown, "Deleted")
    else Some (BeginTeardown, "Deleting")
  else liveTable cfg desired phase.

(** Modelled from the spec: a record with the retry bookkeeping of section
    4.5 stored alongside it (an explicit attempt counter and the time before
    which the controller does not re-dispatch). *)
Record Resource := mkResource {
  rec : ResourceRecord;
  attempts : nat;
  retryAt : Z
}.

(** Modelled from the spec: exponential backoff with a cap (section 4.5). *)
Definition backoff (cfg : KindConfig) (n : nat) : Z :=
  Z.min (backoffCap cfg) (backoffBase cfg * 2 ^ Z.of_nat n).

(** Modelled from the spec: the controller's classification (section 4.5):
    the Retryable outcome of the attempt that reaches the kind's maximum is
    escalated to Fatal. [attempts] counts the earlier Retryable attempts. *)
Definition classify (cfg : KindConfig) (attempts : nat) (o : Outcome) : Outcome :=
  match o with
  | Retryable reason =>
      if (maxAttempts cfg <=? S attempts)%nat then Fatal reason else Retryable reason
  | _ => o
  end.

(** Modelled from the spec: a write of phase and message; [updatedAt]
    follows every such write (section 3, and [@updatedAt] in the schema). The
    message goes to the kind's [message] column; a kind without that column
    keeps no message. *)
Definition write_status (cfg : KindConfig) (now : Z) (phase : string)
  (msg : option string) (r : ResourceRecord) : ResourceRecord :=
  mkRecord (id r) (ownerKey r) (desiredState r) phase (lockedAt r)
           (if carries_message (kind cfg) then msg else message r)
           (createdAt r) now.

(** Modelled from the spec: outcome handling of section 4.3, one row per
    outcome, for every kind: Success moves to the next phase and clears the
    message, Retryable keeps the phase and advances the retry bookkeeping,
    Fatal moves to the Failed phase; each row sets the message as said and
    gives the lease back. *)
Definition applyOutcome (cfg : KindConfig) (token now : Z) (st : Resource)
  (next : string) (o : Outcome) : Resource :=
  match o with
  | Success =>
      mkResource (release_record token (write_status cfg now next None (rec st)))
                 0 (retryAt st)
  | Retryable reason =>
      mkResource
        (release_record token
           (write_status cfg now (actualPhase (rec st)) (Some reason) (rec st)))
        (S (attempts st)) (now + backoff cfg (attempts st))
  | Fatal reason =>
      mkResource
        (release_record token (write_status cfg now failedPhase (Some reason) (rec st)))
        (attempts st) (retryAt st)
  end.

(** Modelled from the spec: one pass of the scheduler of section 4.4 over one
    record at time [now]: skip a converged record, a record still backing
    off and a record leased by someone else; otherwise claim, invoke the
    adapter once, classify and handle the outcome. The flag tells whether the
    adapter was invoked. The action is synchronous from the engine's
    viewpoint, so the outcome is written at the time of the claim. *)
Definition cycle (cfg : KindConfig) (adapter : Adapter) (now : Z) (st : Resource)
  : Resource * bool :=
  match transition cfg (desiredState (rec st)) (actualPhase (rec st)) with
  | None => (st, false)
  | Some (action, next) =>
      if now <? retryAt st then (st, false)
      else
        match acquire_record (leaseDuration cfg) now (rec st) with
        | (Denied, _) => (st, false)
        | (LeaseToken tok, r') =>
            (applyOutcome cfg tok now (mkResource r' (attempts st) (retryAt st))
               next (classify cfg (attempts st) (adapter r' action)),
             true)
        end
  end.

(** Modelled from the spec: scheduler passes at the given times; the number
    counts the adapter invocations, that is the attempts. *)
Fixpoint run_cycles (cfg : KindConfig) (adapter : Adapter) (times : list Z)
  (st : Resource) : Resource * nat :=
  match times with
  | [] => (st, 0%nat)
  | now :: rest =>
      let (st1, invoked) := cycle cfg adapter now st in
      let (st2, k) := run_cycles cfg adapter rest st1 in
      (st2, ((if invoked then 1 else 0) + k)%nat)
  end.





(** An adapter that answers Retryable whatever it is asked. *)
Definition always_retryable (adapter : Adapter) : Prop :=
  forall r a, exists reason, adapter r a = Retryable reason.

(** The times at which a retrying record is certainly dispatched again: the
    backoff never exceeds the cap. *)
Fixpoint retry_schedule (cfg : KindConfig) (start : Z) (n : nat) : list Z :=
  match n with
  | O => []
  | S m => start :: retry_schedule cfg (start + Z.max 0 (backoffCap cfg)) m
  end.

(** An example table for an order-like kind: pay a pending renewal. *)
Definition renewalTable (desired : option string) (phase : string)
  : option (Action * string) :=
  if String.eqb phase "Pending" then Some (KindAction "pay", "Paid") else None.

(** An example configuration for [SubscriptionRenewal]: leases of 15 s,
    three attempts, backoff from 1 s up to 8 s. *)
Definition renewalKind : KindConfig :=
  mkKind SubscriptionRenewal renewalTable 15000 3 1000 8000.

(** The first two rows of the table of section 4.3: provision a record that
    is being created. *)
Definition provisionTable (desired : option string) (phase : string)
  : option (Action * string) :=
  if String.eqb phase "Creating" then Some (Provision, "Created") else None.

(** An example configuration for [Application]. *)
Definition applicationKind : KindConfig :=
  mkKind Application provisionTable 15000 3 1000 8000.

(** An example adapter: a backend that is never reachable. *)
Definition flaky : Adapter := fun _ _ => Retryable "gateway timeout".

(** An example adapter: a backend that rejects for good. *)
Definition rejecting : Adapter := fun _ _ => Fatal "card declined".

(** An example adapter: a backend that works. *)
Definition working : Adapter := fun _ _ => Success.

(** The record of the first scenario of section 8: desired Active, phase
    Creating, unlocked. *)
Definition creating_storage_user : Resource :=
  mkResource (mkRecord "u1" "app-1" (Some "Active") "Creating" None None 0 0) 0 0.

(** An example configuration for [StorageUser]. *)
Definition storageUserKind : KindConfig :=
  mkKind StorageUser provisionTable 15000 3 1000 8000.

(** An example resource: a renewal waiting to be paid. *)
Definition pending_renewal : Resource :=
  mkResource (mkRecord "n1" "sub-1" None "Pending" None None 0 0) 0 0.




End Engine.

(** ** The system server process ([packages/system-server/src/index.ts]) *)

Module SystemServer.

Inductive Level := LInfo | LTrace | LError.

(** One call of [logger.info], [logger.trace] or [logger.error] with its
    arguments rendered as text. The logger writes lines and does nothing
    else. *)
Record LogLine := mkLog {
  level : Level;
  args : list string
}.

(** The two process events the script subscribes to. *)
Inductive ProcessEvent := UnhandledRejection | UncaughtException.

Definition event_eqb (a b : ProcessEvent) : bool :=
  match a, b with
  | UnhandledRejection, UnhandledRejection => true
  | UncaughtException, UncaughtException => true
  | _, _ => false
  end.

(** The bodies of the two arrow functions passed to [process.on]. *)
Inductive Listener :=
| LogRejection
| LogException.

(** A request: method, url, the three headers the script reads, each absent
    when the request does not carry it, and the body. *)
Record Request := mkRequest {
  method : string;
  url : string;
  authorization : option string;
  referer : option string;
  userAgent : option string;
  body : string
}.

(** A response as it is handed over for sending: the status, the headers
    set on it until then (whoever sends it adds the headers of the content),
    and the content. *)
Record Response := mkResponse {
  status : nat;
  headers : list (string * string);
  payload : string
}.

(** What the router does with a request: it answers (Express answers in its
    place when no route matches or a handler throws while handling), or an
    asynchronous handler rejects with nobody awaiting it, which leaves the
    request without an answer. *)
Inductive RouterResult :=
| Responded (code : nat) (content : string)
| Rejected (reason : string) (promise : string).

(** What the runtime does by default with a rejection nobody listens for:
    it raises it as an uncaught exception (Node 15 and later), or it prints a
    warning and goes on (before). *)
Inductive RejectionDefault := RaiseIt | WarnOnly.

(** How the bind that [server.listen] asks for ends: the port is bound, or
    it can not be (it is taken, say) and the server emits the error. *)
Inductive Bind :=
| Bound
| BindFailed (err : string).

(** The process: its exit code once it has ended, the port it listens on,
    the listeners registered with [process.on], the log, the answers sent,
    and the number of requests that got a request id. *)
Record Process := mkProcess {
  exitCode : option nat;
  listening : option nat;
  listeners : list (ProcessEvent * Listener);
  log : list LogLine;
  responses : list Response;
  served : nat
}.

Definition with_log (l : list LogLine) (p : Process) : Process :=
  mkProcess (exitCode p) (listening p) (listeners p) l (responses p) (served p).

Definition logger (lv : Level) (a : list string) (p : Process) : Process :=
  with_log (log p ++ [mkLog lv a]) p.

Definition respond (r : Response) (p : Process) : Process :=
  mkProcess (exitCode p) (listening p) (listeners p) (log p)
            (responses p ++ [r]) (served p).

Definition run_listener (l : Listener) (a : list string) (p : Process) : Process :=
  match l with
  | LogRejection => logger LError ("Caught unhandledRejection:" :: a) p
  | LogException => logger LError ("Caught uncaughtException:" :: a) p
  end.

Definition listeners_of (ev : ProcessEvent) (p : Process) : list Listener :=
  map snd (filter (fun el => event_eqb (fst el) ev) (listeners p)).

(** [process.on(event, listener)]. *)
Definition process_on (ev : ProcessEvent) (l : Listener) (p : Process) : Process :=
  mkProcess (exitCode p) (listening p) (listeners p ++ [(ev, l)]) (log p)
            (responses p) (served p).

Definition exit (code : nat) (p : Process) : Process :=
  mkProcess (Some code) None (listeners p) (log p) (responses p) (served p).

(** The runtime's treatment of an exception nobody caught: the listeners of
    [uncaughtException] run if there are any, otherwise the process prints
    the error and exits with code 1. *)
Definition uncaught (err : string) (p : Process) : Process :=
  match listeners_of UncaughtException p with
  | [] => exit 1 p
  | ls => fold_left (fun q l => run_listener l [err] q) ls p
  end.

(** The runtime's treatment of a rejection nobody handled: the listeners of
    [unhandledRejection] run if there are any, otherwise the runtime's
    default applies. *)
Definition unhandled (mode : RejectionDefault) (reason promise : string)
  (p : Process) : Process :=
  match listeners_of UnhandledRejection p with
  | [] =>
      match mode with
      | RaiseIt => uncaught reason p
      | WarnOnly => p
      end
  | ls => fold_left (fun q l => run_listener l [reason; promise] q) ls p
  end.

(** The runtime ends, with code 0, a process that has nothing left to wait
    for: of what the script sets up only the listening server keeps it
    waiting. *)
Definition settle (p : Process) : Process :=
  match exitCode p, listening p with
  | None, None => exit 0 p
  | _, _ => p
  end.

(** What reaches the process while it runs: a request, at the moment the
    body parser is done with it (bodies are read asynchronously, so this
    need not be the order in which the requests came in), a rejection nobody
    handles, an exception nobody catches. *)
Inductive Incoming :=
| Http (req : Request)
| PromiseRejected (reason promise : string)
| Thrown (err : string).

(** What the script takes from outside the sources: [Config.PORT]; from
    Express the headers it sets on a response before the first middleware
    runs ([X-Powered-By: Express] unless configured otherwise) and the body
    parser [express.json], with the status and the page Express answers with
    when the parser refuses a body; [splitBearerToken] and [parseToken];
    [uuidv4], by the number of ids drawn so far; the [router], by the request
    and the [auth] attached to it, taken to answer or reject without writing
    to the log and whatever the request id is; and the runtime's default for
    rejections. *)
Record Env := mkEnv {
  PORT : nat;
  express_headers : list (string * string);
  express_json : Request -> option (nat * string);
  splitBearerToken : string -> string;
  parseToken : string -> option string;
  uuidv4 : nat -> string;
  router : Request -> option string -> RouterResult;
  rejections : RejectionDefault
}.

Definition lower_ascii (c : ascii) : ascii :=
  let n := nat_of_ascii c in
  if ((65 <=? n) && (n <=? 90))%nat then ascii_of_nat (n + 32) else c.

Fixpoint lower (s : string) : string :=
  match s with
  | EmptyString => EmptyString
  | String c rest => String (lower_ascii c) (lower rest)
  end.

(** [res.header(name, value)]: a header that is set already, under a name
    that differs at most in case, is replaced. *)
Fixpoint header (name value : string) (hs : list (string * string))
  : list (string * string) :=
  match hs with
  | [] => [(name, value)]
  | (n, v) :: rest =>
      if String.eqb (lower n) (lower name) then (name, value) :: rest
      else (n, v) :: header name value rest
  end.

(** The double quote of the access line. *)
Definition dquote : string := String (ascii_of_nat 34) EmptyString.

Section Server.

Variable env : Env.

(** The headers of a response once [server.all('*', ...)] has run. *)
Definition powered_by : list (string * string) :=
  header "X-Powered-By" "LaF Server" (express_headers env).

(** [parseToken(splitBearerToken(req.headers['authorization'] ?? '')) || null]. *)
Definition auth_of (req : Request) : option string :=
  parseToken env
    (splitBearerToken env
       (match authorization req with Some h => h | None => EmptyString end)).

(** The arguments of [logger.info] in the token middleware: the referer, or
    a dash when it is absent or empty; the user agent, or [undefined]. *)
Definition access_line (requestId : string) (req : Request) : list string :=
  [requestId;
   method req ++ " " ++ dquote ++ url req ++ dquote ++ " - referer: "
     ++ (match referer req with
         | Some r => if String.eqb r EmptyString then "-" else r
         | None => "-"
         end)
     ++ " "
     ++ (match userAgent req with Some u => u | None => "undefined" end)].

(** The arguments of [logger.trace] in the token middleware; the object of
    body, headers and auth is given member by member, the headers being the
    three the request carries. *)
Definition trace_line (requestId : string) (req : Request) : list string :=
  [requestId; method req ++ " " ++ url req; body req;
   match authorization req with Some h => h | None => EmptyString end;
   match referer req with Some r => r | None => EmptyString end;
   match userAgent req with Some u => u | None => EmptyString end;
   match auth_of req with Some a => a | None => "null" end].

(** The answer a request gets, if any: Express's answer to a body the
    parser refuses, which has passed none of the script's middleware, or,
    with the header set by [server.all('*', ...)], what the router answers. *)
Definition answer (req : Request) : option Response :=
  match express_json env req with
  | Some (code, page) => Some (mkResponse code (express_headers env) page)
  | None =>
      match router env req (auth_of req) with
      | Responded code content => Some (mkResponse code powered_by content)
      | Rejected _ _ => None
      end
  end.

(** The middleware chain in the order of the [server.use] calls: the body
    parser, the header, the token middleware (auth, request id, two log
    lines), the router. *)
Definition handle (req : Request) (p : Process) : Process :=
  match express_json env req with
  | Some (code, page) => respond (mkResponse code (express_headers env) page) p
  | None =>
      let requestId := uuidv4 env (served p) in
      let p1 := logger LTrace (trace_line requestId req)
                  (logger LInfo (access_line requestId req) p) in
      let p2 :=
        mkProcess (exitCode p1) (listening p1) (listeners p1) (log p1)
                  (responses p1) (S (served p1)) in
      match router env req (auth_of req) with
      | Responded code content => respond (mkResponse code powered_by content) p2
      | Rejected reason promise => unhandled (rejections env) reason promise p2
      end
  end.

(** A process that has ended receives nothing any more, and a request
    reaches only a process that listens. *)
Definition receive (e : Incoming) (p : Process) : Process :=
  match exitCode p with
  | Some _ => p
  | None =>
      match e with
      | Http req =>
          match listening p with
          | Some _ => handle req p
          | None => p
          end
      | PromiseRejected reason promise => unhandled (rejections env) reason promise p
      | Thrown err => uncaught err p
      end
  end.

Definition serve (p : Process) (evs : list Incoming) : Process :=
  fold_left (fun q e => receive e q) evs p.

(** [server.listen(Config.PORT, () => logger.info(...))]. The bind ends
    after the script has run: when the port is bound the callback logs; when
    it can not be, the error the server emits has no listener and is raised
    as an uncaught exception, after which nothing keeps the process
    waiting. *)
Definition listen (b : Bind) (p : Process) : Process :=
  match b with
  | Bound =>
      logger LInfo ["listened on " ++ show_nat (PORT env)]
        (mkProcess (exitCode p) (Some (PORT env)) (listeners p) (log p)
           (responses p) (served p))
  | BindFailed err => settle (uncaught err p)
  end.

Definition fresh : Process := mkProcess None None [] [] [] 0.

(** The script, run to its end, followed by the outcome of the bind it asked
    for; both handlers are installed by the time that outcome is known. *)
Definition main (b : Bind) : Process :=
  listen b
    (process_on UncaughtException LogException
       (process_on UnhandledRejection LogRejection fresh)).

(** Both handlers are installed and nothing else listens. *)
Definition handlers_installed (p : Process) : Prop :=
  listeners p = [(UnhandledRejection, LogRejection); (UncaughtException, LogException)].

(** The state a successful bind leaves behind and every event keeps:
    running, listening, both handlers installed. *)
Definition up (p : Process) : Prop :=
  exitCode p = None /\ listening p = Some (PORT env) /\ handlers_installed p.

End Server.

(** An example router: [/health] answers, [/later] starts work whose promise
    rejects, anything else is unknown. *)
Definition example_router (req : Request) (auth : option string) : RouterResult :=
  if String.eqb (url req) "/health" then Responded 200 "ok"
  else if String.eqb (url req) "/later" then Rejected "timeout" "Promise"
  else Responded 404 "not found".

Definition get (path : string) : Incoming :=
  Http (mkRequest "GET" path None None (Some "curl") EmptyString).

(** An example setting: port 3000, Express as it comes, bodies over a
    thousand characters refused, no token parsing, request ids by number. *)
Definition example_env : Env :=
  mkEnv 3000 [("X-Powered-By", "Express")]
    (fun req =>
       if (1000 <? String.length (body req))%nat
       then Some (413, "request entity too large")
       else None)
    (fun h => h) (fun _ => None) show_nat example_router RaiseIt.

(** The error a server emits when its port is taken. *)
Definition port_taken : string :=
  "Error: listen EADDRINUSE: address already in use :::3000".

End SystemServer.

(** ** The data panel of the web console ([DataPanel/index.tsx]) *)

Module DataPanel.

#[local] Set Warnings "-register-all".

(** JSON values. A number keeps its lexeme, a string and an object key keep
    the text between the quotes with escapes undecoded. *)
Inductive json :=
| JNull
| JBool (b : bool)
| JNumber (lexeme : string)
| JString (s : string)
| JArray (items : list json)
| JObject (members : list (string * json)).

(** The exceptions the handler can catch. *)
Inductive JsError :=
| SyntaxError (msg : string)
| TypeError (msg : string)
| RequestError (msg : string).

(** [error.toString()]. *)
Definition toString (e : JsError) : string :=
  match e with
  | SyntaxError m => "SyntaxError: " ++ m
  | TypeError m => "TypeError: " ++ m
  | RequestError m => "Error: " ++ m
  end.

Fixpoint dedup (l : list string) : list string :=
  match l with
  | [] => []
  | k :: rest => k :: filter (fun x => negb (String.eqb x k)) (dedup rest)
  end.

Fixpoint indices (n : nat) : list nat :=
  match n with
  | O => []
  | S m => (indices m ++ [m])%list
  end.

(** [Object.keys(v)]: a [TypeError] on [null], no key for a boolean or a
    number, the indices for a string or an array, the distinct member names
    for an object. *)
Definition Object_keys (v : json) : JsError + list string :=
  match v with
  | JNull => inl (TypeError "Cannot convert undefined or null to object")
  | JBool _ | JNumber _ => inr []
  | JString s => inr (map show_nat (indices (String.length s)))
  | JArray items => inr (map show_nat (indices (List.length items)))
  | JObject members => inr (dedup (map fst members))
  end.

(** *** A reference [JSON.parse] *)

Definition code (c : ascii) : nat := nat_of_ascii c.

Definition is_ws (c : ascii) : bool :=
  let n := code c in
  Nat.eqb n 32 || Nat.eqb n 9 || Nat.eqb n 10 || Nat.eqb n 13.

Definition is_digit (c : ascii) : bool :=
  let n := code c in Nat.leb 48 n && Nat.leb n 57.

Definition is_hex (c : ascii) : bool :=
  let n := code c in
  is_digit c || (Nat.leb 65 n && Nat.leb n 70) || (Nat.leb 97 n && Nat.leb n 102).

Definition has_code (c : ascii) (n : nat) : bool := Nat.eqb (code c) n.

Fixpoint skip_ws (s : list ascii) : list ascii :=
  match s with
  | c :: rest => if is_ws c then skip_ws rest else s
  | [] => []
  end.

Fixpoint expect (lit s : list ascii) : option (list ascii) :=
  match lit, s with
  | [], _ => Some s
  | a :: lit', b :: s' => if Ascii.eqb a b then expect lit' s' else None
  | _ :: _, [] => None
  end.

Fixpoint digits (s : list ascii) : list ascii * list ascii :=
  match s with
  | c :: rest =>
      if is_digit c then let (d, r) := digits rest in (c :: d, r) else ([], s)
  | [] => ([], [])
  end.

(** A JSON number: an optional minus, an integer part without a leading
    zero, an optional fraction, an optional exponent. *)
Definition lex_number (s : list ascii) : option (list ascii * list ascii) :=
  let (sign, s1) :=
    match s with
    | c :: r => if has_code c 45 then ([c], r) else ([], s)
    | [] => ([], s)
    end in
  let (int, s2) := digits s1 in
  match int with
  | [] => None
  | d :: more =>
      if has_code d 48 && negb (match more with [] => true | _ => false end) then None
      else
        let frac :=
          match s2 with
          | c :: r =>
              if has_code c 46 then
                let (f, r') := digits r in
                match f with [] => None | _ => Some (c :: f, r') end
              else Some ([], s2)
          | [] => Some ([], s2)
          end in
        match frac with
        | None => None
        | Some (f, s3) =>
            let exp :=
              match s3 with
              | c :: r =>
                  if has_code c 101 || has_code c 69 then
                    let (sg, r1) :=
                      match r with
                      | x :: r' => if has_code x 43 || has_code x 45 then ([x], r') else ([], r)
                      | [] => ([], r)
                      end in
                    let (e, r2) := digits r1 in
                    match e with [] => None | _ => Some ((c :: sg ++ e)%list, r2) end
                  else Some ([], s3)
              | [] => Some ([], s3)
              end in
            match exp with
            | None => None
            | Some (e, s4) => Some ((sign ++ int ++ f ++ e)%list, s4)
            end
        end
  end.

(** The text of a string after its opening quote, up to the closing one. *)
Fixpoint lex_string (s : list ascii) : option (list ascii * list ascii) :=
  match s with
  | [] => None
  | c :: rest =>
      if has_code c 34 then Some ([], rest)
      else if Nat.ltb (code c) 32 then None
      else if has_code c 92 then
        match rest with
        | e :: rest' =>
            if has_code e 34 || has_code e 92 || has_code e 47 || has_code e 98 || has_code e 102
               || has_code e 110 || has_code e 114 || has_code e 116
            then match lex_string rest' with
                 | Some (t, r) => Some (c :: e :: t, r)
                 | None => None
                 end
            else if has_code e 117 then
              match rest' with
              | h1 :: h2 :: h3 :: h4 :: rest'' =>
                  if is_hex h1 && is_hex h2 && is_hex h3 && is_hex h4 then
                    match lex_string rest'' with
                    | Some (t, r) => Some (c :: e :: h1 :: h2 :: h3 :: h4 :: t, r)
                    | None => None
                    end
                  else None
              | _ => None
              end
            else None
        | [] => None
        end
      else match lex_string rest with
           | Some (t, r) => Some (c :: t, r)
           | None => None
           end
  end.

Definition text (l : list ascii) : string := string_of_list_ascii l.

Fixpoint parse_value (fuel : nat) (s : list ascii) : option (json * list ascii) :=
  match fuel with
  | O => None
  | S fuel' =>
      match skip_ws s with
      | [] => None
      | c :: rest =>
          if has_code c 123 then
            match skip_ws rest with
            | c' :: rest' =>
                if has_code c' 125 then Some (JObject [], rest')
                else match parse_members fuel' (skip_ws rest) with
                     | Some (ms, r) => Some (JObject ms, r)
                     | None => None
                     end
            | [] => None
            end
          else if has_code c 91 then
            match skip_ws rest with
            | c' :: rest' =>
                if has_code c' 93 then Some (JArray [], rest')
                else match parse_items fuel' (skip_ws rest) with
                     | Some (vs, r) => Some (JArray vs, r)
                     | None => None
                     end
            | [] => None
            end
          else if has_code c 34 then
            match lex_string rest with
            | Some (t, r) => Some (JString (text t), r)
            | None => None
            end
          else if has_code c 45 || is_digit c then
            match lex_number (c :: rest) with
            | Some (n, r) => Some (JNumber (text n), r)
            | None => None
            end
          else
            match expect (list_ascii_of_string "true") (c :: rest) with
            | Some r => Some (JBool true, r)
            | None =>
                match expect (list_ascii_of_string "false") (c :: rest) with
                | Some r => Some (JBool false, r)
                | None =>
                    match expect (list_ascii_of_string "null") (c :: rest) with
                    | Some r => Some (JNull, r)
                    | None => None
                    end
                end
            end
      end
  end

(** The items of an array after [[], up to and including []]. *)
with parse_items (fuel : nat) (s : list ascii) : option (list json * list ascii) :=
  match fuel with
  | O => None
  | S fuel' =>
      match parse_value fuel' s with
      | None => None
      | Some (v, r) =>
          match skip_ws r with
          | c :: r' =>
              if has_code c 93 then Some ([v], r')
              else if has_code c 44 then
                match parse_items fuel' r' with
                | Some (vs, r'') => Some (v :: vs, r'')
                | None => None
                end
              else None
          | [] => None
          end
      end
  end

(** The members of an object after [{], up to and including [}]. *)
with parse_members (fuel : nat) (s : list ascii)
  : option (list (string * json) * list ascii) :=
  match fuel with
  | O => None
  | S fuel' =>
      match skip_ws s with
      | q :: r0 =>
          if has_code q 34 then
            match lex_string r0 with
            | None => None
            | Some (k, r1) =>
                match skip_ws r1 with
                | colon :: r2 =>
                    if has_code colon 58 then
                      match parse_value fuel' r2 with
                      | None => None
                      | Some (v, r3) =>
                          match skip_ws r3 with
                          | c :: r4 =>
                              if has_code c 125 then Some ([(text k, v)], r4)
                              else if has_code c 44 then
                                match parse_members fuel' r4 with
                                | Some (ms, r5) => Some ((text k, v) :: ms, r5)
                                | None => None
                                end
                              else None
                          | [] => None
                          end
                      end
                    else None
                | [] => None
                end
            end
          else None
      | [] => None
      end
  end.

(** The whole input must be one value, white space apart. *)
Definition json_parse (record : string) : JsError + json :=
  let s := list_ascii_of_string record in
  match parse_value (2 * List.length s + 4) s with
  | Some (v, rest) =>
      match skip_ws rest with
      | [] => inr v
      | _ => inl (SyntaxError "Unexpected token in JSON")
      end
  | None => inl (SyntaxError "Unexpected token in JSON")
  end.

(** *** The save handler *)

Section Handler.

(** The documents the update mutation writes to. *)
Variable Server : Type.

(** [JSON.parse]. *)
Variable JSON_parse : string -> JsError + json.

(** [updateDataMutation.mutateAsync], which may reject. *)
Variable mutateAsync : json -> Server -> Server * option JsError.

(** [t] of i18next. *)
Variable t : string -> string.

(** The component state the handler reads and the effects it has: the
    [record] state, the texts passed to [globalStore.showError], the
    arguments passed to [mutateAsync], and the documents behind the
    mutation. *)
Record Panel := mkPanel {
  record : string;
  shownErrors : list string;
  mutations : list json;
  server : Server
}.

(** [useState("{}")]. *)
Definition initial (srv : Server) : Panel := mkPanel "{}" [] [] srv.

(** [onChange] of the editor: [setRecord(values!)]. *)
Definition onChange (values : string) (p : Panel) : Panel :=
  mkPanel values (shownErrors p) (mutations p) (server p).

Definition showError (msg : string) (p : Panel) : Panel :=
  mkPanel (record p) (shownErrors p ++ [msg]) (mutations p) (server p).

(** [handleData]: the [try] block and its [catch]. *)
Definition handleData (p : Panel) : Panel :=
  match JSON_parse (record p) with
  | inl error => showError (toString error) p
  | inr params =>
      match Object_keys params with
      | inl error => showError (toString error) p
      | inr keys =>
          if Nat.eqb (List.length keys) 0
          then showError (t "DataEntry.CreateError") p
          else
            let (srv, rejected) := mutateAsync params (server p) in
            let p' := mkPanel (record p) (shownErrors p) (mutations p ++ [params]) srv in
            match rejected with
            | Some error => showError (toString error) p'
            | None => p'
            end
      end
  end.

End Handler.

(** A double quote, for writing JSON texts. *)
Definition q : string := String (ascii_of_nat 34) EmptyString.

(** A stand-in for the update mutation: it stores the document. *)
Definition store_document (params : json) (srv : list json)
  : list json * option JsError := (params :: srv, None).

Definition identity_t (key : string) : string := key.

End DataPanel.


(** ** Relations, keys and creation input of the schema *)

Module Relations.

Import Schema.

(** A field with [@relation(fields: [...], references: [...])]: the model
    and field that carry the attribute, the model the field points to, the
    foreign-key fields, the fields they reference, and [onDelete] if given. *)
Record Relation := mkRelation {
  rmodel : string;
  rfield : string;
  rtarget : string;
  rfields : list string;
  rreferences : list string;
  ronDelete : option string
}.

(** The [@relation] attributes of the schema, in file order. *)
Definition relations : list Relation :=
  [
  mkRelation "UserProfile" "user" "User" ["uid"] ["id"] None (* line 91 *);
  mkRelation "PersonalAccessToken" "user" "User" ["uid"] ["id"] None (* line 102 *);
  mkRelation "Bundle" "region" "Region" ["regionId"] ["id"] None (* line 204 *);
  mkRelation "ApplicationBundle" "application" "Application" ["appid"] ["appid"] None (* line 220 *);
  mkRelation "Application" "region" "Region" ["regionId"] ["id"] None (* line 439 *);
  mkRelation "Application" "runtime" "Runtime" ["runtimeId"] ["id"] None (* line 440 *);
  mkRelation "Application" "subscription" "Subscription" ["appid"] ["appid"] None (* line 447 *);
  mkRelation "ApplicationConfiguration" "application" "Application" ["appid"] ["appid"] None (* line 464 *);
  mkRelation "StorageUser" "application" "Application" ["appid"] ["appid"] None (* line 493 *);
  mkRelation "Database" "application" "Application" ["appid"] ["appid"] None (* line 545 *);
  mkRelation "DatabasePolicyRule" "policy" "DatabasePolicy" ["appid"; "policyName"] ["appid"; "name"] (Some "Cascade") (* line 569 *);
  mkRelation "CronTrigger" "cloudFunction" "CloudFunction" ["appid"; "target"] ["appid"; "name"] None (* line 639 *);
  mkRelation "RuntimeDomain" "application" "Application" ["appid"] ["appid"] None (* line 669 *);
  mkRelation "BucketDomain" "bucket" "StorageBucket" ["bucketName"] ["name"] None (* line 683 *);
  mkRelation "WebsiteHosting" "bucket" "StorageBucket" ["bucketName"] ["name"] None (* line 698 *)
  ].


(** The scalar types the schema uses. *)
Definition scalars : list string := ["String"; "Int"; "Boolean"; "DateTime"; "Json"].

Definition is_scalar (t : string) : bool := mem t scalars.

Definition is_model (t : string) : bool :=
  existsb (fun m => String.eqb (mname m) t) models.

Definition is_type (t : string) : bool :=
  existsb (fun m => String.eqb (mname m) t) types.

Definition model_named (n : string) : option Model :=
  find (fun m => String.eqb (mname m) n) models.

(** A field type is a scalar, an enum, a composite type or a model. *)
Definition type_known (t : string) : bool :=
  is_scalar t || is_enum t || is_type t || is_model t.

Fixpoint strings_eqb (a b : list string) : bool :=
  match a, b with
  | [], [] => true
  | x :: a', y :: b' => String.eqb x y && strings_eqb a' b'
  | _, _ => false
  end.

Fixpoint distinct (l : list string) : bool :=
  match l with
  | [] => true
  | x :: rest => negb (mem x rest) && distinct rest
  end.

Definition field_has (f : Field) (a : Attr) : bool := existsb (attr_eqb a) (fattrs f).

Definition required (f : Field) : bool :=
  match farity f with Required => true | _ => false end.

(** The fields form a key of the model: one field with [@id] or [@unique],
    or the fields of an [@@unique]. *)
Definition unique_key (m : Model) (key : list string) : bool :=
  match key with
  | [f] => has_attr m f AId || has_attr m f AUnique
           || existsb (strings_eqb key) (muniques m)
  | _ => existsb (strings_eqb key) (muniques m)
  end.

(** A foreign-key field and the field it references are required scalars of
    the same type, both [@db.ObjectId] or neither. *)
Definition same_column (src tgt : Model) (f g : string) : bool :=
  match field_of src f, field_of tgt g with
  | Some a, Some b =>
      String.eqb (ftype a) (ftype b) && is_scalar (ftype a)
      && required a && required b
      && Bool.eqb (field_has a ADbObjectId) (field_has b ADbObjectId)
  | _, _ => false
  end.

Fixpoint all2 {A B : Type} (p : A -> B -> bool) (la : list A) (lb : list B) : bool :=
  match la, lb with
  | [], [] => true
  | a :: la', b :: lb' => p a b && all2 p la' lb'
  | _, _ => false
  end.

(** The check a relation has to pass: the attributed field exists and has
    the target's type, every foreign-key field matches the field it
    references, and the referenced fields are a key of the target. *)
Definition relation_ok (r : Relation) : bool :=
  match model_named (rmodel r), model_named (rtarget r) with
  | Some src, Some tgt =>
      match field_of src (rfield r) with
      | Some f => String.eqb (ftype f) (rtarget r) && field_has f ARelation
      | None => false
      end
      && match rfields r with [] => false | _ => true end
      && all2 (same_column src tgt) (rfields r) (rreferences r)
      && unique_key tgt (rreferences r)
  | _, _ => false
  end.

(** The [@relation] fields as the models declare them. *)
Definition declared_relations : list (string * string * string) :=
  flat_map
    (fun m => map (fun f => (mname m, fname f, ftype f))
                (filter (fun f => field_has f ARelation) (mfields m)))
    models.

(** The field on the other side of a relation: the field of the target
    model whose type is the model that carries the attribute. *)
Definition back_field (r : Relation) : option Field :=
  match model_named (rtarget r) with
  | Some tgt => find (fun f => String.eqb (ftype f) (rmodel r)) (mfields tgt)
  | None => None
  end.

(** The foreign key of a relation is a key of its own model. *)
Definition fk_unique (r : Relation) : bool :=
  match model_named (rmodel r) with
  | Some src => unique_key src (rfields r)
  | None => false
  end.

(** The other side is a single optional record exactly when the foreign key
    is unique, and a list otherwise. *)
Definition back_relation_ok (r : Relation) : bool :=
  match back_field r with
  | Some b =>
      negb (field_has b ARelation)
      && match farity b with
         | Optional => fk_unique r
         | ListOf => negb (fk_unique r)
         | Required => false
         end
  | None => false
  end.

(** Every model-typed field is one side of a relation of the table. *)
Definition sides_accounted (m : Model) : bool :=
  forallb
    (fun f =>
       implb (is_model (ftype f))
         (if field_has f ARelation
          then existsb (fun r => String.eqb (rmodel r) (mname m)
                                 && String.eqb (rfield r) (fname f)) relations
          else existsb (fun r => String.eqb (rtarget r) (mname m)
                                 && String.eqb (rmodel r) (ftype f)) relations))
    (mfields m).

(** A default fits the field it is declared on. *)
Definition default_fits (f : Field) : bool :=
  match fdefault f with
  | None => true
  | Some DAuto => field_has f AId && String.eqb (ftype f) "String" && required f
  | Some DNow => String.eqb (ftype f) "DateTime" && required f
  | Some DEmptyList => match farity f with ListOf => true | _ => false end
  | Some (DBool _) => String.eqb (ftype f) "Boolean" && required f
  | Some (DInt _) => String.eqb (ftype f) "Int" && required f
  | Some (DString _) => String.eqb (ftype f) "String" && required f
  | Some (DEnum v) => mem v (enum_values (ftype f)) && required f
  end.

(** The primary key every model declares. *)
Definition object_id : Field :=
  mkField "id" "String" Required (Some DAuto) [AId; AMap "_id"; ADbObjectId].

Definition field_eqb (a b : Field) : bool :=
  String.eqb (fname a) (fname b) && String.eqb (ftype a) (ftype b)
  && match farity a, farity b with
     | Required, Required | Optional, Optional | ListOf, ListOf => true
     | _, _ => false
     end
  && match fdefault a, fdefault b with
     | Some DAuto, Some DAuto => true
     | None, None => true
     | _, _ => false
     end
  && all2 attr_eqb (fattrs a) (fattrs b).

(** The fields a caller has to give when it creates a document: required,
    not the object side of a relation, without default and not maintained by
    [@updatedAt]. *)
Definition must_supply (m : Model) : list string :=
  map fname
    (filter (fun f => required f && negb (is_model (ftype f))
                      && match fdefault f with None => true | Some _ => false end
                      && negb (field_has f AUpdatedAt))
       (mfields m)).

(** The fields a new document gets without the caller giving them. *)
Definition filled_in (m : Model) : list string :=
  map fname
    (filter (fun f => match fdefault f with Some _ => true | None => false end
                      || field_has f AUpdatedAt)
       (mfields m)).

(** What a relation promises: both models exist, the attributed field has
    the target's type, the foreign-key fields and the referenced fields pair
    up as required scalars of one type, and the referenced fields are a key
    of the target. *)
Definition references_a_key (r : Relation) : Prop :=
  exists src tgt,
    model_named (rmodel r) = Some src
    /\ model_named (rtarget r) = Some tgt
    /\ (exists f, field_of src (rfield r) = Some f /\ ftype f = rtarget r)
    /\ List.length (rfields r) = List.length (rreferences r)
    /\ (forall f g, In (f, g) (combine (rfields r) (rreferences r)) ->
          exists a b,
            field_of src f = Some a /\ field_of tgt g = Some b
            /\ ftype a = ftype b
            /\ farity a = Required /\ farity b = Required
            /\ field_has a ADbObjectId = field_has b ADbObjectId)
    /\ unique_key tgt (rreferences r) = true.

(** What the other side of a relation looks like: a field of the target
    model, typed with the model that carries the attribute and without
    [@relation] itself, a single optional record when the foreign key is
    unique and a list when it is not. *)
Definition other_side (r : Relation) : Prop :=
  exists tgt b,
    model_named (rtarget r) = Some tgt
    /\ In b (mfields tgt)
    /\ ftype b = rmodel r
    /\ field_has b ARelation = false
    /\ ((farity b = Optional /\ fk_unique r = true)
        \/ (farity b = ListOf /\ fk_unique r = false)).

(** The per-kind checks of the creation input and of deletion. *)
Definition creation_ok (m : Model) : bool :=
  mem "lockedAt" (must_supply m)
  && negb (mem "lockedAt" (filled_in m))
  && forallb (fun n => implb (has_field m n)
                         (mem n (filled_in m) && negb (mem n (must_supply m))))
       ["id"; "state"; "phase"; "createdAt"; "updatedAt"].

Definition deletion_ok (m : Model) : bool :=
  if has_field m "state"
  then mem "Deleted" (state_values m) && mem "Deleted" (phase_values m)
       && (String.eqb (mname m) "Subscription" || mem "Deleting" (phase_values m))
  else negb (mem "Deleted" (phase_values m)) && negb (mem "Deleting" (phase_values m)).

(** The per-model checks of names and types. *)
Definition names_and_types_ok (m : Model) : bool :=
  distinct (map fname (mfields m))
  && forallb (fun f => type_known (ftype f)) (mfields m).

(** [@id] stands on no field but [id]. *)
Definition id_only_on_id (m : Model) : bool :=
  forallb (fun f => implb (field_has f AId) (String.eqb (fname f) "id")) (mfields m).

(** Every default of a model fits its field. *)
Definition defaults_ok (m : Model) : bool := forallb default_fits (mfields m).

End Relations.

(** ** What a run of the server leaves behind *)

Module ServerLog.

Import SystemServer.

Definition level_eqb (a b : Level) : bool :=
  match a, b with
  | LInfo, LInfo | LTrace, LTrace | LError, LError => true
  | _, _ => false
  end.

(** The lines of a log at one level. *)
Definition at_level (lv : Level) (l : list LogLine) : list LogLine :=
  filter (fun line => level_eqb (level line) lv) l.

(** The items of a list with their numbers, counted from [n]. *)
Definition numbered {A : Type} (n : nat) (l : list A) : list (nat * A) :=
  combine (seq n (List.length l)) l.

(** The events that reach the process: all of them once the port is bound,
    none when it could not be. *)
Definition reaching (b : Bind) (evs : list Incoming) : list Incoming :=
  match b with
  | Bound => evs
  | BindFailed _ => []
  end.

Section Server.

Variable env : Env.

(** The line the outcome of the bind leaves: the one of the callback of
    [listen], or the one of the exception handler. *)
Definition bind_lines (b : Bind) : list LogLine :=
  match b with
  | Bound => [mkLog LInfo ["listened on " ++ show_nat (PORT env)]]
  | BindFailed err => [mkLog LError ["Caught uncaughtException:"; err]]
  end.

(** The requests among the events that get past the body parser, and so
    reach the token middleware. *)
Definition accepted_requests (evs : list Incoming) : list Request :=
  flat_map (fun e =>
              match e with
              | Http req =>
                  match express_json env req with
                  | None => [req]
                  | Some _ => []
                  end
              | _ => []
              end) evs.

(** The access lines of requests, under the ids drawn from the [n]-th on. *)
Definition access_lines (n : nat) (reqs : list Request) : list LogLine :=
  map (fun kr => mkLog LInfo (access_line (uuidv4 env (fst kr)) (snd kr)))
      (numbered n reqs).

(** Their trace lines. *)
Definition trace_lines (n : nat) (reqs : list Request) : list LogLine :=
  map (fun kr => mkLog LTrace (trace_line env (uuidv4 env (fst kr)) (snd kr)))
      (numbered n reqs).

(** The answers an event is owed. *)
Definition answers (e : Incoming) : list Response :=
  match e with
  | Http req =>
      match answer env req with
      | Some r => [r]
      | None => []
      end
  | _ => []
  end.

(** The error line an event leaves when both handlers are installed: one for
    an exception or a rejection of the process, and one for a request whose
    handler rejects asynchronously. *)
Definition error_lines (e : Incoming) : list LogLine :=
  match e with
  | Http req =>
      match express_json env req with
      | Some _ => []
      | None =>
          match router env req (auth_of env req) with
          | Rejected reason promise =>
              [mkLog LError ["Caught unhandledRejection:"; reason; promise]]
          | _ => []
          end
      end
  | PromiseRejected reason promise =>
      [mkLog LError ["Caught unhandledRejection:"; reason; promise]]
  | Thrown err => [mkLog LError ["Caught uncaughtException:"; err]]
  end.

End Server.

End ServerLog.

(** ** The state of the data panel and its events *)

Module PanelView.

Import DataPanel.

(** [QueryData]: every key may be missing at run time, since
    [{ ...pre, page: 1 }] on the initial [undefined] has no [_id]. *)
Record QueryData := mkQuery {
  q_id : option string;
  q_page : option Z;
  q_limit : option Z;
  q_total : option Z
}.

(** The object the pagination hands to [onChange]: the paging keys of
    [QueryData], each present or not. *)
Record PageValues := mkPage {
  v_page : option Z;
  v_limit : option Z;
  v_total : option Z
}.

(** [{ ...pre }] for a [pre] that may be [undefined]. *)
Definition spread (pre : option QueryData) : QueryData :=
  match pre with
  | Some q => q
  | None => mkQuery None None None None
  end.

Definition or_else {A : Type} (a b : option A) : option A :=
  match a with
  | Some _ => a
  | None => b
  end.

(** The function wrapped by [debounce]: [setQueryData({ page: 1, _id: data })]. *)
Definition search (data : string) (pre : option QueryData) : option QueryData :=
  Some (mkQuery (Some data) (Some 1%Z) None None).

(** [onSuccess] of the delete mutation:
    [setQueryData(pre => ({ ...pre, page: 1 }))]. *)
Definition onDeleteSuccess (pre : option QueryData) : option QueryData :=
  Some (mkQuery (q_id (spread pre)) (Some 1%Z) (q_limit (spread pre))
          (q_total (spread pre))).

(** [onChange] of the pagination:
    [setQueryData(pre => ({ ...pre, ...values }))]. *)
Definition onPageChange (values : PageValues) (pre : option QueryData)
  : option QueryData :=
  Some (mkQuery (q_id (spread pre))
          (or_else (v_page values) (q_page (spread pre)))
          (or_else (v_limit values) (q_limit (spread pre)))
          (or_else (v_total values) (q_total (spread pre)))).

(** The callback of [useEntryDataQuery]: the first document of a non-empty
    result, [undefined] otherwise; [None] is a [data] that is [undefined],
    and a [data] that is there has its array [data.data]. *)
Definition onQueryResult (data : option (list json)) : option json :=
  match data with
  | Some (first :: _) => Some first
  | _ => None
  end.

Section View.

Variable Server : Type.
Variable JSON_parse : string -> JsError + json.
Variable mutateAsync : json -> Server -> Server * option JsError.
Variable t : string -> string.

(** The three [useState] cells of the component, [record] being the one of
    the save handler's panel. *)
Record View := mkView {
  panel : Panel Server;
  currentData : option json;
  queryData : option QueryData
}.

(** The first render: [undefined], ["{}"], [undefined]. *)
Definition mount (srv : Server) : View := mkView (initial Server srv) None None.

(** What can happen to the mounted component: the editor reports a change,
    a list item is clicked, a query result arrives, the debounced search
    fires, the page is changed, a delete succeeds, Save is pressed. *)
Inductive UiEvent :=
| EditorChange (values : string)
| ItemClick (data : json)
| QueryResult (data : option (list json))
| Search (data : string)
| PageChange (values : PageValues)
| DeleteSuccess
| Save.

Definition react (e : UiEvent) (v : View) : View :=
  match e with
  | EditorChange values =>
      mkView (onChange Server values (panel v)) (currentData v) (queryData v)
  | ItemClick data => mkView (panel v) (Some data) (queryData v)
  | QueryResult data => mkView (panel v) (onQueryResult data) (queryData v)
  | Search data => mkView (panel v) (currentData v) (search data (queryData v))
  | PageChange values =>
      mkView (panel v) (currentData v) (onPageChange values (queryData v))
  | DeleteSuccess =>
      mkView (panel v) (currentData v) (onDeleteSuccess (queryData v))
  | Save =>
      mkView (handleData Server JSON_parse mutateAsync t (panel v))
        (currentData v) (queryData v)
  end.

Definition play (v : View) (evs : list UiEvent) : View :=
  fold_left (fun w e => react e w) evs v.

End View.

(** The text of the last editor change among the events, if any. *)
Fixpoint last_edit (evs : list UiEvent) (text : string) : string :=
  match evs with
  | [] => text
  | EditorChange values :: rest => last_edit rest values
  | _ :: rest => last_edit rest text
  end.

(** The term of the last search among the events, if any. *)
Fixpoint last_search (evs : list UiEvent) (term : option string) : option string :=
  match evs with
  | [] => term
  | Search data :: rest => last_search rest (Some data)
  | _ :: rest => last_search rest term
  end.

Definition is_edit (e : UiEvent) : bool :=
  match e with EditorChange _ => true | _ => false end.

Definition is_save (e : UiEvent) : bool :=
  match e with Save => true | _ => false end.

(** An event that writes the query through [search] or the pagination. *)
Definition pages (e : UiEvent) : bool :=
  match e with Search _ | PageChange _ => true | _ => false end.

End PanelView.

(** * Properties *)

Import Schema.

(** A boolean check that holds on every element of a list holds on each
    member. *)
Lemma checked_on_all {A : Type} (P : A -> bool) (l : list A) :
  forallb P l = true -> forall x, In x l -> P x = true.
Proof.
  intros H x Hx. rewrite forallb_forall in H. exact (H x Hx).
Qed.

(** ** The persisted layout *)

Lemma resource_kind_names :
  map mname resource_kinds =
  ["Subscription"; "SubscriptionRenewal"; "SubscriptionUpgrade";
   "AccountChargeOrder"; "Application"; "StorageUser"; "StorageBucket";
   "Database"; "CronTrigger"; "RuntimeDomain"; "BucketDomain";
   "WebsiteHosting"].
Proof. vm_compute. reflexivity. Qed.

Lemma kinds_with_message :
  map mname (filter carries_message resource_kinds) =
  ["SubscriptionRenewal"; "SubscriptionUpgrade"; "AccountChargeOrder"].
Proof. vm_compute. reflexivity. Qed.

Lemma kinds_with_desired_state :
  map mname (filter carries_desired_state resource_kinds) =
  ["Subscription"; "Application"; "StorageUser"; "StorageBucket"; "Database";
   "CronTrigger"; "RuntimeDomain"; "BucketDomain"; "WebsiteHosting"].
Proof. vm_compute. reflexivity. Qed.

Lemma kinds_with_failed_phase :
  map mname (filter (fun m => mem "Failed" (phase_values m)) resource_kinds) =
  ["SubscriptionRenewal"; "SubscriptionUpgrade"; "AccountChargeOrder"].
Proof. vm_compute. reflexivity. Qed.

(** C7, as stated, fails: [Application] and [Subscription], both resource
    kinds, have no [message] field, nor any optional text field under another
    name, so not every kind carries all the Resource Record fields. *)
Lemma application_has_no_message :
  In Application resource_kinds
  /\ has_field Application "message" = false
  /\ optional_strings Application = []
  /\ In Subscription resource_kinds
  /\ has_field Subscription "message" = false
  /\ optional_strings Subscription = []
  /\ ~ (forall m, In m resource_kinds -> carries_all_record_fields m = true).
Proof.
  assert (Ha : In Application resource_kinds) by (vm_compute; tauto).
  assert (Hs : In Subscription resource_kinds) by (vm_compute; tauto).
  repeat split; try assumption; try reflexivity.
  intros H. specialize (H Application Ha). vm_compute in H. discriminate H.
Qed.

(** C7, amended: every resource kind persists an identity, an owner key, the
    actual phase, the lock timestamp and both audit timestamps, and exactly
    one of desired state and optional message. *)
Theorem persisted_layout_of_every_kind (m : Model) :
  In m resource_kinds ->
  carries_identity m = true
  /\ has_owner_key m = true
  /\ carries_actual_phase m = true
  /\ carries_lock m = true
  /\ carries_audit m = true
  /\ xorb (carries_desired_state m) (carries_message m) = true
  /\ has_field m "state" = carries_desired_state m
  /\ has_field m "message" = carries_message m.
Proof.
  intros Hm.
  assert (H : carries_common_fields m = true).
  { revert m Hm. apply checked_on_all. vm_compute. reflexivity. }
  unfold carries_common_fields in H.
  repeat rewrite andb_true_iff in H.
  destruct H as [[[[[[[H1 H2] H3] H4] H5] H6] H7] H8].
  apply eqb_prop in H7. apply eqb_prop in H8.
  repeat split; assumption.
Qed.

Lemma persisted_layout_of_application :
  In Application resource_kinds
  /\ carries_identity Application = true
  /\ has_owner_key Application = true
  /\ carries_actual_phase Application = true
  /\ carries_lock Application = true
  /\ carries_audit Application = true
  /\ xorb (carries_desired_state Application) (carries_message Application) = true
  /\ has_field Application "state" = carries_desired_state Application
  /\ has_field Application "message" = carries_message Application.
Proof.
  assert (Ha : In Application resource_kinds) by (vm_compute; tauto).
  split; [exact Ha|]. exact (persisted_layout_of_every_kind Application Ha).
Defined.

(** ** Defaults of a new record *)

(** C8, as stated, fails: [SubscriptionRenewal], a resource kind, has no
    desired-state field at all ([phase] is its only enum-typed field), so a
    new renewal has no desired state. *)
Lemma renewal_has_no_desired_state :
  In SubscriptionRenewal resource_kinds
  /\ has_field SubscriptionRenewal "state" = false
  /\ enum_fields SubscriptionRenewal = ["phase"]
  /\ default_enum SubscriptionRenewal "state" = None
  /\ ~ (forall m, In m resource_kinds ->
          exists s p, default_enum m "state" = Some s /\ s <> "Deleted"
                      /\ default_enum m "phase" = Some p /\ in_progress p = true).
Proof.
  assert (Hr : In SubscriptionRenewal resource_kinds) by (vm_compute; tauto).
  repeat split; try assumption; try reflexivity.
  intros H. destruct (H SubscriptionRenewal Hr) as (s & p & Hs & _).
  vm_compute in Hs. discriminate Hs.
Qed.

(** C8, amended: a new record of every kind starts in the first phase of its
    enumeration, an in-progress one, and, for every kind that has a
    desired-state field, in the first desired state of its enumeration, which
    is not Deleted. *)
Theorem defaults_of_a_new_record (m : Model) :
  In m resource_kinds ->
  (exists p, default_enum m "phase" = Some p
             /\ in_progress p = true
             /\ hd_error (phase_values m) = Some p)
  /\ (has_field m "state" = true ->
      exists s, default_enum m "state" = Some s
                /\ s <> "Deleted"
                /\ hd_error (state_values m) = Some s).
Proof.
  intros Hm.
  assert (H : (initial_phase_ok m
               && implb (has_field m "state") (initial_state_ok m)) = true).
  { revert m Hm. apply checked_on_all. vm_compute. reflexivity. }
  apply andb_prop in H. destruct H as [Hp Hs].
  split.
  - unfold initial_phase_ok in Hp.
    destruct (default_enum m "phase") as [p|]; [|discriminate].
    apply andb_prop in Hp. destruct Hp as [Hi Hf].
    exists p. repeat split; [exact Hi|].
    unfold first_is in Hf. destruct (phase_values m) as [|x l]; [discriminate|].
    apply String.eqb_eq in Hf. subst. reflexivity.
  - intros Hst. rewrite Hst in Hs. simpl in Hs.
    unfold initial_state_ok in Hs.
    destruct (default_enum m "state") as [s|]; [|discriminate].
    apply andb_prop in Hs. destruct Hs as [Hd Hf].
    exists s. repeat split.
    + intros ->. discriminate Hd.
    + unfold first_is in Hf. destruct (state_values m) as [|x l]; [discriminate|].
      apply String.eqb_eq in Hf. subst. reflexivity.
Qed.

Lemma defaults_of_the_named_kinds :
  (default_enum Application "state", default_enum Application "phase")
    = (Some "Running", Some "Creating")
  /\ (default_enum StorageUser "state", default_enum StorageUser "phase")
    = (Some "Active", Some "Creating")
  /\ (default_enum Subscription "state", default_enum Subscription "phase")
    = (Some "Created", Some "Pending").
Proof. repeat split. Qed.

Lemma defaults_of_a_new_application :
  In Application resource_kinds
  /\ (exists p, default_enum Application "phase" = Some p
                /\ in_progress p = true
                /\ hd_error (phase_values Application) = Some p)
  /\ (exists s, default_enum Application "state" = Some s
                /\ s <> "Deleted"
                /\ hd_error (state_values Application) = Some s).
Proof.
  assert (Ha : In Application resource_kinds) by (vm_compute; tauto).
  destruct (defaults_of_a_new_record Application Ha) as [Hp Hs].
  split; [exact Ha|]. split; [exact Hp|]. apply Hs. reflexivity.
Defined.

(** ** The lock manager *)

Module LockFacts.

Import Lock.
Local Open Scope Z_scope.

Lemma put_same (s : Store) (rid : string) (r : ResourceRecord) :
  put s rid r rid = Some r.
Proof. unfold put. rewrite String.eqb_refl. reflexivity. Qed.

Lemma put_other (s : Store) (rid k : string) (r : ResourceRecord) :
  k <> rid -> put s rid r k = s k.
Proof.
  intros H. unfold put. destruct (String.eqb_spec k rid); [contradiction|reflexivity].
Qed.

(** [isExpired] says what the specification's words say. *)
Lemma isExpired_spec (d : Z) (r : ResourceRecord) (now : Z) :
  isExpired d r now = true <->
  (lockedAt r = None \/ exists t, lockedAt r = Some t /\ t + d <= now).
Proof.
  unfold isExpired. destruct (lockedAt r) as [t|].
  - rewrite Z.leb_le. split.
    + intros H. right. exists t. split; [reflexivity|exact H].
    + intros [H|[t' [H1 H2]]]; [discriminate|]. injection H1 as ->. exact H2.
  - split; [intros _; left; reflexivity|reflexivity].
Qed.

Lemma acquire_record_granted (d now : Z) (r : ResourceRecord) :
  isExpired d r now = true ->
  acquire_record d now r = (LeaseToken now, set_lockedAt (Some now) r).
Proof. intros H. unfold acquire_record. rewrite H. reflexivity. Qed.

Lemma acquire_record_denied (d now : Z) (r : ResourceRecord) :
  isExpired d r now = false -> acquire_record d now r = (Denied, r).
Proof. intros H. unfold acquire_record. rewrite H. reflexivity. Qed.

Lemma tryAcquire_granted (s : Store) (now : Z) (rid : string) (d : Z)
  (r : ResourceRecord) :
  s rid = Some r -> isExpired d r now = true ->
  tryAcquire s now rid d = (LeaseToken now, put s rid (set_lockedAt (Some now) r)).
Proof.
  intros Hs H. unfold tryAcquire. rewrite Hs, (acquire_record_granted _ _ _ H).
  reflexivity.
Qed.

Lemma tryAcquire_denied (s : Store) (now : Z) (rid : string) (d : Z)
  (r : ResourceRecord) :
  s rid = Some r -> isExpired d r now = false ->
  tryAcquire s now rid d = (Denied, s).
Proof.
  intros Hs H. unfold tryAcquire. rewrite Hs, (acquire_record_denied _ _ _ H).
  reflexivity.
Qed.

(** What a grant tells about the store before and after. *)
Lemma tryAcquire_inv (s s' : Store) (now : Z) (rid : string) (d tok : Z) :
  tryAcquire s now rid d = (LeaseToken tok, s') ->
  exists r, s rid = Some r /\ isExpired d r now = true /\ tok = now
            /\ s' = put s rid (set_lockedAt (Some now) r).
Proof.
  unfold tryAcquire. destruct (s rid) as [r|] eqn:Hs; [|discriminate].
  unfold acquire_record. destruct (isExpired d r now) eqn:He; [|discriminate].
  intros H. injection H as <- <-. exists r. repeat split. exact He.
Qed.

Lemma tryAcquire_denied_same (s s' : Store) (now : Z) (rid : string) (d : Z) :
  tryAcquire s now rid d = (Denied, s') -> s' = s.
Proof.
  unfold tryAcquire. destruct (s rid) as [r|]; [|intros H; injection H as <-; reflexivity].
  destruct (acquire_record d now r) as [[tok|] r']; [discriminate|].
  intros H. injection H as <-. reflexivity.
Qed.

End LockFacts.

(** C2: on a record of the store, [tryAcquire] is granted exactly when the
    record's [lockedAt] is absent or at least [leaseDuration] old; a grant
    writes [now] into [lockedAt] in the same step, returns [now] as the token
    and touches nothing else; otherwise the answer is [Denied] and the store
    is unchanged. *)
Theorem tryAcquire_is_a_compare_and_set
  (s : Lock.Store) (now : Z) (recordId : string) (leaseDuration : Z)
  (r : Lock.ResourceRecord) :
  s recordId = Some r ->
  let unlocked :=
    Lock.lockedAt r = None
    \/ exists t, Lock.lockedAt r = Some t /\ (t + leaseDuration <= now)%Z in
  (unlocked ->
     Lock.tryAcquire s now recordId leaseDuration
     = (Lock.LeaseToken now,
        Lock.put s recordId
          (Lock.mkRecord (Lock.id r) (Lock.ownerKey r) (Lock.desiredState r)
             (Lock.actualPhase r) (Some now) (Lock.message r)
             (Lock.createdAt r) (Lock.updatedAt r))))
  /\ (~ unlocked ->
      Lock.tryAcquire s now recordId leaseDuration = (Lock.Denied, s)).
Proof.
  intros Hs unlocked. split; intros H.
  - rewrite (LockFacts.tryAcquire_granted s now recordId leaseDuration r Hs);
      [reflexivity|].
    apply LockFacts.isExpired_spec. exact H.
  - apply (LockFacts.tryAcquire_denied s now recordId leaseDuration r Hs).
    destruct (Lock.isExpired leaseDuration r now) eqn:He; [|reflexivity].
    exfalso. apply H. apply LockFacts.isExpired_spec. exact He.
Qed.

Lemma tryAcquire_on_the_example_store :
  Lock.example_store "r1" = Some Lock.example_record
  /\ Lock.tryAcquire Lock.example_store 100 "r1" 15000
     = (Lock.LeaseToken 100,
        Lock.put Lock.example_store "r1"
          (Lock.mkRecord "r1" "app-1" (Some "Running") "Creating" (Some 100%Z)
             None 0 0)).
Proof.
  split; [reflexivity|].
  apply (tryAcquire_is_a_compare_and_set Lock.example_store 100 "r1" 15000
           Lock.example_record eq_refl).
  left. reflexivity.
Defined.

(** C3: after a grant at time [T], as long as the lease is neither released
    nor taken over, another [tryAcquire] is granted at every time from
    [T + leaseDuration] on and denied at every time before. *)
Theorem lease_is_claimable_from_expiry_on
  (s s1 s2 : Lock.Store) (T : Z) (recordId : string) (leaseDuration tok : Z) :
  Lock.tryAcquire s T recordId leaseDuration = (Lock.LeaseToken tok, s1) ->
  Lock.lock_of s2 recordId = Lock.lock_of s1 recordId ->
  forall now : Z,
    ((T + leaseDuration <= now)%Z ->
       exists s3, Lock.tryAcquire s2 now recordId leaseDuration
                  = (Lock.LeaseToken now, s3))
    /\ ((now < T + leaseDuration)%Z ->
        Lock.tryAcquire s2 now recordId leaseDuration = (Lock.Denied, s2)).
Proof.
  intros Hacq Hsame now.
  apply LockFacts.tryAcquire_inv in Hacq.
  destruct Hacq as (r & Hr & _ & -> & ->).
  unfold Lock.lock_of in Hsame. rewrite LockFacts.put_same in Hsame.
  destruct (s2 recordId) as [r2|] eqn:H2; [|discriminate].
  simpl in Hsame. injection Hsame as Hl.
  split; intros Ht.
  - eexists. apply (LockFacts.tryAcquire_granted s2 now recordId leaseDuration r2 H2).
    unfold Lock.isExpired. rewrite Hl. apply Z.leb_le. exact Ht.
  - apply (LockFacts.tryAcquire_denied s2 now recordId leaseDuration r2 H2).
    unfold Lock.isExpired. rewrite Hl. apply Z.leb_gt. exact Ht.
Qed.

Lemma example_lease_is_claimable_from_expiry_on :
  (exists s3, Lock.tryAcquire
                (Lock.put Lock.example_store "r1"
                   (Lock.set_lockedAt (Some 100%Z) Lock.example_record))
                15100 "r1" 15000 = (Lock.LeaseToken 15100, s3))
  /\ Lock.tryAcquire
       (Lock.put Lock.example_store "r1"
          (Lock.set_lockedAt (Some 100%Z) Lock.example_record))
       15099 "r1" 15000
     = (Lock.Denied,
        Lock.put Lock.example_store "r1"
          (Lock.set_lockedAt (Some 100%Z) Lock.example_record)).
Proof.
  pose proof (lease_is_claimable_from_expiry_on Lock.example_store
                (Lock.put Lock.example_store "r1"
                   (Lock.set_lockedAt (Some 100%Z) Lock.example_record))
                (Lock.put Lock.example_store "r1"
                   (Lock.set_lockedAt (Some 100%Z) Lock.example_record))
                100 "r1" 15000 100 eq_refl eq_refl) as H.
  split.
  - apply (proj1 (H 15100%Z)). vm_compute. discriminate.
  - apply (proj2 (H 15099%Z)). reflexivity.
Defined.

(** ** Mutual exclusion of leases *)

Module MutualExclusion.

Import Lock LockFacts.
Local Open Scope Z_scope.

Lemma filter_length_le {A : Type} (f g : A -> bool) (l : list A) :
  (forall x, In x l -> f x = true -> g x = true) ->
  (List.length (filter f l) <= List.length (filter g l))%nat.
Proof.
  induction l as [|a l IH]; simpl; intros H; [lia|].
  assert (IH' : (List.length (filter f l) <= List.length (filter g l))%nat)
    by (apply IH; intros x Hx; apply H; right; exact Hx).
  destruct (f a) eqn:Hf.
  - rewrite (H a (or_introl eq_refl) Hf). simpl. lia.
  - destruct (g a); simpl; lia.
Qed.

Lemma filter_none {A : Type} (f : A -> bool) (l : list A) :
  (forall x, In x l -> f x = false) -> filter f l = [].
Proof.
  induction l as [|a l IH]; simpl; intros H; [reflexivity|].
  rewrite (H a (or_introl eq_refl)). apply IH. intros x Hx. apply H. right. exact Hx.
Qed.

Lemma filter_filter_length {A : Type} (f g : A -> bool) (l : list A) :
  (List.length (filter f (filter g l)) <= List.length (filter f l))%nat.
Proof.
  induction l as [|a l IH]; simpl; [lia|].
  destruct (g a); simpl; destruct (f a); simpl; lia.
Qed.

Lemma two_in_filter {A : Type} (f : A -> bool) (l : list A) (a b : A) :
  In a l -> In b l -> a <> b -> f a = true -> f b = true ->
  (2 <= List.length (filter f l))%nat.
Proof.
  induction l as [|x l IH]; simpl; intros Ha Hb Hab Hfa Hfb; [contradiction|].
  destruct Ha as [->|Ha], Hb as [->|Hb].
  - contradiction.
  - rewrite Hfa. simpl.
    assert (Hin : In b (filter f l)) by (apply filter_In; split; assumption).
    destruct (filter f l); [contradiction|simpl; lia].
  - rewrite Hfb. simpl.
    assert (Hin : In a (filter f l)) by (apply filter_In; split; assumption).
    destruct (filter f l); [contradiction|simpl; lia].
  - specialize (IH Ha Hb Hab Hfa Hfb). destruct (f x); simpl; lia.
Qed.

Lemma lease_eqb_eq (a b : Lease) : lease_eqb a b = true <-> a = b.
Proof.
  destruct a as [w1 r1 t1], b as [w2 r2 t2]. unfold lease_eqb. simpl.
  rewrite !andb_true_iff, Nat.eqb_eq, String.eqb_eq, Z.eqb_eq. split.
  - intros [[-> ->] ->]. reflexivity.
  - intros H. injection H as -> -> ->. repeat split.
Qed.

Lemma valid_at_iff (d t : Z) (l : Lease) :
  valid_at d t l = true <-> token_of l <= t < token_of l + d.
Proof. unfold valid_at. rewrite andb_true_iff, Z.leb_le, Z.ltb_lt. tauto. Qed.

(** Time passing without any event keeps the invariant. *)
Lemma invariant_advance (d clock now : Z) (sys : System) :
  lease_invariant d clock sys -> clock <= now -> lease_invariant d now sys.
Proof.
  intros (I1 & I2 & I3) Hle. repeat split.
  - intros l Hl. specialize (I1 l Hl). lia.
  - intros l Hl Hv. apply (I2 l Hl). lia.
  - intros rid. eapply Nat.le_trans; [|apply (I3 rid)].
    unfold holders_at. apply filter_length_le. intros l Hl.
    rewrite !andb_true_iff, !valid_at_iff. intros [Hr Hv].
    specialize (I1 l Hl). split; [exact Hr|lia].
Qed.

(** A granted [tryAcquire] finds no valid lease on the record. *)
Lemma grant_means_no_valid_lease (d now : Z) (sys : System) (rid : string)
  (r : ResourceRecord) :
  lease_invariant d now sys ->
  store sys rid = Some r -> isExpired d r now = true ->
  forall l, In l (leases sys) -> leased l = rid -> now < token_of l + d -> False.
Proof.
  intros (_ & I2 & _) Hr Hexp l Hl Hrid Hv.
  destruct (I2 l Hl Hv) as (r0 & Hr0 & Hlock).
  rewrite Hrid, Hr in Hr0. injection Hr0 as <-.
  unfold isExpired in Hexp. rewrite Hlock in Hexp. apply Z.leb_le in Hexp. lia.
Qed.

(** Every event keeps the invariant. *)
Lemma invariant_step (d now : Z) (e : LockEvent) (sys : System) :
  lease_invariant d now sys -> lease_invariant d now (step d now e sys).
Proof.
  intros Inv. destruct e as [w rid|w rid tok]; simpl.
  - destruct (tryAcquire (store sys) now rid d) as [[tok|] s'] eqn:Hacq;
      [|exact Inv].
    apply tryAcquire_inv in Hacq. destruct Hacq as (r & Hr & Hexp & -> & ->).
    pose proof (grant_means_no_valid_lease d now sys rid r Inv Hr Hexp) as K.
    destruct Inv as (I1 & I2 & I3). repeat split; simpl.
    + intros l [<-|Hl]; [simpl; lia|exact (I1 l Hl)].
    + intros l [<-|Hl] Hv; simpl.
      * rewrite put_same. eexists. split; reflexivity.
      * destruct (String.eqb_spec (leased l) rid) as [Heq|Hne].
        -- exfalso. exact (K l Hl Heq Hv).
        -- rewrite (put_other _ _ _ _ Hne). exact (I2 l Hl Hv).
    + intros rid0. unfold holders_at. simpl.
      destruct (String.eqb_spec rid rid0) as [<-|Hne]; simpl.
      * destruct (valid_at d now (mkLease w rid now)); [|exact (I3 rid)].
        rewrite filter_none; [simpl; lia|].
        intros l Hl. apply not_true_is_false. rewrite andb_true_iff, valid_at_iff.
        intros [Heq Hv]. apply String.eqb_eq in Heq. apply (K l Hl Heq). lia.
      * exact (I3 rid0).
  - destruct (existsb (lease_eqb (mkLease w rid tok)) (leases sys)) eqn:Hex;
      [|exact Inv].
    apply existsb_exists in Hex. destruct Hex as (x & Hx & Hxe).
    apply lease_eqb_eq in Hxe. subst x.
    destruct Inv as (I1 & I2 & I3). repeat split; simpl.
    + intros l Hl. apply filter_In in Hl. exact (I1 l (proj1 Hl)).
    + intros l Hl Hv. apply filter_In in Hl. destruct Hl as [Hl Hne].
      destruct (I2 l Hl Hv) as (r0 & Hr0 & Hlock).
      unfold release. destruct (store sys rid) as [r|] eqn:Hr;
        [|exists r0; split; assumption].
      destruct (String.eqb_spec (leased l) rid) as [Heq|Hneq].
      * rewrite Heq, put_same. rewrite Heq, Hr in Hr0. injection Hr0 as <-.
        eexists. split; [reflexivity|].
        unfold release_record. rewrite Hlock.
        destruct (Z.eqb_spec (token_of l) tok) as [Htok|Htok]; [|exact Hlock].
        exfalso.
        assert (Hdiff : l <> mkLease w rid tok).
        { intros E. rewrite E in Hne.
          rewrite (proj2 (lease_eqb_eq _ _) eq_refl) in Hne. discriminate Hne. }
        pose proof (I1 l Hl) as Hpast.
        assert (H2 : (2 <= List.length (holders_at d now rid sys))%nat).
        { unfold holders_at.
          apply (two_in_filter _ _ l (mkLease w rid tok) Hl Hx Hdiff).
          - rewrite andb_true_iff, valid_at_iff, String.eqb_eq. split; [exact Heq|lia].
          - rewrite andb_true_iff, valid_at_iff, String.eqb_eq. simpl.
            split; [reflexivity|lia]. }
        specialize (I3 rid). lia.
      * rewrite (put_other _ _ _ _ Hneq). exists r0. split; assumption.
    + intros rid0. unfold holders_at. simpl.
      eapply Nat.le_trans; [apply filter_filter_length|apply (I3 rid0)].
Qed.

(** The invariant holds along every chronological run, up to any later
    instant. *)
Lemma invariant_run (d : Z) (evs : list (Z * LockEvent)) :
  forall (clock : Z) (sys : System) (t : Z),
    lease_invariant d clock sys ->
    chronological clock evs ->
    (forall now e, In (now, e) evs -> now <= t) ->
    clock <= t ->
    lease_invariant d t (run d sys evs).
Proof.
  induction evs as [|[now e] rest IH]; intros clock sys t Inv Hch Hbound Hle; simpl.
  - exact (invariant_advance d clock t sys Inv Hle).
  - destruct Hch as [Hnow Hrest].
    apply (IH now); [|exact Hrest| |].
    + apply invariant_step. exact (invariant_advance d clock now sys Inv Hnow).
    + intros now' e' Hin. apply (Hbound now' e'). right. exact Hin.
    + apply (Hbound now e). left. reflexivity.
Qed.

Lemma invariant_initially (d clock : Z) (s0 : Store) :
  lease_invariant d clock (mkSystem s0 []).
Proof.
  repeat split; simpl; try contradiction. intros rid. unfold holders_at. simpl. lia.
Qed.

End MutualExclusion.

(** C1: along every chronological run of workers acquiring and releasing
    leases on a store with the configured lease duration, whatever that
    duration is, each record has at most one valid lease at every instant
    from the last event on (an earlier instant is covered by the run up to
    it); so any two leases on a record that are valid at the same instant are
    one lease of one worker. *)
Theorem at_most_one_valid_lease
  (leaseDuration : Z) (s0 : Lock.Store) (clock : Z)
  (evs : list (Z * Lock.LockEvent)) (t : Z) (recordId : string) :
  Lock.chronological clock evs ->
  (forall now e, In (now, e) evs -> (now <= t)%Z) ->
  (clock <= t)%Z ->
  let sys := Lock.run leaseDuration (Lock.mkSystem s0 []) evs in
  (List.length (Lock.holders_at leaseDuration t recordId sys) <= 1)%nat
  /\ (forall l1 l2,
        In l1 (Lock.holders_at leaseDuration t recordId sys) ->
        In l2 (Lock.holders_at leaseDuration t recordId sys) ->
        l1 = l2).
Proof.
  intros Hch Hbound Hle sys.
  pose proof (MutualExclusion.invariant_run leaseDuration evs clock
                (Lock.mkSystem s0 []) t
                (MutualExclusion.invariant_initially leaseDuration clock s0)
                Hch Hbound Hle) as (_ & _ & I3).
  specialize (I3 recordId). fold sys in I3.
  split; [exact I3|].
  intros l1 l2 H1 H2.
  destruct (Lock.holders_at leaseDuration t recordId sys) as [|x [|y rest]];
    simpl in *.
  - contradiction.
  - destruct H1 as [<-|[]], H2 as [<-|[]]. reflexivity.
  - lia.
Qed.

Lemma example_race_holders :
  Lock.holders_at 10 12 "r1"
    (Lock.run 10 (Lock.mkSystem Lock.example_store []) Lock.example_race)
  = [Lock.mkLease 2 "r1" 10%Z]
  /\ Lock.holders_at 10 5 "r1"
       (Lock.run 10 (Lock.mkSystem Lock.example_store [])
          (firstn 2 Lock.example_race))
     = [Lock.mkLease 1 "r1" 0%Z].
Proof. split; vm_compute; reflexivity. Qed.

Lemma at_most_one_valid_lease_in_the_example :
  (List.length
     (Lock.holders_at 10 12 "r1"
        (Lock.run 10 (Lock.mkSystem Lock.example_store []) Lock.example_race)) <= 1)%nat.
Proof.
  apply (at_most_one_valid_lease 10 Lock.example_store 0 Lock.example_race 12 "r1").
  - simpl. lia.
  - intros now e H. simpl in H.
    repeat (destruct H as [H|H]; [injection H as <- _; lia|]). contradiction.
  - lia.
Defined.

(** ** Outcome handling and retries *)

Module EngineFacts.

Import Lock LockFacts Engine.
Local Open Scope Z_scope.

Lemma release_record_frame (token : Z) (r : ResourceRecord) :
  id (release_record token r) = id r
  /\ ownerKey (release_record token r) = ownerKey r
  /\ desiredState (release_record token r) = desiredState r
  /\ actualPhase (release_record token r) = actualPhase r
  /\ message (release_record token r) = message r
  /\ createdAt (release_record token r) = createdAt r
  /\ updatedAt (release_record token r) = updatedAt r.
Proof.
  unfold release_record. destruct (lockedAt r) as [t|]; [|repeat split].
  destruct (t =? token); repeat split.
Qed.

Lemma release_record_own (token : Z) (r : ResourceRecord) :
  lockedAt r = Some token -> lockedAt (release_record token r) = None.
Proof.
  intros H. unfold release_record. rewrite H, Z.eqb_refl. reflexivity.
Qed.

(** A kind with a desired state has no Failed phase, in this schema. *)
Lemma kinds_with_state_never_fail (k : Model) (s : string) :
  In k resource_kinds -> mem s (state_values k) = true -> failed_phase k = None.
Proof.
  intros Hk Hs.
  assert (H : state_excludes_failed k = true).
  { revert k Hk Hs. intros k Hk _. revert k Hk.
    apply checked_on_all. vm_compute. reflexivity. }
  unfold state_excludes_failed in H.
  destruct (state_values k); [discriminate Hs|].
  destruct (failed_phase k); [discriminate H|reflexivity].
Qed.

(** A kind with a Failed phase calls it [Failed], has a message column and
    has no desired state, in this schema. *)
Lemma kinds_that_fail (k : Model) (f : string) :
  In k resource_kinds -> failed_phase k = Some f ->
  f = "Failed" /\ carries_message k = true /\ has_field k "state" = false.
Proof.
  intros Hk Hf.
  assert (H : failed_goes_with_message k = true).
  { revert k Hk Hf. intros k Hk _. revert k Hk.
    apply checked_on_all. vm_compute. reflexivity. }
  unfold failed_goes_with_message in H. rewrite Hf in H.
  rewrite !andb_true_iff, String.eqb_eq, negb_true_iff in H. tauto.
Qed.

(** The Failed phase a kind's enumeration declares is the one of the Fatal
    row. *)
Lemma failed_phase_name (k : Model) (f : string) :
  failed_phase k = Some f -> f = failedPhase.
Proof.
  unfold failed_phase. destruct (mem "Failed" (phase_values k)); [|discriminate].
  intros H. injection H as <-. reflexivity.
Qed.

Lemma is_failed_spec (phase : string) :
  is_failed phase = true <-> phase = failedPhase.
Proof. unfold is_failed. apply String.eqb_eq. Qed.

(** A pass leaves a record in the Failed phase alone. *)
Lemma failed_is_skipped (cfg : KindConfig) (adapter : Adapter) (now : Z)
  (st : Resource) :
  actualPhase (rec st) = failedPhase -> cycle cfg adapter now st = (st, false).
Proof.
  intros Hp. unfold cycle, transition. rewrite Hp. reflexivity.
Qed.

(** A record in the Failed phase is never dispatched again. *)
Lemma failed_is_terminal (cfg : KindConfig) (st : Resource) :
  actualPhase (rec st) = failedPhase ->
  forall (adapter : Adapter) (times : list Z),
    run_cycles cfg adapter times st = (st, 0%nat).
Proof.
  intros Hp adapter times. induction times as [|now rest IH]; cbn [run_cycles].
  - reflexivity.
  - rewrite (failed_is_skipped cfg adapter now st Hp), IH. reflexivity.
Qed.

(** What a pass does once it has something to do and may do it. *)
Lemma cycle_dispatched (cfg : KindConfig) (adapter : Adapter) (now : Z)
  (st : Resource) (action : Action) (next : string) :
  transition cfg (desiredState (rec st)) (actualPhase (rec st)) = Some (action, next) ->
  retryAt st <= now ->
  isExpired (leaseDuration cfg) (rec st) now = true ->
  cycle cfg adapter now st =
  (applyOutcome cfg now now
     (mkResource (set_lockedAt (Some now) (rec st)) (attempts st) (retryAt st))
     next
     (classify cfg (attempts st)
        (adapter (set_lockedAt (Some now) (rec st)) action)),
   true).
Proof.
  intros Ht Hr He. unfold cycle. rewrite Ht.
  destruct (Z.ltb_spec now (retryAt st)) as [Hlt|_]; [lia|].
  rewrite (acquire_record_granted _ _ _ He). reflexivity.
Qed.

(** A pass either leaves the resource alone, or it is such a dispatch. *)
Lemma cycle_cases (cfg : KindConfig) (adapter : Adapter) (now : Z)
  (st : Resource) :
  cycle cfg adapter now st = (st, false)
  \/ exists action next,
       transition cfg (desiredState (rec st)) (actualPhase (rec st))
         = Some (action, next)
       /\ retryAt st <= now
       /\ isExpired (leaseDuration cfg) (rec st) now = true
       /\ cycle cfg adapter now st =
          (applyOutcome cfg now now
             (mkResource (set_lockedAt (Some now) (rec st)) (attempts st)
                (retryAt st))
             next
             (classify cfg (attempts st)
                (adapter (set_lockedAt (Some now) (rec st)) action)),
           true).
Proof.
  unfold cycle.
  destruct (transition cfg (desiredState (rec st)) (actualPhase (rec st)))
    as [[action next]|] eqn:Ht; [|left; reflexivity].
  destruct (Z.ltb_spec now (retryAt st)) as [Hlt|Hge]; [left; reflexivity|].
  unfold acquire_record.
  destruct (isExpired (leaseDuration cfg) (rec st) now) eqn:He;
    [|left; reflexivity].
  right. exists action, next. repeat split. exact Hge.
Qed.

Lemma backoff_le_cap (cfg : KindConfig) (n : nat) : backoff cfg n <= backoffCap cfg.
Proof. unfold backoff. apply Z.le_min_l. Qed.

(** The record an outcome leaves behind when the lease that is given back is
    the one the record names: every field, written out. *)
Lemma written_and_released (cfg : KindConfig) (now : Z) (phase : string)
  (msg : option string) (r : ResourceRecord) :
  release_record now (write_status cfg now phase msg (set_lockedAt (Some now) r))
  = mkRecord (id r) (ownerKey r) (desiredState r) phase None
      (if carries_message (kind cfg) then msg else message r) (createdAt r) now.
Proof.
  unfold release_record, write_status, set_lockedAt. simpl.
  rewrite Z.eqb_refl. reflexivity.
Qed.

End EngineFacts.

Module RetryFacts.

Import Lock LockFacts Engine EngineFacts.
Local Open Scope Z_scope.

(** The resource after a dispatch at [now] whose outcome is handled as
    Retryable. *)
Lemma dispatched_retryable (cfg : KindConfig) (now : Z) (st : Resource)
  (next reason : string) :
  applyOutcome cfg now now
    (mkResource (set_lockedAt (Some now) (rec st)) (attempts st) (retryAt st))
    next (Retryable reason)
  = mkResource
      (mkRecord (id (rec st)) (ownerKey (rec st)) (desiredState (rec st))
         (actualPhase (rec st)) None
         (if carries_message (kind cfg) then Some reason else message (rec st))
         (createdAt (rec st)) now)
      (S (attempts st)) (now + backoff cfg (attempts st)).
Proof.
  unfold applyOutcome. cbn [rec attempts retryAt].
  change (actualPhase (set_lockedAt (Some now) (rec st))) with (actualPhase (rec st)).
  rewrite written_and_released. reflexivity.
Qed.

(** The resource after a dispatch at [now] whose outcome is handled as
    Fatal. *)
Lemma dispatched_fatal (cfg : KindConfig) (now : Z) (st : Resource)
  (next reason : string) :
  applyOutcome cfg now now
    (mkResource (set_lockedAt (Some now) (rec st)) (attempts st) (retryAt st))
    next (Fatal reason)
  = mkResource
      (mkRecord (id (rec st)) (ownerKey (rec st)) (desiredState (rec st))
         failedPhase None
         (if carries_message (kind cfg) then Some reason else message (rec st))
         (createdAt (rec st)) now)
      (attempts st) (retryAt st).
Proof.
  unfold applyOutcome. cbn [rec attempts retryAt].
  rewrite written_and_released. reflexivity.
Qed.


(** With an adapter that always answers Retryable, the attempts made so far
    decide the phase: unchanged below the maximum, Failed at the maximum, and
    the maximum is never exceeded. *)
Lemma retries_count (cfg : KindConfig) (adapter : Adapter) :
  always_retryable adapter ->
  forall (times : list Z) (st : Resource),
    (attempts st < maxAttempts cfg)%nat ->
    actualPhase (rec st) <> failedPhase ->
    exists st' k,
      run_cycles cfg adapter times st = (st', k)
      /\ (attempts st + k <= maxAttempts cfg)%nat
      /\ ((attempts st + k < maxAttempts cfg)%nat ->
          actualPhase (rec st') = actualPhase (rec st)
          /\ attempts st' = (attempts st + k)%nat)
      /\ ((attempts st + k = maxAttempts cfg)%nat ->
          actualPhase (rec st') = failedPhase).
Proof.
  intros Hretry times.
  induction times as [|now rest IH]; intros st Hlt Hne;
    cbn [run_cycles].
  - exists st, 0%nat. split; [reflexivity|]. split; [lia|]. split.
    + intros _. split; [reflexivity|lia].
    + intros H. lia.
  - destruct (cycle_cases cfg adapter now st)
      as [Hidle|(action & next & Ht & Hr & He & Hrun)].
    + rewrite Hidle. destruct (IH st Hlt Hne) as (st' & k & Hk & H1 & H2 & H3).
      rewrite Hk. exists st', k. cbn [Nat.add].
      split; [reflexivity|]. split; [exact H1|]. split; assumption.
    + rewrite Hrun.
      destruct (Hretry (set_lockedAt (Some now) (rec st)) action) as [reason ->].
      unfold classify.
      destruct (Nat.leb_spec (maxAttempts cfg) (S (attempts st))) as [Hmax|Hmore].
      * rewrite dispatched_fatal.
        rewrite failed_is_terminal by reflexivity.
        eexists. exists 1%nat. split; [reflexivity|].
        split; [lia|]. split; [intros H; lia|].
        intros _. reflexivity.
      * rewrite dispatched_retryable.
        match goal with
        | |- context [run_cycles cfg adapter rest ?s1] =>
            destruct (IH s1) as (st' & k & Hk & H1 & H2 & H3);
              [cbn [attempts]; lia|cbn [rec actualPhase]; exact Hne|];
              rewrite Hk; cbn [attempts rec actualPhase] in H1, H2, H3
        end.
        exists st', (1 + k)%nat.
        split; [reflexivity|]. split; [lia|]. split.
        -- intros Hk'. destruct H2 as [Hp Ha]; [lia|]. split; [exact Hp|lia].
        -- intros Hk'. apply H3. lia.
Qed.

(** On the retry schedule every pass is an attempt. *)
Lemma retries_all_dispatched (cfg : KindConfig) (adapter : Adapter) :
  always_retryable adapter ->
  forall (n : nat) (st : Resource) (start : Z) (action : Action) (next : string),
    transition cfg (desiredState (rec st)) (actualPhase (rec st)) = Some (action, next) ->
    (attempts st + n <= maxAttempts cfg)%nat ->
    retryAt st <= start ->
    isExpired (leaseDuration cfg) (rec st) start = true ->
    exists st', run_cycles cfg adapter (retry_schedule cfg start n) st = (st', n).
Proof.
  intros Hretry n.
  induction n as [|n IH]; intros st start action next Ht Hn Hr He;
    cbn [retry_schedule run_cycles].
  - exists st. reflexivity.
  - rewrite (cycle_dispatched cfg adapter start st action next Ht Hr He).
    destruct (Hretry (set_lockedAt (Some start) (rec st)) action) as [reason ->].
    unfold classify.
    destruct (Nat.leb_spec (maxAttempts cfg) (S (attempts st))) as [Hmax|Hmore].
    + assert (n = 0%nat) by lia. subst n.
      rewrite dispatched_fatal.
      cbn [retry_schedule run_cycles]. eexists. reflexivity.
    + rewrite dispatched_retryable.
      match goal with
      | |- context [run_cycles cfg adapter ?ts ?s1] =>
          destruct (IH s1 (start + Z.max 0 (backoffCap cfg)) action next)
            as (st' & Hk)
      end.
      * cbn [rec desiredState actualPhase]. exact Ht.
      * cbn [attempts]. lia.
      * cbn [retryAt]. pose proof (backoff_le_cap cfg (attempts st)). lia.
      * reflexivity.
      * rewrite Hk. exists st'. reflexivity.
Qed.

End RetryFacts.




(** C4, as stated, fails: the phase enumerations of [Application] and of the
    storage kinds have no Failed phase, so the phase the Fatal row writes is
    none of the kind's own. *)
Lemma application_has_no_failed_phase :
  In Application resource_kinds
  /\ phase_values Application
     = ["Creating"; "Created"; "Starting"; "Started"; "Stopping"; "Stopped";
        "Deleting"; "Deleted"]
  /\ failed_phase Application = None
  /\ In StorageUser resource_kinds
  /\ phase_values StorageUser = ["Creating"; "Created"; "Deleting"; "Deleted"]
  /\ failed_phase StorageUser = None
  /\ (forall token now st next reason,
        mem (Lock.actualPhase
               (Engine.rec
                  (Engine.applyOutcome Engine.applicationKind token now st next
                     (Engine.Fatal reason))))
          (phase_values Application) = false)
  /\ ~ (forall k, In k resource_kinds -> exists f, failed_phase k = Some f).
Proof.
  assert (Ha : In Application resource_kinds) by (vm_compute; tauto).
  assert (Hs : In StorageUser resource_kinds) by (vm_compute; tauto).
  repeat split; try assumption; try reflexivity.
  - intros token now st next reason. unfold Engine.applyOutcome.
    cbn [Engine.rec].
    destruct (EngineFacts.release_record_frame token
                (Engine.write_status Engine.applicationKind now Engine.failedPhase
                   (Some reason) (Engine.rec st)))
      as (_ & _ & _ & F4 & _).
    rewrite F4. reflexivity.
  - intros H. destruct (H Application Ha) as [f Hf]. discriminate Hf.
Qed.

(** C4, amended: for a kind whose phase enumeration has a Failed phase (such
    a kind has a message column and no desired state), a Fatal outcome sets
    the message, moves the record to Failed and gives the lease back, after
    which no pass touches it again; and with an adapter that always answers
    Retryable the record is in its old phase below the configured maximum of
    attempts, in Failed at the maximum, never attempted more often, and
    reaches the maximum on the retry schedule. *)
Theorem fatal_and_exhausted_retries_end_in_failed
  (cfg : Engine.KindConfig) (f : string) :
  In (Engine.kind cfg) resource_kinds ->
  failed_phase (Engine.kind cfg) = Some f ->
  (f = "Failed" /\ carries_message (Engine.kind cfg) = true
   /\ has_field (Engine.kind cfg) "state" = false)
  /\ (forall adapter now st action next reason,
        Engine.transition cfg (Lock.desiredState (Engine.rec st))
          (Lock.actualPhase (Engine.rec st)) = Some (action, next) ->
        (Engine.retryAt st <= now)%Z ->
        Lock.isExpired (Engine.leaseDuration cfg) (Engine.rec st) now = true ->
        adapter (Lock.set_lockedAt (Some now) (Engine.rec st)) action
          = Engine.Fatal reason ->
        exists st',
          Engine.cycle cfg adapter now st = (st', true)
          /\ Lock.actualPhase (Engine.rec st') = f
          /\ Lock.message (Engine.rec st') = Some reason
          /\ Lock.lockedAt (Engine.rec st') = None
          /\ forall adapter' times,
               Engine.run_cycles cfg adapter' times st' = (st', 0%nat))
  /\ (forall adapter st,
        (0 < Engine.maxAttempts cfg)%nat ->
        Engine.always_retryable adapter ->
        Engine.attempts st = 0%nat ->
        Lock.actualPhase (Engine.rec st) <> f ->
        (forall times,
           exists st' k,
             Engine.run_cycles cfg adapter times st = (st', k)
             /\ (k <= Engine.maxAttempts cfg)%nat
             /\ ((k < Engine.maxAttempts cfg)%nat ->
                 Lock.actualPhase (Engine.rec st') = Lock.actualPhase (Engine.rec st))
             /\ (k = Engine.maxAttempts cfg ->
                 Lock.actualPhase (Engine.rec st') = f))
        /\ (forall action next start,
              Engine.transition cfg (Lock.desiredState (Engine.rec st))
                (Lock.actualPhase (Engine.rec st)) = Some (action, next) ->
              (Engine.retryAt st <= start)%Z ->
              Lock.isExpired (Engine.leaseDuration cfg) (Engine.rec st) start = true ->
              exists st',
                Engine.run_cycles cfg adapter
                  (Engine.retry_schedule cfg start (Engine.maxAttempts cfg)) st
                  = (st', Engine.maxAttempts cfg)
                /\ Lock.actualPhase (Engine.rec st') = f)).
Proof.
  intros Hk Hf.
  pose proof (EngineFacts.kinds_that_fail _ _ Hk Hf) as Hkind.
  pose proof (EngineFacts.failed_phase_name _ _ Hf) as ->.
  destruct Hkind as (Hname & Hmsg & Hstate).
  split; [repeat split; assumption|]. split.
  - intros adapter now st action next reason Ht Hr He Hfatal.
    rewrite (EngineFacts.cycle_dispatched cfg adapter now st action next Ht Hr He).
    rewrite Hfatal. cbn [Engine.classify].
    rewrite RetryFacts.dispatched_fatal. rewrite Hmsg.
    eexists. split; [reflexivity|]. cbn [Engine.rec Lock.actualPhase Lock.message
                                          Lock.lockedAt].
    split; [reflexivity|]. split; [reflexivity|]. split; [reflexivity|].
    intros adapter' times. apply EngineFacts.failed_is_terminal. reflexivity.
  - intros adapter st Hmax Hretry Hzero Hne. split.
    + intros times.
      destruct (RetryFacts.retries_count cfg adapter Hretry times st)
        as (st' & k & Hrun & H1 & H2 & H3); [lia|exact Hne|].
      rewrite Hzero in *. exists st', k.
      split; [exact Hrun|]. split; [exact H1|]. split.
      * intros Hlt. exact (proj1 (H2 Hlt)).
      * intros Heq. apply H3. exact Heq.
    + intros action next start Ht Hr He.
      destruct (RetryFacts.retries_all_dispatched cfg adapter Hretry
                  (Engine.maxAttempts cfg) st start action next Ht)
        as (st' & Hrun); [lia|exact Hr|exact He|].
      exists st'. split; [exact Hrun|].
      destruct (RetryFacts.retries_count cfg adapter Hretry
                  (Engine.retry_schedule cfg start (Engine.maxAttempts cfg)) st)
        as (st'' & k & Hrun' & _ & _ & H3); [lia|exact Hne|].
      rewrite Hrun in Hrun'. injection Hrun' as <- <-.
      apply H3. rewrite Hzero. reflexivity.
Qed.

(** The first scenario of section 8: after one cycle with a succeeding
    adapter the phase is Created, the lock is cleared and the message is
    empty. *)
Lemma scenario_success :
  Engine.cycle Engine.storageUserKind Engine.working 40
    Engine.creating_storage_user
  = (Engine.mkResource
       (Lock.mkRecord "u1" "app-1" (Some "Active") "Created" None None 0 40)
       0 0%Z, true).
Proof. vm_compute. reflexivity. Qed.

(** The second scenario of section 8: a record locked by another worker just
    now; a second worker is denied and the store is unchanged. *)
Lemma scenario_denied :
  let locked :=
    Lock.put Lock.example_store "r1"
      (Lock.mkRecord "r1" "app-1" (Some "Deleted") "Created" (Some 40%Z) None 0 0) in
  Lock.tryAcquire locked 40 "r1" 15000 = (Lock.Denied, locked).
Proof. reflexivity. Qed.

Lemma a_pending_renewal_run :
  Engine.run_cycles Engine.renewalKind Engine.flaky [0; 500; 1000; 3000; 7000; 9000]%Z
    Engine.pending_renewal
  = (Engine.mkResource
       (Lock.mkRecord "n1" "sub-1" None "Failed" None (Some "gateway timeout")
          0 3000)
       2 3000%Z, 3%nat)
  /\ Engine.run_cycles Engine.renewalKind Engine.rejecting [0; 500]%Z
       Engine.pending_renewal
     = (Engine.mkResource
          (Lock.mkRecord "n1" "sub-1" None "Failed" None (Some "card declined")
             0 0)
          0 0%Z, 1%nat).
Proof. split; vm_compute; reflexivity. Qed.

Lemma a_pending_renewal_fails_after_three_attempts :
  exists st',
    Engine.run_cycles Engine.renewalKind Engine.flaky
      (Engine.retry_schedule Engine.renewalKind 0 3) Engine.pending_renewal
    = (st', 3%nat)
    /\ Lock.actualPhase (Engine.rec st') = "Failed".
Proof.
  destruct (fatal_and_exhausted_retries_end_in_failed Engine.renewalKind "Failed")
    as (_ & _ & Hretry).
  - vm_compute. tauto.
  - reflexivity.
  - destruct (Hretry Engine.flaky Engine.pending_renewal) as [_ Hreach].
    + simpl. lia.
    + intros r a. eexists. reflexivity.
    + reflexivity.
    + simpl. discriminate.
    + apply (Hreach (Engine.KindAction "pay") "Paid" 0%Z).
      * reflexivity.
      * simpl. lia.
      * reflexivity.
Defined.

(** ** Deletion and the Fatal row *)

Module DeletionFacts.

Import Lock LockFacts Engine EngineFacts RetryFacts.
Local Open Scope Z_scope.






End DeletionFacts.




(** ** The process-level handlers *)

Module ServerFacts.

Import SystemServer.

Section Server.

Variable env : Env.

Lemma main_is_up : up env (main env Bound).
Proof. repeat split. Qed.

(** With the handlers installed an unhandled rejection is one log line,
    whatever the runtime's default. *)
Lemma unhandled_logs (mode : RejectionDefault) (reason promise : string)
  (p : Process) :
  handlers_installed p ->
  unhandled mode reason promise p
  = logger LError ["Caught unhandledRejection:"; reason; promise] p.
Proof.
  intros H. unfold unhandled, listeners_of. rewrite H. reflexivity.
Qed.

(** With the handlers installed an uncaught exception is one log line. *)
Lemma uncaught_logs (err : string) (p : Process) :
  handlers_installed p ->
  uncaught err p = logger LError ["Caught uncaughtException:"; err] p.
Proof.
  intros H. unfold uncaught, listeners_of. rewrite H. reflexivity.
Qed.

Lemma logger_keeps_up (lv : Level) (a : list string) (p : Process) :
  up env p -> up env (logger lv a p).
Proof. intros (H1 & H2 & H3). repeat split; assumption. Qed.

Lemma respond_keeps_up (r : Response) (p : Process) :
  up env p -> up env (respond r p).
Proof. intros (H1 & H2 & H3). repeat split; assumption. Qed.

Lemma handle_keeps_up (req : Request) (p : Process) :
  up env p -> up env (handle env req p).
Proof.
  intros Hup. unfold handle.
  destruct (express_json env req) as [[code page]|];
    [apply respond_keeps_up; exact Hup|].
  set (p1 := logger LTrace _ (logger LInfo _ p)).
  assert (Hp1 : up env p1) by (apply logger_keeps_up, logger_keeps_up, Hup).
  set (p2 := mkProcess _ _ _ _ _ _).
  assert (Hp2 : up env p2)
    by (destruct Hp1 as (H1 & H2 & H3); repeat split; assumption).
  destruct (router env req _).
  - apply respond_keeps_up. exact Hp2.
  - rewrite unhandled_logs; [|apply Hp2]. apply logger_keeps_up. exact Hp2.
Qed.

Lemma receive_keeps_up (e : Incoming) (p : Process) :
  up env p -> up env (receive env e p).
Proof.
  intros Hup. pose proof Hup as (H1 & H2 & H3).
  unfold receive. rewrite H1. destruct e as [req|reason promise|err].
  - rewrite H2. apply handle_keeps_up. exact Hup.
  - rewrite unhandled_logs; [|exact H3]. apply logger_keeps_up. exact Hup.
  - rewrite uncaught_logs; [|exact H3]. apply logger_keeps_up. exact Hup.
Qed.

Lemma serve_keeps_up (evs : list Incoming) :
  forall p, up env p -> up env (serve env p evs).
Proof.
  induction evs as [|e evs IH]; intros p Hup; simpl; [exact Hup|].
  apply IH. apply receive_keeps_up. exact Hup.
Qed.

(** What a request does to the answers sent so far. *)
Lemma handle_responses (req : Request) (p : Process) :
  handlers_installed p ->
  responses (handle env req p)
  = (responses p
       ++ match answer env req with
          | Some r => [r]
          | None => []
          end)%list.
Proof.
  intros H. unfold handle, answer.
  destruct (express_json env req) as [[code page]|]; [reflexivity|].
  destruct (router env req _) eqn:Hr; simpl; try reflexivity.
  rewrite unhandled_logs; [|exact H]. simpl. symmetry. apply app_nil_r.
Qed.

(** A process that has ended stays as it is. *)
Lemma exited_stays (evs : list Incoming) :
  forall p code, exitCode p = Some code -> serve env p evs = p.
Proof.
  induction evs as [|e evs IH]; intros p code H; simpl; [reflexivity|].
  unfold receive at 1. rewrite H. exact (IH p code H).
Qed.

(** The process a failed bind leaves behind. *)
Lemma main_bind_failed (err : string) :
  main env (BindFailed err)
  = mkProcess (Some 0) None
      [(UnhandledRejection, LogRejection); (UncaughtException, LogException)]
      [mkLog LError ["Caught uncaughtException:"; err]] [] 0.
Proof. reflexivity. Qed.

End Server.

End ServerFacts.

(** C9, as stated, fails for one exception: when the port is taken, the
    error of [server.listen] is raised as an uncaught exception while the
    process runs, the installed handler only logs it, and yet the process
    ends and serves no request, where the same process with the port bound
    answers. *)
Lemma a_taken_port_ends_the_process :
  let p := SystemServer.main SystemServer.example_env
             (SystemServer.BindFailed SystemServer.port_taken) in
  SystemServer.log p
  = [SystemServer.mkLog SystemServer.LError
       ["Caught uncaughtException:"; SystemServer.port_taken]]
  /\ SystemServer.exitCode p = Some 0
  /\ SystemServer.listening p = None
  /\ SystemServer.responses
       (SystemServer.serve SystemServer.example_env p [SystemServer.get "/health"])
     = []
  /\ SystemServer.responses
       (SystemServer.serve SystemServer.example_env
          (SystemServer.main SystemServer.example_env SystemServer.Bound)
          [SystemServer.get "/health"])
     = [SystemServer.mkResponse 200 [("X-Powered-By", "LaF Server")] "ok"].
Proof. vm_compute. repeat split. Qed.

(** C9, amended: once the port is bound, whatever has reached the process
    since, it has not ended and still listens; an unhandled rejection or an
    uncaught exception then adds one error line to the log and changes
    nothing else of the process; and a request then gets its answer. When
    the port can not be bound the exception is logged in the same way, and
    the process ends without having answered anything. *)
Theorem a_listening_process_survives_errors
  (env : SystemServer.Env) (evs : list SystemServer.Incoming) :
  let p := SystemServer.serve env (SystemServer.main env SystemServer.Bound) evs in
  SystemServer.exitCode p = None
  /\ SystemServer.listening p = Some (SystemServer.PORT env)
  /\ (forall reason promise,
        SystemServer.receive env (SystemServer.PromiseRejected reason promise) p
        = SystemServer.mkProcess None (Some (SystemServer.PORT env))
            (SystemServer.listeners p)
            (SystemServer.log p
               ++ [SystemServer.mkLog SystemServer.LError
                     ["Caught unhandledRejection:"; reason; promise]])%list
            (SystemServer.responses p) (SystemServer.served p))
  /\ (forall err,
        SystemServer.receive env (SystemServer.Thrown err) p
        = SystemServer.mkProcess None (Some (SystemServer.PORT env))
            (SystemServer.listeners p)
            (SystemServer.log p
               ++ [SystemServer.mkLog SystemServer.LError
                     ["Caught uncaughtException:"; err]])%list
            (SystemServer.responses p) (SystemServer.served p))
  /\ (forall req,
        SystemServer.responses (SystemServer.receive env (SystemServer.Http req) p)
        = (SystemServer.responses p
             ++ match SystemServer.answer env req with
                | Some r => [r]
                | None => []
                end)%list)
  /\ (forall err,
        SystemServer.serve env
          (SystemServer.main env (SystemServer.BindFailed err)) evs
        = SystemServer.mkProcess (Some 0) None
            [(SystemServer.UnhandledRejection, SystemServer.LogRejection);
             (SystemServer.UncaughtException, SystemServer.LogException)]
            [SystemServer.mkLog SystemServer.LError
               ["Caught uncaughtException:"; err]]
            [] 0).
Proof.
  intros p.
  pose proof (ServerFacts.serve_keeps_up env evs (SystemServer.main env SystemServer.Bound)
                (ServerFacts.main_is_up env))
    as (H1 & H2 & H3).
  fold p in H1, H2, H3.
  split; [exact H1|]. split; [exact H2|]. split; [|split; [|split]].
  - intros reason promise. unfold SystemServer.receive. rewrite H1.
    rewrite ServerFacts.unhandled_logs by exact H3.
    unfold SystemServer.logger, SystemServer.with_log. rewrite H1, H2. reflexivity.
  - intros err. unfold SystemServer.receive. rewrite H1.
    rewrite ServerFacts.uncaught_logs by exact H3.
    unfold SystemServer.logger, SystemServer.with_log. rewrite H1, H2. reflexivity.
  - intros req. unfold SystemServer.receive. rewrite H1, H2.
    apply ServerFacts.handle_responses. exact H3.
  - intros err. rewrite <- ServerFacts.main_bind_failed with (env := env).
    apply ServerFacts.exited_stays with (code := 0%nat). reflexivity.
Qed.

Lemma example_serving :
  let p :=
    SystemServer.serve SystemServer.example_env
      (SystemServer.main SystemServer.example_env SystemServer.Bound)
      [SystemServer.get "/health"; SystemServer.Thrown "oops";
       SystemServer.get "/later"; SystemServer.get "/nowhere";
       SystemServer.PromiseRejected "late" "Promise"; SystemServer.get "/health"] in
  SystemServer.exitCode p = None
  /\ SystemServer.responses p
     = [SystemServer.mkResponse 200 [("X-Powered-By", "LaF Server")] "ok";
        SystemServer.mkResponse 404 [("X-Powered-By", "LaF Server")] "not found";
        SystemServer.mkResponse 200 [("X-Powered-By", "LaF Server")] "ok"]
  /\ ServerLog.at_level SystemServer.LError (SystemServer.log p)
     = [SystemServer.mkLog SystemServer.LError ["Caught uncaughtException:"; "oops"];
        SystemServer.mkLog SystemServer.LError
          ["Caught unhandledRejection:"; "timeout"; "Promise"];
        SystemServer.mkLog SystemServer.LError
          ["Caught unhandledRejection:"; "late"; "Promise"]]
  /\ ServerLog.at_level SystemServer.LInfo (SystemServer.log p)
     = [SystemServer.mkLog SystemServer.LInfo ["listened on 3000"];
        SystemServer.mkLog SystemServer.LInfo
          ["0"; "GET " ++ SystemServer.dquote ++ "/health" ++ SystemServer.dquote
                  ++ " - referer: - curl"];
        SystemServer.mkLog SystemServer.LInfo
          ["1"; "GET " ++ SystemServer.dquote ++ "/later" ++ SystemServer.dquote
                  ++ " - referer: - curl"];
        SystemServer.mkLog SystemServer.LInfo
          ["2"; "GET " ++ SystemServer.dquote ++ "/nowhere" ++ SystemServer.dquote
                  ++ " - referer: - curl"];
        SystemServer.mkLog SystemServer.LInfo
          ["3"; "GET " ++ SystemServer.dquote ++ "/health" ++ SystemServer.dquote
                  ++ " - referer: - curl"]].
Proof. vm_compute. repeat split. Qed.

(** ** The save handler of the data panel *)

(** C10: when the edited text does not parse, or parses to a value without
    keys (the empty object among them), the handler shows one error, does not
    call the update mutation and leaves the documents as they are. *)
Theorem handleData_rejects_unparsable_and_empty
  (Server : Type) (JSON_parse : string -> DataPanel.JsError + DataPanel.json)
  (mutateAsync : DataPanel.json -> Server -> Server * option DataPanel.JsError)
  (t : string -> string) (p : DataPanel.Panel Server) :
  (exists e, JSON_parse (DataPanel.record Server p) = inl e)
  \/ (exists v, JSON_parse (DataPanel.record Server p) = inr v
                /\ DataPanel.Object_keys v = inr []) ->
  exists msg,
    DataPanel.handleData Server JSON_parse mutateAsync t p
    = DataPanel.mkPanel Server (DataPanel.record Server p)
        (DataPanel.shownErrors Server p ++ [msg])%list
        (DataPanel.mutations Server p) (DataPanel.server Server p)
    /\ ((exists e, JSON_parse (DataPanel.record Server p) = inl e
                   /\ msg = DataPanel.toString e)
        \/ msg = t "DataEntry.CreateError").
Proof.
  intros [[e He]|(v & Hv & Hk)]; unfold DataPanel.handleData.
  - rewrite He. exists (DataPanel.toString e). split; [reflexivity|].
    left. exists e. split; reflexivity.
  - rewrite Hv, Hk. exists (t "DataEntry.CreateError"). split; [reflexivity|].
    right. reflexivity.
Qed.

Lemma handleData_on_an_empty_object :
  exists msg,
    DataPanel.handleData (list DataPanel.json) DataPanel.json_parse
      DataPanel.store_document DataPanel.identity_t
      (DataPanel.onChange _ " { } " (DataPanel.initial _ []))
    = DataPanel.mkPanel _ " { } " [msg] [] []
    /\ ((exists e, DataPanel.json_parse " { } " = inl e
                   /\ msg = DataPanel.toString e)
        \/ msg = "DataEntry.CreateError").
Proof.
  apply (handleData_rejects_unparsable_and_empty (list DataPanel.json)
           DataPanel.json_parse DataPanel.store_document DataPanel.identity_t
           (DataPanel.onChange _ " { } " (DataPanel.initial _ []))).
  right. exists (DataPanel.JObject []). split; reflexivity.
Defined.

Lemma handleData_examples :
  let save text :=
    DataPanel.handleData (list DataPanel.json) DataPanel.json_parse
      DataPanel.store_document DataPanel.identity_t
      (DataPanel.onChange _ text (DataPanel.initial _ [])) in
  let member :=
    ("{" ++ DataPanel.q ++ "name" ++ DataPanel.q ++ ": 1}")%string in
  save "{}" = DataPanel.mkPanel _ "{}" ["DataEntry.CreateError"] [] []
  /\ save "{" = DataPanel.mkPanel _ "{"
                  ["SyntaxError: Unexpected token in JSON"] [] []
  /\ save "[]" = DataPanel.mkPanel _ "[]" ["DataEntry.CreateError"] [] []
  /\ save "null" = DataPanel.mkPanel _ "null"
                     ["TypeError: Cannot convert undefined or null to object"] [] []
  /\ save member
     = DataPanel.mkPanel _ member []
         [DataPanel.JObject [("name", DataPanel.JNumber "1")]]
         [DataPanel.JObject [("name", DataPanel.JNumber "1")]].
Proof. repeat split. Qed.


(** * Further properties of the sources *)

(** ** The schema: names, keys, relations, defaults *)

Module SchemaFacts.

Import Relations.

Lemma mem_In (x : string) (l : list string) : mem x l = true <-> In x l.
Proof.
  unfold mem. rewrite existsb_exists. split.
  - intros (y & Hy & E). apply String.eqb_eq in E. subst. exact Hy.
  - intros H. exists x. split; [exact H|apply String.eqb_refl].
Qed.

Lemma distinct_NoDup (l : list string) : distinct l = true -> NoDup l.
Proof.
  induction l as [|x l IH]; simpl; intros H; [constructor|].
  apply andb_prop in H. destruct H as [Hx Hl]. constructor.
  - intros Hin. apply mem_In in Hin. rewrite Hin in Hx. discriminate Hx.
  - exact (IH Hl).
Qed.

(** With distinct names a field is found under its own name. *)
Lemma find_by_name (l : list Field) (f : Field) :
  NoDup (map fname l) -> In f l ->
  find (fun g => String.eqb (fname g) (fname f)) l = Some f.
Proof.
  induction l as [|g l IH]; simpl; intros Hnd Hin; [contradiction|].
  inversion Hnd as [|? ? Hnot Hrest]; subst.
  destruct Hin as [->|Hin].
  - rewrite String.eqb_refl. reflexivity.
  - destruct (String.eqb_spec (fname g) (fname f)) as [E|_].
    + exfalso. apply Hnot. rewrite E. apply in_map. exact Hin.
    + exact (IH Hrest Hin).
Qed.

Lemma all2_length {A B : Type} (p : A -> B -> bool) (la : list A) (lb : list B) :
  all2 p la lb = true -> List.length la = List.length lb.
Proof.
  revert lb. induction la as [|a la IH]; intros [|b lb]; simpl;
    try discriminate; [reflexivity|].
  intros H. apply andb_prop in H. destruct H as [_ H]. f_equal. exact (IH lb H).
Qed.

Lemma all2_combine {A B : Type} (p : A -> B -> bool) (la : list A) (lb : list B) :
  all2 p la lb = true -> forall a b, In (a, b) (combine la lb) -> p a b = true.
Proof.
  revert lb. induction la as [|x la IH]; intros lb H a b Hin.
  - destruct Hin.
  - destruct lb as [|y lb]; [destruct Hin|].
    simpl in H. apply andb_prop in H. destruct H as [Hp H].
    destruct Hin as [E|Hin].
    + injection E as <- <-. exact Hp.
    + exact (IH lb H a b Hin).
Qed.

Lemma same_column_spec (src tgt : Model) (f g : string) :
  same_column src tgt f g = true ->
  exists a b,
    field_of src f = Some a /\ field_of tgt g = Some b
    /\ ftype a = ftype b
    /\ farity a = Required /\ farity b = Required
    /\ field_has a ADbObjectId = field_has b ADbObjectId.
Proof.
  unfold same_column.
  destruct (field_of src f) as [a|]; [|discriminate].
  destruct (field_of tgt g) as [b|]; [|discriminate].
  rewrite !andb_true_iff. intros [[[[Ht _] Ha] Hb] Ho].
  exists a, b. apply String.eqb_eq in Ht. apply eqb_prop in Ho.
  unfold required in Ha, Hb.
  destruct (farity a); try discriminate. destruct (farity b); try discriminate.
  repeat split; assumption.
Qed.

(** The relation table is the [@relation] attributes of the models. *)
Lemma relations_are_the_declared_ones :
  map (fun r => (rmodel r, rfield r, rtarget r)) relations = declared_relations.
Proof. vm_compute. reflexivity. Qed.

(** Every field whose type is a model is one side of a relation. *)
Lemma every_side_is_accounted (m : Model) :
  In m models -> sides_accounted m = true.
Proof. revert m. apply checked_on_all. vm_compute. reflexivity. Qed.

(** No model or composite type declares a name twice, and every field type
    is known. *)
Lemma names_and_types (m : Model) :
  In m (models ++ types) -> names_and_types_ok m = true.
Proof. revert m. apply checked_on_all. vm_compute. reflexivity. Qed.

(** So a field is found under its own name. *)
Lemma lookup_own_name (m : Model) (f : Field) :
  In m (models ++ types) -> In f (mfields m) -> field_of m (fname f) = Some f.
Proof.
  intros Hm Hf. pose proof (names_and_types m Hm) as H.
  unfold names_and_types_ok in H. apply andb_prop in H. destruct H as [Hd _].
  unfold field_of. apply find_by_name; [|exact Hf].
  apply distinct_NoDup. exact Hd.
Qed.

End SchemaFacts.

(** X1: every [@relation] of the schema points from required foreign-key
    fields to fields of the same type that form a key of the target model
    ([@id], [@unique] or [@@unique]). *)
Theorem relations_reference_keys (r : Relations.Relation) :
  In r Relations.relations -> Relations.references_a_key r.
Proof.
  intros Hr.
  assert (H : Relations.relation_ok r = true).
  { revert r Hr. apply checked_on_all. vm_compute. reflexivity. }
  unfold Relations.relation_ok in H.
  destruct (Relations.model_named (Relations.rmodel r)) as [src|] eqn:Hs;
    [|discriminate].
  destruct (Relations.model_named (Relations.rtarget r)) as [tgt|] eqn:Ht;
    [|discriminate].
  rewrite !andb_true_iff in H. destruct H as [[[Hf _] Hall] Hkey].
  exists src, tgt. split; [exact Hs|]. split; [exact Ht|].
  split.
  - destruct (field_of src (Relations.rfield r)) as [f|]; [|discriminate].
    apply andb_prop in Hf. destruct Hf as [Hf _]. apply String.eqb_eq in Hf.
    exists f. split; [reflexivity|exact Hf].
  - split; [exact (SchemaFacts.all2_length _ _ _ Hall)|].
    split; [|exact Hkey].
    intros f g Hin. apply SchemaFacts.same_column_spec.
    exact (SchemaFacts.all2_combine _ _ _ Hall f g Hin).
Qed.

Lemma the_policy_rule_references_a_key :
  Relations.references_a_key
    (Relations.mkRelation "DatabasePolicyRule" "policy" "DatabasePolicy"
       ["appid"; "policyName"] ["appid"; "name"] (Some "Cascade")).
Proof.
  apply relations_reference_keys. vm_compute. tauto.
Defined.

(** X2: the other side of every relation is a field of the target model
    without [@relation]; it holds a single optional record exactly when the
    foreign key is unique in its own model, and a list otherwise. *)
Theorem relations_are_one_or_many (r : Relations.Relation) :
  In r Relations.relations -> Relations.other_side r.
Proof.
  intros Hr.
  assert (H : Relations.back_relation_ok r = true).
  { revert r Hr. apply checked_on_all. vm_compute. reflexivity. }
  unfold Relations.back_relation_ok, Relations.back_field in H.
  unfold Relations.other_side.
  destruct (Relations.model_named (Relations.rtarget r)) as [tgt|]; [|discriminate].
  destruct (find (fun f => String.eqb (ftype f) (Relations.rmodel r)) (mfields tgt))
    as [b|] eqn:Hb; [|discriminate].
  apply find_some in Hb. destruct Hb as [Hin Hty]. apply String.eqb_eq in Hty.
  apply andb_prop in H. destruct H as [Hrel Hcard].
  apply negb_true_iff in Hrel.
  exists tgt, b. split; [reflexivity|]. split; [exact Hin|].
  split; [exact Hty|]. split; [exact Hrel|].
  destruct (farity b).
  - discriminate Hcard.
  - left. split; [reflexivity|exact Hcard].
  - right. split; [reflexivity|]. apply negb_true_iff. exact Hcard.
Qed.

Lemma an_application_has_one_storage_user :
  Relations.other_side
    (Relations.mkRelation "StorageUser" "application" "Application"
       ["appid"] ["appid"] None).
Proof.
  apply relations_are_one_or_many. vm_compute. tauto.
Defined.

(** The cardinalities, relation by relation. *)
Lemma cardinalities :
  map (fun r => (Relations.rmodel r, Relations.fk_unique r)) Relations.relations
  = [("UserProfile", true); ("PersonalAccessToken", false); ("Bundle", false);
     ("ApplicationBundle", true); ("Application", false); ("Application", false);
     ("Application", true); ("ApplicationConfiguration", true);
     ("StorageUser", true); ("Database", true); ("DatabasePolicyRule", false);
     ("CronTrigger", false); ("RuntimeDomain", true); ("BucketDomain", true);
     ("WebsiteHosting", true)].
Proof. vm_compute. reflexivity. Qed.

(** X3: in every model and composite type a field is found under its own
    name (no name is declared twice) and its type is a scalar, an enum, a
    composite type or a model of the schema. *)
Theorem fields_are_found_and_typed (m : Model) (f : Field) :
  In m (models ++ types) -> In f (mfields m) ->
  field_of m (fname f) = Some f /\ Relations.type_known (ftype f) = true.
Proof.
  intros Hm Hf. split.
  - exact (SchemaFacts.lookup_own_name m f Hm Hf).
  - pose proof (SchemaFacts.names_and_types m Hm) as H.
    unfold Relations.names_and_types_ok in H. apply andb_prop in H.
    destruct H as [_ Ht]. rewrite forallb_forall in Ht. exact (Ht f Hf).
Qed.

Lemma the_lock_of_an_application_is_found :
  field_of Application "lockedAt"
  = Some (mkField "lockedAt" "DateTime" Required None [])
  /\ Relations.type_known "DateTime" = true.
Proof.
  apply (fields_are_found_and_typed Application
           (mkField "lockedAt" "DateTime" Required None [])).
  - vm_compute. tauto.
  - vm_compute. tauto.
Defined.

(** X4: every model starts with the same primary key, [id], a [String]
    filled in automatically, stored as [_id] with the ObjectId type, and no
    other field carries [@id]. *)
Theorem every_model_has_an_object_id (m : Model) :
  In m models ->
  hd_error (mfields m) = Some Relations.object_id
  /\ (forall f, In f (mfields m) -> Relations.field_has f AId = true ->
                f = Relations.object_id).
Proof.
  intros Hm.
  assert (Hhd : hd_error (mfields m) = Some Relations.object_id).
  { unfold models in Hm. simpl in Hm.
    repeat (destruct Hm as [<-|Hm]; [reflexivity|]). contradiction. }
  split; [exact Hhd|].
  intros f Hf Hid.
  assert (Hin : In Relations.object_id (mfields m)).
  { destruct (mfields m) as [|x l]; [discriminate Hhd|].
    injection Hhd as ->. left. reflexivity. }
  assert (Hm' : In m (models ++ types)) by (apply in_or_app; left; exact Hm).
  assert (Hname : fname f = "id").
  { assert (H : Relations.id_only_on_id m = true).
    { revert m Hm Hhd Hf Hin Hm'. intros m Hm _ _ _ _. revert m Hm.
      apply checked_on_all. vm_compute. reflexivity. }
    unfold Relations.id_only_on_id in H. rewrite forallb_forall in H.
    specialize (H f Hf). rewrite Hid in H. apply String.eqb_eq. exact H. }
  pose proof (SchemaFacts.lookup_own_name m f Hm' Hf) as H1.
  pose proof (SchemaFacts.lookup_own_name m Relations.object_id Hm' Hin) as H2.
  rewrite Hname in H1. simpl in H2. rewrite H2 in H1. injection H1 as <-.
  reflexivity.
Qed.

Lemma the_key_of_a_setting :
  hd_error (mfields Setting) = Some Relations.object_id
  /\ (forall f, In f (mfields Setting) -> Relations.field_has f AId = true ->
                f = Relations.object_id).
Proof.
  apply (every_model_has_an_object_id Setting). vm_compute. tauto.
Defined.

Module DefaultFacts.

Import Relations.

(** Every default of every model and composite type fits its field. *)
Lemma defaults_fit (m : Model) :
  In m (models ++ types) -> defaults_ok m = true.
Proof. revert m. apply checked_on_all. vm_compute. reflexivity. Qed.

Lemma creation_checked (m : Model) : In m resource_kinds -> creation_ok m = true.
Proof. revert m. apply checked_on_all. vm_compute. reflexivity. Qed.

Lemma deletion_checked (m : Model) : In m resource_kinds -> deletion_ok m = true.
Proof. revert m. apply checked_on_all. vm_compute. reflexivity. Qed.

End DefaultFacts.

(** X5: every [@default] fits the field it stands on: [auto()] on the
    primary key, [now()] on a [DateTime], a literal on a field of its type,
    [[]] on a list, and an enum value that is a member of the field's
    enumeration. *)
Theorem defaults_fit_their_fields (m : Model) (f : Field) :
  In m (models ++ types) -> In f (mfields m) ->
  Relations.default_fits f = true
  /\ (forall v, fdefault f = Some (DEnum v) -> In v (enum_values (ftype f))).
Proof.
  intros Hm Hf. pose proof (DefaultFacts.defaults_fit m Hm) as H.
  unfold Relations.defaults_ok in H. rewrite forallb_forall in H.
  specialize (H f Hf). split; [exact H|].
  intros v Hv. unfold Relations.default_fits in H. rewrite Hv in H.
  apply andb_prop in H. destruct H as [H _].
  apply SchemaFacts.mem_In. exact H.
Qed.

Lemma the_default_phase_of_a_renewal_is_a_phase :
  Relations.default_fits
    (mkField "phase" "SubscriptionRenewalPhase" Required (Some (DEnum "Pending")) [])
  = true
  /\ (forall v,
        Some (DEnum "Pending") = Some (DEnum v) ->
        In v (enum_values "SubscriptionRenewalPhase")).
Proof.
  apply (defaults_fit_their_fields SubscriptionRenewal
           (mkField "phase" "SubscriptionRenewalPhase" Required
              (Some (DEnum "Pending")) [])).
  - vm_compute. tauto.
  - vm_compute. tauto.
Defined.

(** X6: a new record of any resource kind cannot be created without its
    lock timestamp: [lockedAt] has no default and must be supplied, while
    [id], [state], [phase], [createdAt] and [updatedAt], where the kind has
    them, are filled in and need not be supplied. *)
Theorem lockedAt_must_be_supplied (m : Model) :
  In m resource_kinds ->
  In "lockedAt" (Relations.must_supply m)
  /\ ~ In "lockedAt" (Relations.filled_in m)
  /\ (forall n,
        In n ["id"; "state"; "phase"; "createdAt"; "updatedAt"] ->
        has_field m n = true ->
        In n (Relations.filled_in m) /\ ~ In n (Relations.must_supply m)).
Proof.
  intros Hm. pose proof (DefaultFacts.creation_checked m Hm) as H.
  unfold Relations.creation_ok in H. rewrite !andb_true_iff in H.
  destruct H as [[H1 H2] H3].
  split; [apply SchemaFacts.mem_In; exact H1|].
  split.
  - intros Hin. apply SchemaFacts.mem_In in Hin. rewrite Hin in H2. discriminate H2.
  - intros n Hn Hhas. rewrite forallb_forall in H3. specialize (H3 n Hn).
    rewrite Hhas in H3. simpl in H3. apply andb_prop in H3. destruct H3 as [Ha Hb].
    split; [apply SchemaFacts.mem_In; exact Ha|].
    intros Hin. apply SchemaFacts.mem_In in Hin. rewrite Hin in Hb. discriminate Hb.
Qed.

Lemma creating_a_storage_user :
  Relations.must_supply StorageUser = ["appid"; "accessKey"; "secretKey"; "lockedAt"]
  /\ Relations.filled_in StorageUser = ["id"; "state"; "phase"; "createdAt"; "updatedAt"].
Proof. split; reflexivity. Qed.

Lemma the_lock_of_a_storage_user_must_be_supplied :
  In "lockedAt" (Relations.must_supply StorageUser)
  /\ ~ In "lockedAt" (Relations.filled_in StorageUser)
  /\ (forall n,
        In n ["id"; "state"; "phase"; "createdAt"; "updatedAt"] ->
        has_field StorageUser n = true ->
        In n (Relations.filled_in StorageUser)
        /\ ~ In n (Relations.must_supply StorageUser)).
Proof.
  apply (lockedAt_must_be_supplied StorageUser). vm_compute. tauto.
Defined.

(** X7: every resource kind with a desired state can be asked to be deleted
    and can report it: [Deleted] is a desired state and a phase of the kind,
    and [Deleting] is a phase too except for [Subscription]; a kind without
    a desired state has neither phase. *)
Theorem deletion_can_be_asked_and_reported (m : Model) :
  In m resource_kinds ->
  (has_field m "state" = true ->
     In "Deleted" (state_values m) /\ In "Deleted" (phase_values m)
     /\ (mname m <> "Subscription" -> In "Deleting" (phase_values m)))
  /\ (has_field m "state" = false ->
      ~ In "Deleted" (phase_values m) /\ ~ In "Deleting" (phase_values m)).
Proof.
  intros Hm. pose proof (DefaultFacts.deletion_checked m Hm) as H.
  unfold Relations.deletion_ok in H. split; intros Hs; rewrite Hs in H.
  - rewrite !andb_true_iff, orb_true_iff in H. destruct H as [[H1 H2] H3].
    split; [apply SchemaFacts.mem_In; exact H1|].
    split; [apply SchemaFacts.mem_In; exact H2|].
    intros Hne. destruct H3 as [H3|H3].
    + apply String.eqb_eq in H3. contradiction.
    + apply SchemaFacts.mem_In. exact H3.
  - rewrite andb_true_iff, !negb_true_iff in H. destruct H as [H1 H2].
    split; intros Hin; apply SchemaFacts.mem_In in Hin.
    + rewrite Hin in H1. discriminate H1.
    + rewrite Hin in H2. discriminate H2.
Qed.

Lemma a_subscription_is_deleted_without_deleting :
  In Subscription resource_kinds
  /\ phase_values Subscription
     = ["Pending"; "Valid"; "Expired"; "ExpiredAndStopped"; "Deleted"]
  /\ In "Deleted" (state_values Subscription).
Proof.
  assert (Hs : In Subscription resource_kinds) by (vm_compute; tauto).
  split; [exact Hs|]. split; [reflexivity|].
  exact (proj1 (proj1 (deletion_can_be_asked_and_reported Subscription Hs) eq_refl)).
Defined.

(** ** The server: error log and request ids of a whole run *)

Module ServerLogFacts.

Import SystemServer ServerLog.

Lemma at_level_app (lv : Level) (a b : list LogLine) :
  at_level lv (a ++ b) = (at_level lv a ++ at_level lv b)%list.
Proof. unfold at_level. apply filter_app. Qed.

Lemma numbered_cons {A : Type} (n : nat) (x : A) (l : list A) :
  numbered n (x :: l) = (n, x) :: numbered (S n) l.
Proof. reflexivity. Qed.

Section Server.

Variable env : Env.

Lemma accepted_requests_cons (e : Incoming) (evs : list Incoming) :
  accepted_requests env (e :: evs)
  = (accepted_requests env [e] ++ accepted_requests env evs)%list.
Proof.
  unfold accepted_requests. cbn [flat_map]. rewrite app_nil_r. reflexivity.
Qed.

Lemma numbered_app {A : Type} (a b : list A) :
  forall n, numbered n (a ++ b) = (numbered n a ++ numbered (n + List.length a) b)%list.
Proof.
  induction a as [|x a IH]; intros n.
  - simpl. rewrite Nat.add_0_r. reflexivity.
  - cbn [app]. rewrite !numbered_cons, IH. cbn [List.length app].
    rewrite Nat.add_succ_r. reflexivity.
Qed.

Lemma access_lines_app (n : nat) (a b : list Request) :
  access_lines env n (a ++ b)
  = (access_lines env n a ++ access_lines env (n + List.length a) b)%list.
Proof. unfold access_lines. rewrite numbered_app. apply map_app. Qed.

Lemma trace_lines_app (n : nat) (a b : list Request) :
  trace_lines env n (a ++ b)
  = (trace_lines env n a ++ trace_lines env (n + List.length a) b)%list.
Proof. unfold trace_lines. rewrite numbered_app. apply map_app. Qed.

(** What one event adds, with both handlers installed: its answers, its
    error line, and for a request that passes the body parser its two lines
    under the next request id. *)
Lemma receive_adds (e : Incoming) (p : Process) :
  up env p ->
  let p' := receive env e p in
  let reqs := accepted_requests env [e] in
  responses p' = (responses p ++ answers env e)%list
  /\ at_level LError (log p') = (at_level LError (log p) ++ error_lines env e)%list
  /\ served p' = (served p + List.length reqs)%nat
  /\ at_level LInfo (log p')
     = (at_level LInfo (log p) ++ access_lines env (served p) reqs)%list
  /\ at_level LTrace (log p')
     = (at_level LTrace (log p) ++ trace_lines env (served p) reqs)%list.
Proof.
  intros (H1 & H2 & H3). unfold receive. rewrite H1.
  destruct e as [req|reason promise|err]; cbn zeta.
  - rewrite H2. unfold handle, answers, answer, error_lines, accepted_requests.
    cbn [flat_map].
    destruct (express_json env req) as [[code page]|].
    + simpl. rewrite !app_nil_r, Nat.add_0_r. repeat split.
    + destruct (router env req _) as [code content|reason promise];
        try rewrite ServerFacts.unhandled_logs by exact H3;
        unfold respond, logger, with_log; cbn [responses log served exitCode
          listening listeners];
        rewrite ?at_level_app; simpl;
        rewrite ?app_nil_r; repeat split; try lia;
        rewrite <- ?app_assoc; reflexivity.
  - rewrite ServerFacts.unhandled_logs by exact H3.
    unfold logger, with_log. simpl. rewrite !at_level_app. simpl.
    rewrite !app_nil_r, Nat.add_0_r. repeat split.
  - rewrite ServerFacts.uncaught_logs by exact H3.
    unfold logger, with_log. simpl. rewrite !at_level_app. simpl.
    rewrite !app_nil_r, Nat.add_0_r. repeat split.
Qed.

(** The same over a whole run. *)
Lemma serve_adds (evs : list Incoming) :
  forall p,
    up env p ->
    let p' := serve env p evs in
    let reqs := accepted_requests env evs in
    responses p' = (responses p ++ flat_map (answers env) evs)%list
    /\ at_level LError (log p')
       = (at_level LError (log p) ++ flat_map (error_lines env) evs)%list
    /\ served p' = (served p + List.length reqs)%nat
    /\ at_level LInfo (log p')
       = (at_level LInfo (log p) ++ access_lines env (served p) reqs)%list
    /\ at_level LTrace (log p')
       = (at_level LTrace (log p) ++ trace_lines env (served p) reqs)%list.
Proof.
  induction evs as [|e evs IH]; intros p Hup; cbn zeta.
  - simpl. rewrite !app_nil_r, Nat.add_0_r. repeat split.
  - pose proof (receive_adds e p Hup) as A. cbn zeta in A.
    pose proof (ServerFacts.receive_keeps_up env e p Hup) as Hup'.
    set (q := receive env e p) in *.
    pose proof (IH q Hup') as B. cbn zeta in B.
    change (serve env p (e :: evs)) with (serve env q evs).
    destruct A as (A1 & A2 & A3 & A4 & A5).
    destruct B as (B1 & B2 & B3 & B4 & B5).
    rewrite B1, B2, B3, B4, B5, A1, A2, A3, A4, A5.
    rewrite (accepted_requests_cons e evs), length_app, access_lines_app,
      trace_lines_app.
    rewrite <- !app_assoc, Nat.add_assoc. repeat split.
Qed.

End Server.

End ServerLogFacts.

(** X9: over any run of the process started by the script, the error lines
    of the log are exactly one line per uncaught exception, per unhandled
    rejection and per request whose handler rejected asynchronously, in the
    order in which they occurred; nothing else is logged as an error. When
    the port could not be bound, the one error line is the one of that
    exception. *)
Theorem error_lines_of_a_run
  (env : SystemServer.Env) (b : SystemServer.Bind)
  (evs : list SystemServer.Incoming) :
  ServerLog.at_level SystemServer.LError
    (SystemServer.log (SystemServer.serve env (SystemServer.main env b) evs))
  = (ServerLog.at_level SystemServer.LError (ServerLog.bind_lines env b)
       ++ flat_map (ServerLog.error_lines env) (ServerLog.reaching b evs))%list.
Proof.
  destruct b as [|err].
  - pose proof (ServerLogFacts.serve_adds env evs (SystemServer.main env SystemServer.Bound)
                  (ServerFacts.main_is_up env)) as (_ & H & _).
    exact H.
  - rewrite (ServerFacts.exited_stays env evs _ 0%nat) by reflexivity. reflexivity.
Qed.

(** X10: over any run of the process started by the script, each request
    that passes the body parser draws one request id, the next one, and is
    logged under it twice, in its access line and in its trace line; nothing
    else is logged at these two levels but the line of [listen]. When the
    port could not be bound there is no such line at all. *)
Theorem request_ids_of_a_run
  (env : SystemServer.Env) (b : SystemServer.Bind)
  (evs : list SystemServer.Incoming) :
  let p := SystemServer.serve env (SystemServer.main env b) evs in
  let reqs := ServerLog.accepted_requests env (ServerLog.reaching b evs) in
  SystemServer.served p = List.length reqs
  /\ ServerLog.at_level SystemServer.LInfo (SystemServer.log p)
     = (ServerLog.at_level SystemServer.LInfo (ServerLog.bind_lines env b)
          ++ ServerLog.access_lines env 0 reqs)%list
  /\ ServerLog.at_level SystemServer.LTrace (SystemServer.log p)
     = ServerLog.trace_lines env 0 reqs.
Proof.
  intros p reqs. destruct b as [|err].
  - pose proof (ServerLogFacts.serve_adds env evs (SystemServer.main env SystemServer.Bound)
                  (ServerFacts.main_is_up env)) as (_ & _ & H3 & H4 & H5).
    cbn zeta in H3, H4, H5. split; [exact H3|]. split; [exact H4|exact H5].
  - unfold p. rewrite (ServerFacts.exited_stays env evs _ 0%nat) by reflexivity.
    repeat split.
Qed.

(** ** The data panel: saving, editing and querying *)

Module PanelFacts.

Import DataPanel PanelView.

Section View.

Variable Server : Type.
Variable JSON_parse : string -> JsError + json.
Variable mutateAsync : json -> Server -> Server * option JsError.
Variable t : string -> string.

(** Saving never changes the text that is saved. *)
Lemma handleData_keeps_record (p : Panel Server) :
  record Server (handleData Server JSON_parse mutateAsync t p) = record Server p.
Proof.
  unfold handleData.
  destruct (JSON_parse (record Server p)) as [e|params]; [reflexivity|].
  destruct (Object_keys params) as [e|keys]; [reflexivity|].
  destruct (Nat.eqb (List.length keys) 0); [reflexivity|].
  destruct (mutateAsync params (server Server p)) as [srv [e|]]; reflexivity.
Qed.

(** Only the editor writes the text. *)
Lemma react_record (e : UiEvent) (v : View Server) :
  record Server (panel Server (react Server JSON_parse mutateAsync t e v))
  = match e with
    | EditorChange values => values
    | _ => record Server (panel Server v)
    end.
Proof.
  destruct e; try reflexivity. simpl. apply handleData_keeps_record.
Qed.

Lemma play_cons (v : View Server) (e : UiEvent) (evs : list UiEvent) :
  play Server JSON_parse mutateAsync t v (e :: evs)
  = play Server JSON_parse mutateAsync t
      (react Server JSON_parse mutateAsync t e v) evs.
Proof. reflexivity. Qed.

Lemma play_record (evs : list UiEvent) :
  forall v,
    record Server (panel Server (play Server JSON_parse mutateAsync t v evs))
    = last_edit evs (record Server (panel Server v)).
Proof.
  induction evs as [|e evs IH]; intros v; [reflexivity|].
  rewrite play_cons, IH, react_record. destruct e; reflexivity.
Qed.

(** As long as the text is the initial one, Save shows the same error and
    sends nothing. *)
Lemma play_unedited (evs : list UiEvent) :
  JSON_parse "{}" = inr (JObject []) ->
  forallb (fun e => negb (is_edit e)) evs = true ->
  forall v,
    record Server (panel Server v) = "{}" ->
    let w := play Server JSON_parse mutateAsync t v evs in
    mutations Server (panel Server w) = mutations Server (panel Server v)
    /\ server Server (panel Server w) = server Server (panel Server v)
    /\ shownErrors Server (panel Server w)
       = (shownErrors Server (panel Server v)
            ++ repeat (t "DataEntry.CreateError")
                 (List.length (filter is_save evs)))%list.
Proof.
  intros Hparse. induction evs as [|e evs IH]; intros Hne v Hrec; cbn zeta.
  - simpl. rewrite app_nil_r. repeat split.
  - simpl in Hne. apply andb_prop in Hne. destruct Hne as [He Hne].
    assert (Hrec' : record Server
                      (panel Server (react Server JSON_parse mutateAsync t e v))
                    = "{}").
    { rewrite react_record. destruct e; try exact Hrec. discriminate He. }
    pose proof (IH Hne _ Hrec') as B. cbn zeta in B.
    destruct B as (B1 & B2 & B3).
    rewrite play_cons, B1, B2, B3.
    destruct e; try discriminate He; simpl; try (repeat split; reflexivity).
    unfold handleData. rewrite Hrec, Hparse. simpl.
    rewrite <- app_assoc. repeat split.
Qed.

(** The search term of the query is the one of the last search. *)
Lemma play_search_term (evs : list UiEvent) :
  forall v,
    q_id (spread (queryData Server (play Server JSON_parse mutateAsync t v evs)))
    = last_search evs (q_id (spread (queryData Server v))).
Proof.
  induction evs as [|e evs IH]; intros v; [reflexivity|].
  rewrite play_cons, IH. destruct e; reflexivity.
Qed.

(** Without another search or page change the query of a search stays. *)
Lemma play_after_search (evs : list UiEvent) (d : string) :
  forallb (fun e => negb (pages e)) evs = true ->
  forall v,
    queryData Server v = Some (mkQuery (Some d) (Some 1%Z) None None) ->
    queryData Server (play Server JSON_parse mutateAsync t v evs)
    = Some (mkQuery (Some d) (Some 1%Z) None None).
Proof.
  induction evs as [|e evs IH]; intros Hq v Hv; [exact Hv|].
  simpl in Hq. apply andb_prop in Hq. destruct Hq as [He Hq].
  rewrite play_cons. apply (IH Hq).
  destruct e; try discriminate He; simpl; try exact Hv.
  unfold onDeleteSuccess. rewrite Hv. reflexivity.
Qed.

Lemma play_app (v : View Server) (a b : list UiEvent) :
  play Server JSON_parse mutateAsync t v (a ++ b)
  = play Server JSON_parse mutateAsync t
      (play Server JSON_parse mutateAsync t v a) b.
Proof. unfold play. apply fold_left_app. Qed.

End View.

End PanelFacts.

(** X12: every Save has one of two outcomes and never changes the edited
    text: either one error is shown, the update mutation is not called and
    the documents are untouched; or the text parsed to a value with at least
    one key, the mutation is called exactly once with that value, and an
    error is shown exactly when the mutation rejects. *)
Theorem handleData_outcomes
  (Server : Type) (JSON_parse : string -> DataPanel.JsError + DataPanel.json)
  (mutateAsync : DataPanel.json -> Server -> Server * option DataPanel.JsError)
  (t : string -> string) (p : DataPanel.Panel Server) :
  let p' := DataPanel.handleData Server JSON_parse mutateAsync t p in
  DataPanel.record Server p' = DataPanel.record Server p
  /\ ((DataPanel.mutations Server p' = DataPanel.mutations Server p
       /\ DataPanel.server Server p' = DataPanel.server Server p
       /\ exists msg,
            DataPanel.shownErrors Server p'
            = (DataPanel.shownErrors Server p ++ [msg])%list)
      \/ (exists params keys,
            JSON_parse (DataPanel.record Server p) = inr params
            /\ DataPanel.Object_keys params = inr keys
            /\ keys <> []
            /\ DataPanel.mutations Server p'
               = (DataPanel.mutations Server p ++ [params])%list
            /\ DataPanel.server Server p'
               = fst (mutateAsync params (DataPanel.server Server p))
            /\ DataPanel.shownErrors Server p'
               = (DataPanel.shownErrors Server p
                    ++ match snd (mutateAsync params (DataPanel.server Server p)) with
                       | Some e => [DataPanel.toString e]
                       | None => []
                       end)%list)).
Proof.
  intros p'. split; [apply PanelFacts.handleData_keeps_record|].
  unfold p', DataPanel.handleData.
  destruct (JSON_parse (DataPanel.record Server p)) as [e|params] eqn:Hp.
  - left. repeat split. eexists. reflexivity.
  - destruct (DataPanel.Object_keys params) as [e|keys] eqn:Hk.
    + left. repeat split. eexists. reflexivity.
    + destruct keys as [|k keys]; simpl.
      * left. repeat split. eexists. reflexivity.
      * right. exists params, (k :: keys).
        split; [reflexivity|]. split; [exact Hk|]. split; [discriminate|].
        destruct (mutateAsync params (DataPanel.server Server p)) as [srv [e|]];
          simpl; rewrite ?app_nil_r; repeat split.
Qed.

(** X13: until the editor reports a change the saved text is the initial
    ["{}"], so every Save shows the [DataEntry.CreateError] message and the
    update mutation is never called, whichever documents were selected,
    searched, paged or deleted in between (given that [JSON.parse] reads
    ["{}"] as the empty object). *)
Theorem saving_before_editing
  (Server : Type) (JSON_parse : string -> DataPanel.JsError + DataPanel.json)
  (mutateAsync : DataPanel.json -> Server -> Server * option DataPanel.JsError)
  (t : string -> string) (srv : Server) (evs : list PanelView.UiEvent) :
  JSON_parse "{}" = inr (DataPanel.JObject []) ->
  forallb (fun e => negb (PanelView.is_edit e)) evs = true ->
  let v := PanelView.play Server JSON_parse mutateAsync t
             (PanelView.mount Server srv) evs in
  DataPanel.record Server (PanelView.panel Server v) = "{}"
  /\ DataPanel.mutations Server (PanelView.panel Server v) = []
  /\ DataPanel.server Server (PanelView.panel Server v) = srv
  /\ DataPanel.shownErrors Server (PanelView.panel Server v)
     = repeat (t "DataEntry.CreateError")
         (List.length (filter PanelView.is_save evs)).
Proof.
  intros Hparse Hne v.
  pose proof (PanelFacts.play_unedited Server JSON_parse mutateAsync t evs Hparse
                Hne (PanelView.mount Server srv) eq_refl) as B.
  cbn zeta in B. destruct B as (B1 & B2 & B3). fold v in B1, B2, B3.
  split.
  - unfold v. rewrite PanelFacts.play_record.
    clear - Hne. simpl.
    generalize "{}" as text. induction evs as [|e evs IH]; intros text;
      [reflexivity|].
    simpl in Hne. apply andb_prop in Hne. destruct Hne as [He Hne].
    destruct e; try discriminate He; simpl; exact (IH Hne text).
  - split; [exact B1|]. split; [exact B2|exact B3].
Qed.

Lemma selecting_then_saving_sends_nothing :
  let v :=
    PanelView.play (list DataPanel.json) DataPanel.json_parse
      DataPanel.store_document DataPanel.identity_t
      (PanelView.mount _ [])
      [PanelView.QueryResult (Some [DataPanel.JObject [("_id", DataPanel.JString "a")]]);
       PanelView.Save;
       PanelView.ItemClick (DataPanel.JObject [("_id", DataPanel.JString "b")]);
       PanelView.Save] in
  DataPanel.record _ (PanelView.panel _ v) = "{}"
  /\ DataPanel.mutations _ (PanelView.panel _ v) = []
  /\ DataPanel.server _ (PanelView.panel _ v) = []
  /\ DataPanel.shownErrors _ (PanelView.panel _ v)
     = ["DataEntry.CreateError"; "DataEntry.CreateError"].
Proof.
  apply (saving_before_editing (list DataPanel.json) DataPanel.json_parse
           DataPanel.store_document DataPanel.identity_t []
           [PanelView.QueryResult
              (Some [DataPanel.JObject [("_id", DataPanel.JString "a")]]);
            PanelView.Save;
            PanelView.ItemClick (DataPanel.JObject [("_id", DataPanel.JString "b")]);
            PanelView.Save]).
  - reflexivity.
  - reflexivity.
Defined.

(** X14: whatever happens to the mounted panel, the text that Save parses
    is the text of the last change the editor reported, or ["{}"] if it
    reported none: selecting a document, a query result, a search, a page
    change, a delete and Save itself leave it alone. *)
Theorem saved_text_is_the_last_edit
  (Server : Type) (JSON_parse : string -> DataPanel.JsError + DataPanel.json)
  (mutateAsync : DataPanel.json -> Server -> Server * option DataPanel.JsError)
  (t : string -> string) (srv : Server) (evs : list PanelView.UiEvent) :
  DataPanel.record Server
    (PanelView.panel Server
       (PanelView.play Server JSON_parse mutateAsync t (PanelView.mount Server srv)
          evs))
  = PanelView.last_edit evs "{}".
Proof. apply PanelFacts.play_record. Qed.

(** X15: whatever happens to the mounted panel, the search term of the query
    is the term of the last search (none before the first); and after a
    search, until the next search or page change, the query is page 1 of
    that term without page size or total, deletes included. *)
Theorem query_follows_the_last_search
  (Server : Type) (JSON_parse : string -> DataPanel.JsError + DataPanel.json)
  (mutateAsync : DataPanel.json -> Server -> Server * option DataPanel.JsError)
  (t : string -> string) (srv : Server) (evs : list PanelView.UiEvent) :
  let play := PanelView.play Server JSON_parse mutateAsync t
                (PanelView.mount Server srv) in
  PanelView.q_id (PanelView.spread (PanelView.queryData Server (play evs)))
  = PanelView.last_search evs None
  /\ (forall d later,
        forallb (fun e => negb (PanelView.pages e)) later = true ->
        PanelView.queryData Server (play (evs ++ PanelView.Search d :: later)%list)
        = Some (PanelView.mkQuery (Some d) (Some 1%Z) None None)).
Proof.
  intros play. split.
  - unfold play. rewrite PanelFacts.play_search_term. reflexivity.
  - intros d later Hq. unfold play. rewrite PanelFacts.play_app.
    rewrite PanelFacts.play_cons.
    apply (PanelFacts.play_after_search Server JSON_parse mutateAsync t later d Hq).
    reflexivity.
Qed.

Lemma a_delete_on_page_three :
  PanelView.queryData _
    (PanelView.play (list DataPanel.json) DataPanel.json_parse
       DataPanel.store_document DataPanel.identity_t (PanelView.mount _ [])
       [PanelView.DeleteSuccess])
  = Some (PanelView.mkQuery None (Some 1%Z) None None)
  /\ PanelView.queryData _
       (PanelView.play (list DataPanel.json) DataPanel.json_parse
          DataPanel.store_document DataPanel.identity_t (PanelView.mount _ [])
          [PanelView.Search "abc";
           PanelView.PageChange (PanelView.mkPage (Some 3%Z) (Some 20%Z) None);
           PanelView.DeleteSuccess])
     = Some (PanelView.mkQuery (Some "abc") (Some 1%Z) (Some 20%Z) None).
Proof. split; reflexivity. Qed.
